(** * Signing service: device store, signature chaining, counter discipline

    A shallow embedding of the Go sources of the signing service

      - crypto/signer.go            the [Signer] interface and its two variants
      - model (device.go, sign.go)  the records
      - persistence/inmemory.go     the in-memory [DeviceStorage]
      - domain/service.go           [CreateDevice], [SignData], [GetDevice],
                                    [GetAllDevices]

    The repository carries two copies of the in-memory store and of the
    domain service.  Each copy is embedded in a module of its own, named after
    the file (and line range) it is translated from, and every statement says
    which copy it is about.

    Go values are modelled as follows.  A [string] is a byte string; [int] is
    a 64-bit two's complement integer carried in [Z] with the wrap-around
    written out; [error] is the message of the error; a pointer
    [*SignatureDevice] is an address into an explicit heap, so that the
    sharing between the store, the service and the callers is visible; a
    slice [[]*SignatureDevice] is an address of a backing array.

    A method body is first a state transformer (one call at a time).  For
    calls that run in parallel, the body of [SignData] is cut into its
    actions and the service mutex [s.mu] is modelled by a step relation on
    configurations of goroutines; the read-write mutex inside the store
    guards single map operations, which are atomic actions here. *)

From Stdlib Require Import ZArith Strings.Byte Strings.String Strings.Ascii.
From stdpp Require Import gmap strings list fin_maps pretty.

Open Scope string_scope.
Open Scope Z_scope.
Open Scope list_scope.

(* ---------------------------------------------------------------------- *)
(** ** Go runtime values                                                   *)
(* ---------------------------------------------------------------------- *)

Module Go.

(** [error]: the text that [err.Error()] returns. *)
Abbreviation error := string (only parsing).

(** A Go result pair [(T, error)] with exactly one side set. *)
Inductive result (A : Type) : Type :=
| Ok (a : A)
| Err (e : error).
Arguments Ok {A} a.
Arguments Err {A} e.

Definition is_Ok {A} (r : result A) : bool :=
  match r with Ok _ => true | Err _ => false end.

(** [[]byte]. *)
Abbreviation bytes := (list byte) (only parsing).

(** [[]byte(s)]. *)
Definition bytes_of_string (s : string) : bytes := String.list_byte_of_string s.

(** [int] on a 64-bit platform. *)
Definition max_int : Z := 2 ^ 63 - 1.
Definition min_int : Z := - 2 ^ 63.
Definition wrap_int (z : Z) : Z := (z + 2 ^ 63) mod 2 ^ 64 - 2 ^ 63.

(** [x++] on an [int]. *)
Definition incr (x : Z) : Z := wrap_int (x + 1).

(** The verb [%d] of package fmt on an [int]. *)
Definition fmt_d (x : Z) : string := pretty x.

(** [fmt.Sprintf("%d_%s_%s", c, data, last)]. *)
Definition Sprintf_d_s_s (c : Z) (data last : string) : string :=
  fmt_d c +:+ "_" +:+ data +:+ "_" +:+ last.

(** *** encoding/base64, [StdEncoding] (RFC 4648, with padding) *)

Definition encodeStd : list ascii :=
  list_ascii_of_string
    "ABCDEFGHIJKLMNOPQRSTUVWXYZabcdefghijklmnopqrstuvwxyz0123456789+/".

Definition sextet (v : Z) (shift : Z) : ascii :=
  nth (Z.to_nat (Z.land (Z.shiftr v shift) 63)) encodeStd "="%char.

Definition val (b : byte) : Z := Z.of_N (Byte.to_N b).

Fixpoint EncodeToString (src : bytes) : string :=
  match src with
  | [] => ""
  | [a] =>
      let v := Z.shiftl (val a) 16 in
      String (sextet v 18) (String (sextet v 12) "==")
  | [a; b] =>
      let v := Z.lor (Z.shiftl (val a) 16) (Z.shiftl (val b) 8) in
      String (sextet v 18) (String (sextet v 12) (String (sextet v 6) "="))
  | a :: b :: c :: rest =>
      let v := Z.lor (Z.lor (Z.shiftl (val a) 16) (Z.shiftl (val b) 8)) (val c) in
      String (sextet v 18) (String (sextet v 12)
        (String (sextet v 6) (String (sextet v 0) (EncodeToString rest))))
  end.

(** [base64.StdEncoding.EncodeToString([]byte(s))]. *)
Definition base64 (s : string) : string := EncodeToString (bytes_of_string s).

End Go.
Import Go.

(* ---------------------------------------------------------------------- *)
(** ** Package crypto                                                      *)
(* ---------------------------------------------------------------------- *)

(** What the signers and the key generators take from Go's standard library
    (crypto/rand, crypto/sha256, crypto/rsa, crypto/ecdsa).  [Rand] is the
    state of [rand.Reader]: both signature schemes and both generators draw
    from it.  The two [Generate] methods belong to crypto/generator.go, which
    is outside the translated sources; they are taken as given, with the
    signature their callers use. *)
Class Primitives := {
  Rand : Type;
  rsa_PrivateKey : Type;
  rsa_PublicKey : Type;
  ecdsa_PrivateKey : Type;
  ecdsa_PublicKey : Type;
  sha256_Sum256 : list byte → list byte;
  rsa_SignPKCS1v15 : Rand → rsa_PrivateKey → list byte → result (list byte) * Rand;
  ecdsa_SignASN1 : Rand → ecdsa_PrivateKey → list byte → result (list byte) * Rand;
  RSAGenerator_Generate : Rand → result (rsa_PublicKey * rsa_PrivateKey) * Rand;
  ECCGenerator_Generate : Rand → result (ecdsa_PublicKey * ecdsa_PrivateKey) * Rand
}.

Module crypto.
Section signer.
Context `{Primitives}.

(** [type Signer interface { Sign(dataToBeSigned []byte) ([]byte, error) }]
    with its two implementations. *)
Inductive Signer : Type :=
| RSASigner (privateKey : rsa_PrivateKey)
| ECDSASigner (privateKey : ecdsa_PrivateKey).

Definition NewRSASigner (privateKey : rsa_PrivateKey) : Signer :=
  RSASigner privateKey.

Definition NewECDSASigner (privateKey : ecdsa_PrivateKey) : Signer :=
  ECDSASigner privateKey.

(** The method [Sign], dispatched on the dynamic type of the receiver. *)
Definition Sign (s : Signer) (dataToBeSigned : list byte) (r : Rand)
  : result (list byte) * Rand :=
  match s with
  | RSASigner privateKey =>
      let hash := sha256_Sum256 dataToBeSigned in
      rsa_SignPKCS1v15 r privateKey hash
  | ECDSASigner privateKey =>
      let hash := sha256_Sum256 dataToBeSigned in
      ecdsa_SignASN1 r privateKey hash
  end.
End signer.
End crypto.

(* ---------------------------------------------------------------------- *)
(** ** Package model                                                       *)
(* ---------------------------------------------------------------------- *)

Module model.
Section records.
Context `{Primitives}.

(** A value of the empty interface, as the key fields hold it. *)
Inductive any : Type :=
| nil
| RSAPrivate (k : rsa_PrivateKey)
| RSAPublic (k : rsa_PublicKey)
| ECPrivate (k : ecdsa_PrivateKey)
| ECPublic (k : ecdsa_PublicKey).

Record SignatureDevice := mkDevice {
  ID : string;
  Label : string;
  Algorithm : string;
  SignatureCounter : Z;
  LastSignature : string;
  PublicKey : any;
  PrivateKey : any;
  Signer : option crypto.Signer        (** [None] is the nil interface value *)
}.

Record CreateDeviceOptions := mkCreate {
  opt_ID : string;
  opt_Label : string;
  opt_Algorithm : string
}.

Record SignDataOptions := mkSign {
  DeviceID : string;
  Data : string
}.

Record SignDataResponse := mkResp {
  Signature : string;
  SignedData : string
}.

Definition set_SignatureCounter (c : Z) (d : SignatureDevice) : SignatureDevice :=
  mkDevice (ID d) (Label d) (Algorithm d) c (LastSignature d)
           (PublicKey d) (PrivateKey d) (Signer d).

Definition set_LastSignature (l : string) (d : SignatureDevice) : SignatureDevice :=
  mkDevice (ID d) (Label d) (Algorithm d) (SignatureCounter d) l
           (PublicKey d) (PrivateKey d) (Signer d).

Definition set_Label (l : string) (d : SignatureDevice) : SignatureDevice :=
  mkDevice (ID d) l (Algorithm d) (SignatureCounter d) (LastSignature d)
           (PublicKey d) (PrivateKey d) (Signer d).
End records.
End model.
Import model.

(* ---------------------------------------------------------------------- *)
(** ** Program state and the monad of method bodies                        *)
(* ---------------------------------------------------------------------- *)

(** Addresses of heap objects. *)
Abbreviation ptr := positive (only parsing).

Section state.
Context `{Primitives}.

Record State := mkState {
  devices : gmap string ptr;           (** the field [devices] of the store *)
  heap : gmap ptr SignatureDevice;     (** the [SignatureDevice] objects *)
  slices : gmap ptr (list ptr);        (** backing arrays of device slices *)
  rand : Rand;                         (** [rand.Reader] *)
  generate_calls : list string         (** ghost: the calls of a key generator, by algorithm *)
}.

(** A method body: a state transformer that may panic ([None]), which is
    what dereferencing an address that holds no object does. *)
Definition M (A : Type) : Type := State → option (A * State).

Definition ret {A} (a : A) : M A := λ s, Some (a, s).

Definition bind {A B} (m : M A) (f : A → M B) : M B :=
  λ s, match m s with
       | Some (a, s') => f a s'
       | None => None
       end.

Definition get_state : M State := λ s, Some (s, s).
Definition panic {A} : M A := λ _, None.

(** Reading the object at [p]. *)
Definition load (p : ptr) : M SignatureDevice :=
  λ s, match heap s !! p with
       | Some d => Some (d, s)
       | None => None
       end.

(** Assignment to fields of the object at [p]. *)
Definition modify (p : ptr) (f : SignatureDevice → SignatureDevice) : M unit :=
  λ s, match heap s !! p with
       | Some d =>
           Some (tt, mkState (devices s) (<[p := f d]> (heap s)) (slices s)
                             (rand s) (generate_calls s))
       | None => None
       end.

(** [&SignatureDevice{...}] *)
Definition alloc (d : SignatureDevice) : M ptr :=
  λ s, let p := fresh (dom (heap s)) in
       Some (p, mkState (devices s) (<[p := d]> (heap s)) (slices s)
                        (rand s) (generate_calls s)).

(** A new backing array holding [l]. *)
Definition alloc_slice (l : list ptr) : M ptr :=
  λ s, let a := fresh (dom (slices s)) in
       Some (a, mkState (devices s) (heap s) (<[a := l]> (slices s))
                        (rand s) (generate_calls s)).

(** A call that draws from [rand.Reader]. *)
Definition with_rand {A} (f : Rand → A * Rand) : M A :=
  λ s, let '(a, r) := f (rand s) in
       Some (a, mkState (devices s) (heap s) (slices s) r (generate_calls s)).

(** Ghost: note that the key generator for [alg] is called. *)
Definition note_generate (alg : string) : M unit :=
  λ s, Some (tt, mkState (devices s) (heap s) (slices s) (rand s)
                         (generate_calls s ++ [alg])%list).

(** [m[k] = p] on the map of the store. *)
Definition map_store (k : string) (p : ptr) : M unit :=
  λ s, Some (tt, mkState (<[k := p]> (devices s)) (heap s) (slices s)
                         (rand s) (generate_calls s)).

(** [p, exists := m[k]] *)
Definition map_lookup (k : string) : M (option ptr) :=
  λ s, Some (devices s !! k, s).
End state.

Declare Scope go_scope.
Delimit Scope go_scope with go.
Notation "'let*' x ':=' m 'in' k" := (bind m (λ x, k))
  (at level 10, x name, m at level 100, k at level 200,
   format "'[v' 'let*'  x  ':='  m  'in'  '/' k ']'") : go_scope.
Notation "'run' m 'in' k" := (bind m (λ _, k))
  (at level 10, m at level 100, k at level 200,
   format "'[v' 'run'  m  'in'  '/' k ']'") : go_scope.
Open Scope go_scope.

(* ---------------------------------------------------------------------- *)
(** ** Package domain: the storage contract                                *)
(* ---------------------------------------------------------------------- *)

(** domain/storage.go, [type DeviceStorage interface]: a value of the
    interface is the table of its four methods.  [Save] and [Update] return
    the [error] ([None] for [nil]). *)
Module storage_go.
Record DeviceStorage `{Primitives} := {
  Save : ptr → M (option error);
  Update : ptr → M (option error);
  GetDevice : string → M (result ptr);
  GetAllDevices : M (result ptr)
}.
End storage_go.

(* ---------------------------------------------------------------------- *)
(** ** Package persistence: the in-memory store                            *)
(* ---------------------------------------------------------------------- *)

(** persistence/inmemory.go, lines 1-69: the copy whose [Save] refuses an
    identifier that is already present. *)
Module inmemory_go_a.
Section methods.
Context `{Primitives}.

Definition Save (device : ptr) : M (option error) :=
  let* d := load device in
  let* found := map_lookup (ID d) in
  match found with
  | Some _ => ret (Some ("device " +:+ ID d +:+ " already exists"))
  | None =>
      run map_store (ID d) device in
      ret None
  end.

Definition Update (device : ptr) : M (option error) :=
  let* d := load device in
  run map_store (ID d) device in
  ret None.

Definition GetDevice (id : string) : M (result ptr) :=
  let* found := map_lookup id in
  match found with
  | None => ret (Err "device not found")
  | Some device => ret (Ok device)
  end.

(** The loop ranges over the map in an order Go leaves unspecified; the
    model takes the order of [map_to_list]. *)
Definition GetAllDevices : M (result ptr) :=
  let* s := get_state in
  let* devices := alloc_slice (map_to_list (devices s)).*2 in
  ret (Ok devices).

(** [NewInMemoryStorage()], seen through the interface.  The map itself is
    the component [devices] of the state. *)
Definition NewInMemoryStorage : storage_go.DeviceStorage :=
  storage_go.Build_DeviceStorage _ Save Update GetDevice GetAllDevices.
End methods.
End inmemory_go_a.

(** persistence/inmemory.go, lines 71-124: the copy whose [Save] stores
    without looking. *)
Module inmemory_go_b.
Section methods.
Context `{Primitives}.

Definition Save (device : ptr) : M (option error) :=
  let* d := load device in
  run map_store (ID d) device in
  ret None.

Definition Update (device : ptr) : M (option error) :=
  let* d := load device in
  run map_store (ID d) device in
  ret None.

Definition GetDevice (id : string) : M (result ptr) :=
  let* found := map_lookup id in
  match found with
  | None => ret (Err "device not found")
  | Some device => ret (Ok device)
  end.

Definition GetAllDevices : M (result ptr) :=
  let* s := get_state in
  let* devices := alloc_slice (map_to_list (devices s)).*2 in
  ret (Ok devices).

(** [NewInMemoryStorage()], seen through the interface.  The map itself is
    the component [devices] of the state. *)
Definition NewInMemoryStorage : storage_go.DeviceStorage :=
  storage_go.Build_DeviceStorage _ Save Update GetDevice GetAllDevices.
End methods.
End inmemory_go_b.

(* ---------------------------------------------------------------------- *)
(** ** Package domain: the signature device service                        *)
(* ---------------------------------------------------------------------- *)

(** The parts that the two copies of the service share word for word. *)
Section service_common.
Context `{Primitives}.

(** [type SignatureDeviceService struct]; the mutex [mu] is the component
    [locked] of the configurations of goroutines further down. *)
Record SignatureDeviceService := {
  storage : storage_go.DeviceStorage
}.

Definition NewSignatureDeviceService (storage : storage_go.DeviceStorage)
  : SignatureDeviceService :=
  {| storage := storage |}.

(** The [switch] of [CreateDevice]: generate the key pair for the algorithm
    and bind the signer.  The result is [(privateKey, publicKey, signer)];
    the [switch] has no default case, so any other algorithm leaves the three
    variables at their zero value. *)
Definition switch_Algorithm (alg : string)
  : M (result (any * any * option crypto.Signer)) :=
  if String.eqb alg "RSA" then
    run note_generate "RSA" in
    let* keyPair := with_rand RSAGenerator_Generate in
    match keyPair with
    | Err err => ret (Err ("failed to generate RSA key pair: " +:+ err))
    | Ok (pub, priv) =>
        ret (Ok (RSAPrivate priv, RSAPublic pub, Some (crypto.NewRSASigner priv)))
    end
  else if String.eqb alg "ECC" then
    run note_generate "ECC" in
    let* keyPair := with_rand ECCGenerator_Generate in
    match keyPair with
    | Err err => ret (Err ("failed to generate ECC key pair: " +:+ err))
    | Ok (pub, priv) =>
        ret (Ok (ECPrivate priv, ECPublic pub, Some (crypto.NewECDSASigner priv)))
    end
  else ret (Ok (nil, nil, None)).

Definition CreateDevice (s : SignatureDeviceService) (opts : CreateDeviceOptions)
  : M (result ptr) :=
  if negb (String.eqb (opt_Algorithm opts) "RSA")
     && negb (String.eqb (opt_Algorithm opts) "ECC")
  then ret (Err ("invalid algorithm: " +:+ opt_Algorithm opts))
  else
    let* keys := switch_Algorithm (opt_Algorithm opts) in
    match keys with
    | Err err => ret (Err err)
    | Ok (privateKey, publicKey, signer) =>
        let initialSignature := base64 (opt_ID opts) in
        let* device :=
          alloc (mkDevice (opt_ID opts) (opt_Label opts) (opt_Algorithm opts)
                          0 initialSignature publicKey privateKey signer) in
        let* err := storage_go.Save (storage s) device in
        match err with
        | Some err => ret (Err ("failed to save device: " +:+ err))
        | None => ret (Ok device)
        end
    end.

Definition GetDevice (s : SignatureDeviceService) (id : string) : M (result ptr) :=
  let* r := storage_go.GetDevice (storage s) id in
  match r with
  | Err err => ret (Err ("failed to get device: " +:+ err))
  | Ok device => ret (Ok device)
  end.

Definition GetAllDevices (s : SignatureDeviceService) : M (result ptr) :=
  let* r := storage_go.GetAllDevices (storage s) in
  match r with
  | Err err => ret (Err ("failed to get all devices: " +:+ err))
  | Ok devices => ret (Ok devices)
  end.

(** [device.Signer.Sign(payload)]: the call through the interface value,
    drawing from [rand.Reader]. *)
Definition call_Sign (signer : option crypto.Signer) (payload : list byte)
  : M (result (list byte)) :=
  match signer with
  | Some sg => with_rand (crypto.Sign sg payload)
  | None => panic
  end.
End service_common.

(** domain/service.go: [SignData(deviceID, data)]. *)
Module service_go.
Section methods.
Context `{Primitives}.

Definition SignData (s : SignatureDeviceService) (deviceID : string) (data : string)
  : M (result SignDataResponse) :=
  let* found := storage_go.GetDevice (storage s) deviceID in
  match found with
  | Err err => ret (Err ("failed to find device: " +:+ err))
  | Ok device =>
      run modify device (λ d, set_SignatureCounter (incr (SignatureCounter d)) d) in
      let* d := load device in
      let counter := SignatureCounter d in
      let dataToBeSigned := Sprintf_d_s_s counter data (LastSignature d) in
      let* signed := call_Sign (Signer d) (bytes_of_string dataToBeSigned) in
      match signed with
      | Err err => ret (Err ("failed to sign data: " +:+ err))
      | Ok signature =>
          let signatureB64 := EncodeToString signature in
          run modify device (set_LastSignature signatureB64) in
          let* err := storage_go.Update (storage s) device in
          match err with
          | Some err => ret (Err ("failed to update device: " +:+ err))
          | None => ret (Ok (mkResp signatureB64 dataToBeSigned))
          end
      end
  end.
End methods.
End service_go.

(** The copy of domain/service.go that takes [model.SignDataOptions]
    (the source file unnamed/part_002). *)
Module part_002.
Section methods.
Context `{Primitives}.

Definition SignData (s : SignatureDeviceService) (opts : SignDataOptions)
  : M (result SignDataResponse) :=
  let* found := storage_go.GetDevice (storage s) (DeviceID opts) in
  match found with
  | Err err => ret (Err ("failed to find device: " +:+ err))
  | Ok device =>
      let* d := load device in
      let counter := SignatureCounter d in
      let dataToBeSigned := Sprintf_d_s_s counter (Data opts) (LastSignature d) in
      let* signed := call_Sign (Signer d) (bytes_of_string dataToBeSigned) in
      match signed with
      | Err err => ret (Err ("failed to sign data: " +:+ err))
      | Ok signature =>
          run modify device (λ d, set_SignatureCounter (incr (SignatureCounter d)) d) in
          let signatureB64 := EncodeToString signature in
          run modify device (set_LastSignature signatureB64) in
          let* err := storage_go.Update (storage s) device in
          match err with
          | Some err => ret (Err ("failed to update device: " +:+ err))
          | None => ret (Ok (mkResp signatureB64 dataToBeSigned))
          end
      end
  end.
End methods.
End part_002.

(* ---------------------------------------------------------------------- *)
(** ** A small instance of the primitives, to run the code on              *)
(* ---------------------------------------------------------------------- *)

(** Keys are numbers and the entropy source is a budget of draws: every key
    generation and every signature spends one draw and fails once the budget
    is used up (as [rand.Reader] returning an error makes the real calls
    fail).  The digest is the payload itself and a signature is the digest
    followed by one byte that depends on the draw.  Nothing below depends on
    these being cryptography: they only let the definitions above be
    evaluated. *)
Module Toy.
Definition sign (r : nat) (k : nat) (digest : list byte) : result (list byte) * nat :=
  match r with
  | O => (Err "crypto/rand: no entropy", O)
  | S r' => (Ok (digest ++ [default "0"%byte (Byte.of_nat (Nat.modulo (r + k) 256))])%list, r')
  end.

Definition generate (r : nat) : result (nat * nat) * nat :=
  match r with
  | O => (Err "crypto/rand: no entropy", O)
  | S r' => (Ok (r, r), r')
  end.

#[export] Instance primitives : Primitives := {|
  Rand := nat;
  rsa_PrivateKey := nat;
  rsa_PublicKey := nat;
  ecdsa_PrivateKey := nat;
  ecdsa_PublicKey := nat;
  sha256_Sum256 := λ data, data;
  rsa_SignPKCS1v15 := sign;
  ecdsa_SignASN1 := sign;
  RSAGenerator_Generate := generate;
  ECCGenerator_Generate := generate
|}.

(** A store without devices, with an entropy budget of [n] draws. *)
Definition empty (n : nat) : State := mkState ∅ ∅ ∅ n [].
End Toy.

(* ---------------------------------------------------------------------- *)
(** ** Vocabulary of the statements                                        *)
(* ---------------------------------------------------------------------- *)

(** The two copies of the in-memory store. *)
Inductive store_copy : Type :=
| lines_1_69      (** [inmemory_go_a]: [Save] refuses a present identifier *)
| lines_71_124.   (** [inmemory_go_b]: [Save] stores without looking *)

Section vocabulary.
Context `{Primitives}.

Definition InMemory (c : store_copy) : SignatureDeviceService :=
  NewSignatureDeviceService
    match c with
    | lines_1_69 => inmemory_go_a.NewInMemoryStorage
    | lines_71_124 => inmemory_go_b.NewInMemoryStorage
    end.

(** The record the store holds for [id]: the object behind the stored
    pointer. *)
Definition stored (st : State) (id : string) : option SignatureDevice :=
  match devices st !! id with
  | Some p => heap st !! p
  | None => None
  end.

(** [n] calls of [sign], one after the other, on the same device. *)
Fixpoint sequentially (sign : string → M (result SignDataResponse))
    (datas : list string) : M (list (result SignDataResponse)) :=
  match datas with
  | [] => ret []
  | data :: rest =>
      let* r := sign data in
      let* rs := sequentially sign rest in
      ret (r :: rs)
  end.

(** The signature that call [k] of a run chains to: the genesis value for
    the first call, the signature returned by call [k-1] afterwards. *)
Definition prev_signature (genesis : string) (rs : list (result SignDataResponse))
    (k : nat) : string :=
  match k with
  | O => genesis
  | S j => match rs !! j with
           | Some (Ok r) => Signature r
           | _ => ""
           end
  end.

(** The signature returned by the last call of a run. *)
Definition last_signature (genesis : string) (rs : list (result SignDataResponse))
  : string :=
  prev_signature genesis rs (length rs).

Definition all_Ok {A} (rs : list (result A)) : Prop := Forall (λ r, is_Ok r = true) rs.

(** The object a successful signature leaves behind. *)
Definition signed_device (sigB64 : string) (d : SignatureDevice) : SignatureDevice :=
  set_LastSignature sigB64 (set_SignatureCounter (incr (SignatureCounter d)) d).

Definition after_update (st : State) (p : ptr) (d' : SignatureDevice) (r' : Rand) : State :=
  mkState (<[ID d' := p]> (devices st)) (<[p := d']> (heap st)) (slices st) r'
          (generate_calls st).

Definition valid_algorithm (alg : string) : Prop := alg = "RSA" ∨ alg = "ECC".

(** The object [CreateDevice] builds from its options and the generated
    keys. *)
Definition new_device (opts : CreateDeviceOptions)
    (keys : any * any * option crypto.Signer) : SignatureDevice :=
  let '(privateKey, publicKey, signer) := keys in
  mkDevice (opt_ID opts) (opt_Label opts) (opt_Algorithm opts) 0
           (base64 (opt_ID opts)) publicKey privateKey signer.

(** The state after the object is allocated, before it is saved. *)
Definition allocated (st0 : State) (d : SignatureDevice) : State :=
  mkState (devices st0) (<[fresh (dom (heap st0)) := d]> (heap st0)) (slices st0)
          (rand st0) (generate_calls st0).

(** The state after the object is allocated and saved under [id]. *)
Definition saved (st0 : State) (id : string) (d : SignatureDevice) : State :=
  mkState (<[id := fresh (dom (heap st0))]> (devices st0))
          (<[fresh (dom (heap st0)) := d]> (heap st0)) (slices st0)
          (rand st0) (generate_calls st0).

(** Every error [CreateDevice] returns is one of these. *)
Definition create_error (opts : CreateDeviceOptions) (e : error) : Prop :=
  e = "invalid algorithm: " +:+ opt_Algorithm opts
  ∨ (∃ e', e = "failed to generate RSA key pair: " +:+ e')
  ∨ (∃ e', e = "failed to generate ECC key pair: " +:+ e')
  ∨ (∃ e', e = "failed to save device: " +:+ e').

(** An assignment to the backing array [a] of a returned slice: its
    contents become [l]. *)
Definition write_slice (a : ptr) (l : list ptr) : M unit :=
  λ s, Some (tt, mkState (devices s) (heap s) (<[a := l]> (slices s)) (rand s)
                         (generate_calls s)).

(** The state after a listing: one more backing array. *)
Definition listed (st : State) : State :=
  mkState (devices st) (heap st)
          (<[fresh (dom (slices st)) := (map_to_list (devices st)).*2]> (slices st))
          (rand st) (generate_calls st).
End vocabulary.

(** The reading of "the returned elements are independent copies": a field
    assignment through an element of the slice [GetAllDevices] returned
    leaves every record of the store as it was. *)
Definition elements_independent : Prop :=
  ∀ (H : Primitives) (c : store_copy) (st st1 st2 : State) (a p : ptr) (l : list ptr)
    (f : SignatureDevice → SignatureDevice) (id : string),
    GetAllDevices (InMemory c) st = Some (Ok a, st1) →
    slices st1 !! a = Some l →
    p ∈ l →
    modify p f st1 = Some (tt, st2) →
    stored st2 id = stored st1 id.

(* ---------------------------------------------------------------------- *)
(** ** Calls that run in parallel                                          *)
(* ---------------------------------------------------------------------- *)

(** To let calls of [SignData] interleave, a method body is cut into the
    actions that other goroutines can observe: every statement that reads or
    writes shared state is one action. *)
Section interleaving.
Context `{Primitives}.

(** What is left of a method body: its result, or an action and what
    follows it. *)
Inductive prog (A : Type) : Type :=
| Return (a : A)
| Do {B : Type} (m : M B) (k : B → prog A).
Arguments Return {A} a.
Arguments Do {A B} m k.

(** Running the actions one after the other, without interruption. *)
Fixpoint exec {A} (p : prog A) : M A :=
  match p with
  | Return a => ret a
  | Do m k => bind m (λ b, exec (k b))
  end.

Fixpoint exec_all {A} (ps : list (prog A)) : M (list A) :=
  match ps with
  | [] => ret []
  | p :: ps =>
      let* a := exec p in
      let* rest := exec_all ps in
      ret (a :: rest)
  end.

(** A goroutine inside a method that starts with [s.mu.Lock()] and
    [defer s.mu.Unlock()]. *)
Inductive thread (A : Type) : Type :=
| Waiting (p : prog A)     (** in [Lock()], the body [p] not yet begun *)
| Holding (p : prog A)     (** holds the mutex; [p] is what is left of the body *)
| Finished (a : A).        (** has returned [a]; the deferred [Unlock()] has run *)
Arguments Waiting {A} p.
Arguments Holding {A} p.
Arguments Finished {A} a.

Record config (A : Type) := mkConfig {
  shared : State;            (** the memory all goroutines share *)
  locked : bool;             (** the state of [s.mu] *)
  pool : list (thread A)
}.
Arguments mkConfig {A} shared locked pool.
Arguments shared {A} c.
Arguments locked {A} c.
Arguments pool {A} c.

(** One step of one goroutine.  [Lock()] returns only when the mutex is
    free; an action is taken by the goroutine that holds the mutex; the
    result is fixed before the deferred [Unlock()] frees the mutex. *)
Inductive step {A} (c : config A) : config A → Prop :=
| step_Lock i p :
    pool c !! i = Some (Waiting p) →
    locked c = false →
    step c (mkConfig (shared c) true (<[i := Holding p]> (pool c)))
| step_Do i B (m : M B) k b st' :
    pool c !! i = Some (Holding (Do m k)) →
    m (shared c) = Some (b, st') →
    step c (mkConfig st' (locked c) (<[i := Holding (k b)]> (pool c)))
| step_Unlock i a :
    pool c !! i = Some (Holding (Return a)) →
    step c (mkConfig (shared c) false (<[i := Finished a]> (pool c))).

(** The same step as a function of the goroutine that moves; [None] when
    that goroutine cannot move (it waits for a mutex that is held, it has
    returned, or its action panics). *)
Definition step_thread {A} (i : nat) (c : config A) : option (config A) :=
  match pool c !! i with
  | Some (Waiting p) =>
      if locked c then None
      else Some (mkConfig (shared c) true (<[i := Holding p]> (pool c)))
  | Some (Holding (Do m k)) =>
      match m (shared c) with
      | Some (b, st') => Some (mkConfig st' (locked c) (<[i := Holding (k b)]> (pool c)))
      | None => None
      end
  | Some (Holding (Return a)) =>
      Some (mkConfig (shared c) false (<[i := Finished a]> (pool c)))
  | Some (Finished _) | None => None
  end.

(** A schedule: the goroutines that move, in order. *)
Fixpoint schedule {A} (sched : list nat) (c : config A) : option (config A) :=
  match sched with
  | [] => Some c
  | i :: sched =>
      match step_thread i c with
      | Some c' => schedule sched c'
      | None => None
      end
  end.

(** All goroutines about to call, the mutex free. *)
Definition start {A} (st : State) (ps : list (prog A)) : config A :=
  mkConfig st false (Waiting <$> ps).

(** All goroutines have returned. *)
Definition all_Finished {A} (c : config A) (rs : list A) : Prop :=
  pool c = Finished <$> rs.

(** The body of [SignData] in domain/service.go, action by action. *)
Definition service_go_SignData_steps (s : SignatureDeviceService)
    (deviceID : string) (data : string) : prog (result SignDataResponse) :=
  Do (storage_go.GetDevice (storage s) deviceID) (λ found,
  match found with
  | Err err => Return (Err ("failed to find device: " +:+ err))
  | Ok device =>
      Do (modify device (λ d, set_SignatureCounter (incr (SignatureCounter d)) d)) (λ _,
      Do (load device) (λ d,
      let counter := SignatureCounter d in
      let dataToBeSigned := Sprintf_d_s_s counter data (LastSignature d) in
      Do (call_Sign (Signer d) (bytes_of_string dataToBeSigned)) (λ signed,
      match signed with
      | Err err => Return (Err ("failed to sign data: " +:+ err))
      | Ok signature =>
          let signatureB64 := EncodeToString signature in
          Do (modify device (set_LastSignature signatureB64)) (λ _,
          Do (storage_go.Update (storage s) device) (λ err,
          match err with
          | Some err => Return (Err ("failed to update device: " +:+ err))
          | None => Return (Ok (mkResp signatureB64 dataToBeSigned))
          end))
      end)))
  end).

(** The body of [SignData] in unnamed/part_002, action by action. *)
Definition part_002_SignData_steps (s : SignatureDeviceService)
    (opts : SignDataOptions) : prog (result SignDataResponse) :=
  Do (storage_go.GetDevice (storage s) (DeviceID opts)) (λ found,
  match found with
  | Err err => Return (Err ("failed to find device: " +:+ err))
  | Ok device =>
      Do (load device) (λ d,
      let counter := SignatureCounter d in
      let dataToBeSigned := Sprintf_d_s_s counter (Data opts) (LastSignature d) in
      Do (call_Sign (Signer d) (bytes_of_string dataToBeSigned)) (λ signed,
      match signed with
      | Err err => Return (Err ("failed to sign data: " +:+ err))
      | Ok signature =>
          Do (modify device (λ d, set_SignatureCounter (incr (SignatureCounter d)) d)) (λ _,
          let signatureB64 := EncodeToString signature in
          Do (modify device (set_LastSignature signatureB64)) (λ _,
          Do (storage_go.Update (storage s) device) (λ err,
          match err with
          | Some err => Return (Err ("failed to update device: " +:+ err))
          | None => Return (Ok (mkResp signatureB64 dataToBeSigned))
          end)))
      end))
  end).
End interleaving.
Arguments Return {_ A} a.
Arguments Do {_ A B} m k.
Arguments Waiting {_ A} p.
Arguments Holding {_ A} p.
Arguments Finished {_ A} a.
Arguments mkConfig {_ A} shared locked pool.
Arguments shared {_ A} c.
Arguments locked {_ A} c.
Arguments pool {_ A} c.

(** The invariant that makes the mutex serialise the calls. *)
Section serial_invariant.
Context `{Primitives} {A : Type}.
Variable st0 : State.
Variable ps : list (prog A).

(** [hist] lists, in the order in which they took the mutex, the goroutines
    that have returned, each with its result; [qs] are their bodies and
    [st_a] is the state the last of them left. *)
Definition served (hist : list (nat * A)) (qs : list (prog A)) (st_a : State)
    (c : config A) : Prop :=
  NoDup (hist.*1)
  ∧ Forall2 (λ ia q, ps !! ia.1 = Some q) hist qs
  ∧ exec_all qs st0 = Some (hist.*2, st_a)
  ∧ Forall (λ ia, pool c !! ia.1 = Some (Finished ia.2)) hist
  ∧ length (pool c) = length ps.

Definition others_wait (busy : list nat) (c : config A) : Prop :=
  ∀ i p, i ∉ busy → ps !! i = Some p → pool c !! i = Some (Waiting p).

Definition serial_inv (c : config A) : Prop :=
  ∃ hist qs st_a,
    served hist qs st_a c
    ∧ (locked c = false → shared c = st_a ∧ others_wait (hist.*1) c)
    ∧ (locked c = true →
       ∃ h q p_cur,
         (h ∉ hist.*1)
         ∧ ps !! h = Some q
         ∧ pool c !! h = Some (Holding p_cur)
         ∧ exec p_cur (shared c) = exec q st_a
         ∧ others_wait (hist.*1 ++ [h]) c).
End serial_invariant.

(* ---------------------------------------------------------------------- *)
(** ** Concrete states, on the small instance of the primitives            *)
(* ---------------------------------------------------------------------- *)

Module Scenario.
Import Toy.

(** The device that [CreateDevice {ID: "d1", Label: "My Device", Algorithm:
    "RSA"}] builds when the entropy budget is [n+1]. *)
Definition d1 (n : nat) : SignatureDevice :=
  mkDevice "d1" "My Device" "RSA" 0 "ZDE=" (RSAPublic (S n)) (RSAPrivate (S n))
           (Some (crypto.RSASigner (S n))).

(** The state after that call: the device is stored and [n] draws are left. *)
Definition created (n : nat) : State :=
  mkState {["d1" := 1%positive]} {[1%positive := d1 n]} ∅ n ["RSA"].

Definition create_d1 : CreateDeviceOptions := mkCreate "d1" "My Device" "RSA".

Definition tx1_from_one : SignDataResponse :=
  mkResp "MV90eDFfWkRFPQU=" "1_tx1_ZDE=".

Definition tx2_from_one : SignDataResponse :=
  mkResp "Ml90eDJfTVY5MGVERmZXa1JGUFFVPQQ=" "2_tx2_MV90eDFfWkRFPQU=".

Definition tx1_from_zero : SignDataResponse :=
  mkResp "MF90eDFfWkRFPQU=" "0_tx1_ZDE=".

Definition tx2_from_zero : SignDataResponse :=
  mkResp "MV90eDJfTUY5MGVERmZXa1JGUFFVPQQ=" "1_tx2_MF90eDFfWkRFPQU=".

(** The state after two signatures on [created 2]. *)
Definition signed_twice (last : string) : State :=
  mkState {["d1" := 1%positive]}
          {[1%positive := set_LastSignature last (set_SignatureCounter 2 (d1 2))]}
          ∅ 0%nat ["RSA"].

(** The state after the signer failed, with the counter nevertheless at 1. *)
Definition advanced : State :=
  mkState {["d1" := 1%positive]} {[1%positive := set_SignatureCounter 1 (d1 0)]}
          ∅ 0%nat ["RSA"].

(** The device of a second [CreateDevice] with the id "d1". *)
Definition create_d1_again : CreateDeviceOptions := mkCreate "d1" "Second" "ECC".

Definition first_keys : any * any * option crypto.Signer :=
  (RSAPrivate 1%nat, RSAPublic 1%nat, Some (crypto.RSASigner 1%nat)).

(** [empty 1] after one key generation. *)
Definition drawn_once : State := mkState ∅ ∅ ∅ 0%nat ["RSA"].

Definition second_keys : any * any * option crypto.Signer :=
  (ECPrivate 2%nat, ECPublic 2%nat, Some (crypto.ECDSASigner 2%nat)).

(** [created 2] after the key generation of the second call. *)
Definition created_keys_drawn : State :=
  mkState {["d1" := 1%positive]} {[1%positive := d1 2]} ∅ 1%nat ["RSA"; "ECC"].

(** [created 2] after the second call went through on the store of
    inmemory.go 71-124. *)
Definition overwritten : State :=
  mkState {["d1" := 2%positive]}
          {[1%positive := d1 2; 2%positive := new_device create_d1_again second_keys]}
          ∅ 1%nat ["RSA"; "ECC"].

(** [created 2] after a listing, and after a field of the listed element
    was then assigned. *)
Definition created_listed : State :=
  mkState {["d1" := 1%positive]} {[1%positive := d1 2]} {[1%positive := [1%positive]]}
          2%nat ["RSA"].

Definition relabelled : State :=
  mkState {["d1" := 1%positive]} {[1%positive := set_Label "changed" (d1 2)]}
          {[1%positive := [1%positive]]} 2%nat ["RSA"].
(** Two goroutines sign "tx1" and "tx2" on [created 2]; the second one takes
    the mutex first and runs its eight steps, then the first one does. *)
Definition second_caller_first : list nat :=
  [1; 1; 1; 1; 1; 1; 1; 1; 0; 0; 0; 0; 0; 0; 0; 0]%nat.

Definition parallel_tx1_from_one : SignDataResponse :=
  mkResp "Ml90eDFfTVY5MGVESmZXa1JGUFFVPQQ=" "2_tx1_MV90eDJfWkRFPQU=".

Definition parallel_tx2_from_one : SignDataResponse :=
  mkResp "MV90eDJfWkRFPQU=" "1_tx2_ZDE=".

Definition parallel_tx1_from_zero : SignDataResponse :=
  mkResp "MV90eDFfTUY5MGVESmZXa1JGUFFVPQQ=" "1_tx1_MF90eDJfWkRFPQU=".

Definition parallel_tx2_from_zero : SignDataResponse :=
  mkResp "MF90eDJfWkRFPQU=" "0_tx2_ZDE=".

(** The configuration after both goroutines have returned [r1] and [r2]. *)
Definition both_returned (r1 r2 : SignDataResponse) : config (result SignDataResponse) :=
  mkConfig (signed_twice (Signature r1)) false [Finished (Ok r1); Finished (Ok r2)].
End Scenario.

(* ---------------------------------------------------------------------- *)
(** ** The invariant of the store                                          *)
(* ---------------------------------------------------------------------- *)

Section store_invariant.
Context `{Primitives}.

(** Every pointer the store holds leads to a device object; the object
    carries the id it is stored under and has a signer bound. *)
Definition consistent (st : State) : Prop :=
  ∀ id p, devices st !! id = Some p →
    ∃ d, heap st !! p = Some d ∧ ID d = id ∧ is_Some (Signer d).

(** The fields of a device that [CreateDevice] sets and no other method
    assigns. *)
Definition same_identity (d d' : SignatureDevice) : Prop :=
  ID d' = ID d ∧ Label d' = Label d ∧ Algorithm d' = Algorithm d
  ∧ PublicKey d' = PublicKey d ∧ PrivateKey d' = PrivateKey d ∧ Signer d' = Signer d.

(** The state after a signature failed in domain/service.go. *)
Definition counter_advanced (st : State) (p : ptr) (d : SignatureDevice) (r' : Rand)
  : State :=
  mkState (devices st)
          (<[p := set_SignatureCounter (incr (SignatureCounter d)) d]> (heap st))
          (slices st) r' (generate_calls st).

(** The state after only the entropy source moved. *)
Definition drawn (st : State) (r' : Rand) : State :=
  mkState (devices st) (heap st) (slices st) r' (generate_calls st).
End store_invariant.

(* ---------------------------------------------------------------------- *)
(** ** Reading a payload back                                              *)
(* ---------------------------------------------------------------------- *)

(** The string [s] does not hold the character [c]. *)
Fixpoint free_of (c : ascii) (s : string) : bool :=
  match s with
  | EmptyString => true
  | String a s' => negb (Ascii.eqb a c) && free_of c s'
  end.

(* ---------------------------------------------------------------------- *)
(** ** Package strings                                                     *)
(* ---------------------------------------------------------------------- *)

Module strings_go.
(** [strings.HasPrefix(s, prefix)] *)
Fixpoint HasPrefix (s prefix : string) : bool :=
  match prefix, s with
  | EmptyString, _ => true
  | String a prefix', String b s' => Ascii.eqb a b && HasPrefix s' prefix'
  | String _ _, EmptyString => false
  end.

(** [strings.Contains(s, substr)] *)
Fixpoint Contains (s substr : string) : bool :=
  HasPrefix s substr
  || match s with
     | EmptyString => false
     | String _ s' => Contains s' substr
     end.
End strings_go.

(* ---------------------------------------------------------------------- *)
(** ** Package domain: the service behind its interface                    *)
(* ---------------------------------------------------------------------- *)

(** unnamed/part_003, [type ISignatureDeviceService interface]: the table
    of the four methods. *)
Module part_003.
Record ISignatureDeviceService `{Primitives} := {
  CreateDevice : CreateDeviceOptions → M (result ptr);
  SignData : SignDataOptions → M (result SignDataResponse);
  GetDevice : string → M (result ptr);
  GetAllDevices : M (result ptr)
}.
End part_003.

Section method_set.
Context `{Primitives}.

(** A [*SignatureDeviceService] as a value of the interface.  [SignData]
    takes [SignDataOptions], so the methods are those of unnamed/part_002. *)
Definition method_set (s : SignatureDeviceService) : part_003.ISignatureDeviceService :=
  part_003.Build_ISignatureDeviceService _
    (CreateDevice s) (part_002.SignData s) (GetDevice s) (GetAllDevices s).
End method_set.

(* ---------------------------------------------------------------------- *)
(** ** Package api: the HTTP handlers                                      *)
(* ---------------------------------------------------------------------- *)

(** model/device.go and model/sign.go: the bodies of the requests and
    responses, and api/server.go and the handlers of unnamed/part_000.

    Of a [*http.Request] the handlers read the method, the body through
    [json.NewDecoder(r.Body).Decode(&req)], and the route variable
    [mux.Vars(r)["id"]].  The request is modelled by these three: the body by
    the outcome of decoding it into the handler's request type ([None] when
    [Decode] returns an error), the route variable by its value (the empty
    string when the route has none).  What a handler writes to the
    [http.ResponseWriter] is the status code and the value it marshals; the
    values marshalled here are strings, integers and slices of them, for
    which [json.Marshal] does not fail. *)
Module api.
Section handlers.
Context `{Primitives}.

Record CreateDeviceRequest := mkCreateRequest {
  req_ID : string;
  req_Label : string;
  req_Algorithm : string
}.

Definition CreateDeviceRequest_ToOptions (r : CreateDeviceRequest) : CreateDeviceOptions :=
  mkCreate (req_ID r) (req_Label r) (req_Algorithm r).

Record DeviceResponse := mkDeviceResponse {
  resp_ID : string;
  resp_Label : string;
  resp_Algorithm : string;
  resp_SignatureCounter : Z
}.

Record SignDataRequest := mkSignRequest {
  req_Data : string
}.

(** [SignDataOptions{Data: r.Data}]: the device id is left at its zero
    value. *)
Definition SignDataRequest_ToOptions (r : SignDataRequest) : SignDataOptions :=
  mkSign "" (req_Data r).

Definition set_DeviceID (id : string) (o : SignDataOptions) : SignDataOptions :=
  mkSign id (Data o).

Record Request (B : Type) := mkRequest {
  Method : string;
  Body : option B;
  Vars_id : string
}.
Arguments mkRequest {B} _ _ _.
Arguments Method {B} _.
Arguments Body {B} _.
Arguments Vars_id {B} _.

(** The value given to [WriteAPIResponse] as [data]. *)
Inductive Data : Type :=
| OneDevice (d : DeviceResponse)
| Devices (l : list DeviceResponse)
| Signed (r : SignDataResponse).

(** [ErrorResponse{Errors: errors}] or [Response{Data: data}]. *)
Inductive Marshalled : Type :=
| ErrorResponse (errors : list string)
| Response (data : Data).

Record Written := mkWritten {
  code : Z;
  body : Marshalled
}.

Definition MethodGet : string := "GET".
Definition MethodPost : string := "POST".
Definition StatusOK : Z := 200.
Definition StatusCreated : Z := 201.
Definition StatusBadRequest : Z := 400.
Definition StatusMethodNotAllowed : Z := 405.
Definition StatusConflict : Z := 409.
Definition StatusInternalServerError : Z := 500.

(** [http.StatusText], on the codes above. *)
Definition StatusText (c : Z) : string :=
  if c =? 200 then "OK"
  else if c =? 201 then "Created"
  else if c =? 400 then "Bad Request"
  else if c =? 405 then "Method Not Allowed"
  else if c =? 409 then "Conflict"
  else if c =? 500 then "Internal Server Error"
  else "".

Definition WriteErrorResponse (c : Z) (errors : list string) : Written :=
  mkWritten c (ErrorResponse errors).

Definition WriteAPIResponse (c : Z) (data : Data) : Written :=
  mkWritten c (Response data).

Record Server := mkServer {
  listenAddress : string;
  signDeviceService : part_003.ISignatureDeviceService
}.

Definition NewServer (listenAddress : string) (signDeviceService : SignatureDeviceService)
  : Server :=
  mkServer listenAddress (method_set signDeviceService).

(** Reading the elements of a slice of devices. *)
Definition read_slice (a : ptr) : M (list ptr) :=
  λ s, match slices s !! a with
       | Some l => Some (l, s)
       | None => None
       end.

(** [for i, device := range devices { responses[i] = f(device) }] *)
Fixpoint for_range {B} (devices : list ptr) (f : ptr → M B) : M (list B) :=
  match devices with
  | [] => ret []
  | device :: rest =>
      let* b := f device in
      let* bs := for_range rest f in
      ret (b :: bs)
  end.

Definition CreateDevice (s : Server) (r : Request CreateDeviceRequest) : M Written :=
  if negb (String.eqb (Method r) MethodPost)
  then ret (WriteErrorResponse StatusMethodNotAllowed [StatusText StatusMethodNotAllowed])
  else
    match Body r with
    | None => ret (WriteErrorResponse StatusBadRequest ["Invalid request body"])
    | Some req =>
        let* created :=
          part_003.CreateDevice (signDeviceService s) (CreateDeviceRequest_ToOptions req) in
        match created with
        | Err err =>
            if strings_go.Contains err "already exists"
            then ret (WriteErrorResponse StatusConflict [err])
            else ret (WriteErrorResponse StatusInternalServerError [err])
        | Ok device =>
            let* d := load device in
            let response :=
              mkDeviceResponse (ID d) (Label d) (Algorithm d) (SignatureCounter d) in
            ret (WriteAPIResponse StatusCreated (OneDevice response))
        end
    end.

Definition SignData (s : Server) (r : Request SignDataRequest) : M Written :=
  if negb (String.eqb (Method r) MethodPost)
  then ret (WriteErrorResponse StatusMethodNotAllowed [StatusText StatusMethodNotAllowed])
  else
    match Body r with
    | None => ret (WriteErrorResponse StatusBadRequest ["Invalid request body"])
    | Some req =>
        let opt := SignDataRequest_ToOptions req in
        let opt := set_DeviceID (Vars_id r) opt in
        let* signed := part_003.SignData (signDeviceService s) opt in
        match signed with
        | Err _ => ret (WriteErrorResponse StatusInternalServerError ["Failed to sign data"])
        | Ok resp => ret (WriteAPIResponse StatusOK (Signed resp))
        end
    end.

Definition GetDevice {B} (s : Server) (r : Request B) : M Written :=
  if negb (String.eqb (Method r) MethodGet)
  then ret (WriteErrorResponse StatusMethodNotAllowed [StatusText StatusMethodNotAllowed])
  else
    let deviceID := Vars_id r in
    if String.eqb deviceID ""
    then ret (WriteErrorResponse StatusBadRequest ["Device ID is required"])
    else
      let* found := part_003.GetDevice (signDeviceService s) deviceID in
      match found with
      | Err _ => ret (WriteErrorResponse StatusInternalServerError ["Failed to get device"])
      | Ok device =>
          let* d := load device in
          let response :=
            mkDeviceResponse (ID d) (Label d) (Algorithm d) (SignatureCounter d) in
          ret (WriteAPIResponse StatusOK (OneDevice response))
      end.

Definition GetAllDevices {B} (s : Server) (r : Request B) : M Written :=
  if negb (String.eqb (Method r) MethodGet)
  then ret (WriteErrorResponse StatusMethodNotAllowed [StatusText StatusMethodNotAllowed])
  else
    let* listed := part_003.GetAllDevices (signDeviceService s) in
    match listed with
    | Err _ =>
        ret (WriteErrorResponse StatusInternalServerError ["Failed to get all devices"])
    | Ok devices =>
        let* elements := read_slice devices in
        let* responses :=
          for_range elements (λ device,
            let* d := load device in
            ret (mkDeviceResponse (ID d) (Label d) (Algorithm d) (SignatureCounter d))) in
        ret (WriteAPIResponse StatusOK (Devices responses))
    end.

(** What the handlers show of a device: no key, no signer, no signature. *)
Definition shown (d : SignatureDevice) : DeviceResponse :=
  mkDeviceResponse (ID d) (Label d) (Algorithm d) (SignatureCounter d).
End handlers.
Arguments mkRequest {B} _ _ _.
Arguments Method {B} _.
Arguments Body {B} _.
Arguments Vars_id {B} _.
End api.

(** A device created without an id, on the small instance of the
    primitives. *)
Module Unnamed.
Import Toy.

Definition no_id : CreateDeviceOptions := mkCreate "" "No id" "RSA".

(** The state after [CreateDevice no_id] on [empty 1]. *)
Definition created_no_id : State :=
  mkState {["" := 1%positive]} {[1%positive := new_device no_id Scenario.first_keys]}
          ∅ 0%nat ["RSA"].
End Unnamed.

(* ====================================================================== *)
(** * Properties                                                           *)
(* ====================================================================== *)

Example base64_d1 : base64 "d1" = "ZDE=".
Proof. reflexivity. Qed.

Example base64_foobar :
  base64 "f" = "Zg==" ∧ base64 "foo" = "Zm9v" ∧ base64 "foobar" = "Zm9vYmFy".
Proof. repeat split; reflexivity. Qed.

Example Sprintf_first : Sprintf_d_s_s 0 "tx1" (base64 "d1") = "0_tx1_ZDE=".
Proof. reflexivity. Qed.

Example incr_wraps : incr 41 = 42 ∧ incr max_int = min_int.
Proof. split; reflexivity. Qed.

(* ---------------------------------------------------------------------- *)
(** ** One call of [SignData]                                              *)
(* ---------------------------------------------------------------------- *)

Ltac go_unfold :=
  cbv [part_002.SignData service_go.SignData CreateDevice GetDevice GetAllDevices
       switch_Algorithm call_Sign
       InMemory NewSignatureDeviceService storage
       storage_go.GetDevice storage_go.Update storage_go.Save storage_go.GetAllDevices
       inmemory_go_a.NewInMemoryStorage inmemory_go_b.NewInMemoryStorage
       inmemory_go_a.Save inmemory_go_a.Update inmemory_go_a.GetDevice
       inmemory_go_a.GetAllDevices
       inmemory_go_b.Save inmemory_go_b.Update inmemory_go_b.GetDevice
       inmemory_go_b.GetAllDevices
       bind ret load modify alloc alloc_slice with_rand note_generate
       map_store map_lookup get_state panic] in *.

Ltac go_simpl :=
  repeat first [ rewrite lookup_insert_eq | rewrite insert_insert_eq | progress simpl ].

Tactic Notation "go_run" "with" tactic3(rew) :=
  go_unfold; simpl; repeat first [ rew | go_simpl ].

Section one_call.
Context `{Primitives}.

Lemma incr_in_range (x : Z) : min_int ≤ x < max_int → incr x = x + 1.
Proof.
  unfold incr, wrap_int, min_int, max_int. intros Hx.
  rewrite Z.mod_small; lia.
Qed.

Lemma iter_incr (k : nat) (c : Z) :
  min_int ≤ c → c + Z.of_nat k ≤ max_int → Nat.iter k incr c = c + Z.of_nat k.
Proof.
  induction k as [|k IH]; intros Hlo Hhi; simpl.
  - lia.
  - rewrite IH by lia. rewrite incr_in_range; lia.
Qed.

Lemma part_002_SignData_Ok c opts st p d sg sig r' :
  devices st !! DeviceID opts = Some p →
  heap st !! p = Some d →
  Signer d = Some sg →
  crypto.Sign sg
    (bytes_of_string (Sprintf_d_s_s (SignatureCounter d) (Data opts) (LastSignature d)))
    (rand st) = (Ok sig, r') →
  part_002.SignData (InMemory c) opts st =
    Some (Ok (mkResp (EncodeToString sig)
                     (Sprintf_d_s_s (SignatureCounter d) (Data opts) (LastSignature d))),
          after_update st p (signed_device (EncodeToString sig) d) r').
Proof.
  intros Hdev Hheap Hsg Hsign. unfold after_update, signed_device.
  destruct c;
    (go_run with first [rewrite Hdev | rewrite Hheap | rewrite Hsg | rewrite Hsign]);
    reflexivity.
Qed.

Lemma part_002_SignData_Err c opts st p d sg e r' :
  devices st !! DeviceID opts = Some p →
  heap st !! p = Some d →
  Signer d = Some sg →
  crypto.Sign sg
    (bytes_of_string (Sprintf_d_s_s (SignatureCounter d) (Data opts) (LastSignature d)))
    (rand st) = (Err e, r') →
  part_002.SignData (InMemory c) opts st =
    Some (Err ("failed to sign data: " +:+ e),
          mkState (devices st) (heap st) (slices st) r' (generate_calls st)).
Proof.
  intros Hdev Hheap Hsg Hsign.
  destruct c;
    (go_run with first [rewrite Hdev | rewrite Hheap | rewrite Hsg | rewrite Hsign]);
    reflexivity.
Qed.

Lemma service_go_SignData_Ok c id data st p d sg sig r' :
  devices st !! id = Some p →
  heap st !! p = Some d →
  Signer d = Some sg →
  crypto.Sign sg
    (bytes_of_string (Sprintf_d_s_s (incr (SignatureCounter d)) data (LastSignature d)))
    (rand st) = (Ok sig, r') →
  service_go.SignData (InMemory c) id data st =
    Some (Ok (mkResp (EncodeToString sig)
                     (Sprintf_d_s_s (incr (SignatureCounter d)) data (LastSignature d))),
          after_update st p (signed_device (EncodeToString sig) d) r').
Proof.
  intros Hdev Hheap Hsg Hsign. unfold after_update, signed_device.
  destruct c;
    (go_run with first [rewrite Hdev | rewrite Hheap | rewrite Hsg | rewrite Hsign]);
    reflexivity.
Qed.

Lemma service_go_SignData_Err c id data st p d sg e r' :
  devices st !! id = Some p →
  heap st !! p = Some d →
  Signer d = Some sg →
  crypto.Sign sg
    (bytes_of_string (Sprintf_d_s_s (incr (SignatureCounter d)) data (LastSignature d)))
    (rand st) = (Err e, r') →
  service_go.SignData (InMemory c) id data st =
    Some (Err ("failed to sign data: " +:+ e),
          mkState (devices st)
                  (<[p := set_SignatureCounter (incr (SignatureCounter d)) d]> (heap st))
                  (slices st) r' (generate_calls st)).
Proof.
  intros Hdev Hheap Hsg Hsign.
  destruct c;
    (go_run with first [rewrite Hdev | rewrite Hheap | rewrite Hsg | rewrite Hsign]);
    reflexivity.
Qed.

Lemma part_002_SignData_absent c opts st :
  devices st !! DeviceID opts = None →
  part_002.SignData (InMemory c) opts st =
    Some (Err "failed to find device: device not found", st).
Proof.
  intros Hdev. destruct c; (go_run with rewrite Hdev); reflexivity.
Qed.

Lemma service_go_SignData_absent c id data st :
  devices st !! id = None →
  service_go.SignData (InMemory c) id data st =
    Some (Err "failed to find device: device not found", st).
Proof.
  intros Hdev. destruct c; (go_run with rewrite Hdev); reflexivity.
Qed.

Lemma part_002_SignData_nil_signer c opts st p d :
  devices st !! DeviceID opts = Some p →
  heap st !! p = Some d →
  Signer d = None →
  part_002.SignData (InMemory c) opts st = None.
Proof.
  intros Hdev Hheap Hsg.
  destruct c; (go_run with first [rewrite Hdev | rewrite Hheap | rewrite Hsg]);
    reflexivity.
Qed.

Lemma service_go_SignData_nil_signer c id data st p d :
  devices st !! id = Some p →
  heap st !! p = Some d →
  Signer d = None →
  service_go.SignData (InMemory c) id data st = None.
Proof.
  intros Hdev Hheap Hsg.
  destruct c; (go_run with first [rewrite Hdev | rewrite Hheap | rewrite Hsg]);
    reflexivity.
Qed.

(** What a successful call tells about the state before and after it; the
    two copies differ in the counter that the payload carries. *)
Lemma part_002_SignData_inv c opts st p d r st' :
  devices st !! DeviceID opts = Some p →
  heap st !! p = Some d →
  part_002.SignData (InMemory c) opts st = Some (Ok r, st') →
  SignedData r = Sprintf_d_s_s (SignatureCounter d) (Data opts) (LastSignature d)
  ∧ devices st' = <[ID d := p]> (devices st)
  ∧ heap st' = <[p := signed_device (Signature r) d]> (heap st).
Proof.
  intros Hdev Hheap Hrun.
  destruct (Signer d) as [sg|] eqn:Hsg.
  - destruct (crypto.Sign sg
      (bytes_of_string (Sprintf_d_s_s (SignatureCounter d) (Data opts) (LastSignature d)))
      (rand st)) as [[sig|e] r'] eqn:Hsign.
    + rewrite (part_002_SignData_Ok c opts st p d sg sig r') in Hrun by done.
      by simplify_eq.
    + rewrite (part_002_SignData_Err c opts st p d sg e r') in Hrun by done.
      by simplify_eq.
  - rewrite (part_002_SignData_nil_signer c opts st p d) in Hrun by done. done.
Qed.

Lemma service_go_SignData_inv c id data st p d r st' :
  devices st !! id = Some p →
  heap st !! p = Some d →
  service_go.SignData (InMemory c) id data st = Some (Ok r, st') →
  SignedData r = Sprintf_d_s_s (incr (SignatureCounter d)) data (LastSignature d)
  ∧ devices st' = <[ID d := p]> (devices st)
  ∧ heap st' = <[p := signed_device (Signature r) d]> (heap st).
Proof.
  intros Hdev Hheap Hrun.
  destruct (Signer d) as [sg|] eqn:Hsg.
  - destruct (crypto.Sign sg
      (bytes_of_string (Sprintf_d_s_s (incr (SignatureCounter d)) data (LastSignature d)))
      (rand st)) as [[sig|e] r'] eqn:Hsign.
    + rewrite (service_go_SignData_Ok c id data st p d sg sig r') in Hrun by done.
      by simplify_eq.
    + rewrite (service_go_SignData_Err c id data st p d sg e r') in Hrun by done.
      by simplify_eq.
  - rewrite (service_go_SignData_nil_signer c id data st p d) in Hrun by done. done.
Qed.
End one_call.

(* ---------------------------------------------------------------------- *)
(** ** Runs of sequential calls on one device                              *)
(* ---------------------------------------------------------------------- *)

Section runs.
Context `{Primitives}.

(** A signing operation that, whenever it succeeds on a stored device,
    signs the payload carrying [payload_counter] of the stored counter and
    leaves the device advanced by one signature. *)
Variable sign : string → M (result SignDataResponse).
Variable id : string.
Variable payload_counter : Z → Z.
Hypothesis sign_inv : ∀ data st p d r st',
  devices st !! id = Some p →
  heap st !! p = Some d →
  sign data st = Some (Ok r, st') →
  SignedData r = Sprintf_d_s_s (payload_counter (SignatureCounter d)) data (LastSignature d)
  ∧ devices st' = <[ID d := p]> (devices st)
  ∧ heap st' = <[p := signed_device (Signature r) d]> (heap st).

Lemma prev_signature_cons genesis r rs k :
  prev_signature genesis (Ok r :: rs) (S k) = prev_signature (Signature r) rs k.
Proof. destruct k; reflexivity. Qed.

Lemma sequentially_chain datas : ∀ st p d rs st',
  devices st !! id = Some p →
  heap st !! p = Some d →
  sequentially sign datas st = Some (rs, st') →
  all_Ok rs →
  length rs = length datas
  ∧ devices st' !! id = Some p
  ∧ (∃ d', heap st' !! p = Some d'
           ∧ SignatureCounter d' = Nat.iter (length datas) incr (SignatureCounter d)
           ∧ LastSignature d' = last_signature (LastSignature d) rs)
  ∧ (∀ k data r, datas !! k = Some data → rs !! k = Some (Ok r) →
       SignedData r =
         Sprintf_d_s_s (payload_counter (Nat.iter k incr (SignatureCounter d))) data
                       (prev_signature (LastSignature d) rs k)).
Proof.
  unfold all_Ok.
  induction datas as [|data datas IH]; intros st p d rs st' Hdev Hheap Hrun Hok.
  - cbv [sequentially ret] in Hrun. simplify_eq.
    split_and!; [done|done| |intros k ? ? Hk; by destruct k].
    exists d. by split_and!.
  - cbn [sequentially] in Hrun. unfold bind at 1 in Hrun.
    destruct (sign data st) as [[r0 st1]|] eqn:Hfirst; [|done].
    unfold bind at 1 in Hrun.
    destruct (sequentially sign datas st1) as [[rs1 st2]|] eqn:Hrest; [|done].
    unfold ret in Hrun. simplify_eq.
    apply Forall_cons in Hok as [Hr0 Hok].
    destruct r0 as [r0|e]; [|done].
    destruct (sign_inv _ _ _ _ _ _ Hdev Hheap Hfirst) as (Hpayload & Hdev1 & Hheap1).
    assert (devices st1 !! id = Some p) as Hdev1'.
    { rewrite Hdev1. destruct (decide (ID d = id)) as [->|Hne].
      - by rewrite lookup_insert_eq.
      - by rewrite lookup_insert_ne. }
    assert (heap st1 !! p = Some (signed_device (Signature r0) d)) as Hheap1'.
    { rewrite Hheap1. by rewrite lookup_insert_eq. }
    destruct (IH _ _ _ _ _ Hdev1' Hheap1' Hrest Hok)
      as (Hlen & Hdev2 & (d' & Hheap2 & Hcnt & Hlast) & Hchain).
    split_and!.
    + cbn. by rewrite Hlen.
    + done.
    + exists d'. split_and!; [done| |].
      * rewrite Hcnt. cbn [signed_device set_LastSignature set_SignatureCounter
                           SignatureCounter length].
        by rewrite Nat.iter_succ_r.
      * rewrite Hlast. unfold last_signature. cbn [length].
        by rewrite prev_signature_cons.
    + intros [|k] data' r Hd Hr; cbn in Hd, Hr; simplify_eq.
      * done.
      * rewrite prev_signature_cons.
        rewrite (Hchain k data' r Hd Hr). cbn [signed_device set_LastSignature
          set_SignatureCounter SignatureCounter LastSignature].
        by rewrite Nat.iter_succ_r.
Qed.
End runs.

(* ---------------------------------------------------------------------- *)
(** ** The counter in the signed payload                                   *)
(* ---------------------------------------------------------------------- *)

Section counters.
Context `{Primitives}.

Lemma incr_changes (c : Z) : incr c ≠ c.
Proof.
  unfold incr, wrap_int. intros Heq.
  pose proof (Z.div_mod (c + 1 + 2 ^ 63) (2 ^ 64)) as Hdm.
  lia.
Qed.

Lemma append_String (a : ascii) (s t : string) :
  String a s +:+ t = String a (s +:+ t).
Proof. reflexivity. Qed.

Lemma append_empty (t : string) : "" +:+ t = t.
Proof. reflexivity. Qed.

Lemma length_append (s t : string) :
  String.length (s +:+ t) = (String.length s + String.length t)%nat.
Proof.
  induction s as [|a s IH]; [done|].
  rewrite append_String. cbn. by rewrite IH.
Qed.

Lemma append_cancel_r (s1 s2 t : string) : s1 +:+ t = s2 +:+ t → s1 = s2.
Proof.
  revert s2. induction s1 as [|a s1 IH]; intros [|b s2] Heq;
    rewrite ?append_String, ?append_empty in Heq.
  - done.
  - apply (f_equal String.length) in Heq. cbn in Heq. rewrite length_append in Heq. lia.
  - apply (f_equal String.length) in Heq. cbn in Heq. rewrite length_append in Heq. lia.
  - simplify_eq. f_equal. by apply IH.
Qed.

Lemma Sprintf_counter_inj (a b : Z) (data last : string) :
  Sprintf_d_s_s a data last = Sprintf_d_s_s b data last → a = b.
Proof.
  unfold Sprintf_d_s_s, fmt_d. intros Heq.
  apply append_cancel_r in Heq. by apply (inj pretty) in Heq.
Qed.

Lemma stored_counter_after st' id p d' :
  devices st' !! id = Some p →
  heap st' !! p = Some d' →
  stored st' id = Some d'.
Proof. intros Hdev Hheap. unfold stored. by rewrite Hdev. Qed.

(** The shape of a run of successful calls, for the copy in unnamed/part_002. *)
Lemma part_002_run_shape c id datas st p d rs st' :
  devices st !! id = Some p →
  heap st !! p = Some d →
  SignatureCounter d = 0 →
  Z.of_nat (length datas) ≤ max_int →
  sequentially (λ data, part_002.SignData (InMemory c) (mkSign id data)) datas st
    = Some (rs, st') →
  all_Ok rs →
  (∀ k data r, datas !! k = Some data → rs !! k = Some (Ok r) →
     SignedData r = Sprintf_d_s_s (Z.of_nat k) data (prev_signature (LastSignature d) rs k))
  ∧ SignatureCounter <$> stored st' id = Some (Z.of_nat (length datas))
  ∧ LastSignature <$> stored st' id = Some (last_signature (LastSignature d) rs).
Proof.
  intros Hdev Hheap Hzero Hlen Hrun Hok.
  destruct (sequentially_chain
              (λ data, part_002.SignData (InMemory c) (mkSign id data)) id (λ z, z)
              (λ data st p d r st', part_002_SignData_inv c (mkSign id data) st p d r st')
              datas st p d rs st' Hdev Hheap Hrun Hok)
    as (Hlen' & Hdev' & (d' & Hheap' & Hcnt & Hlast) & Hchain).
  split_and!.
  - intros k data r Hd Hr. rewrite (Hchain k data r Hd Hr). f_equal.
    apply lookup_lt_Some in Hd.
    rewrite iter_incr; unfold min_int, max_int in *; lia.
  - rewrite (stored_counter_after st' id p d') by done. cbn. f_equal.
    rewrite Hcnt, iter_incr; unfold min_int, max_int in *; lia.
  - rewrite (stored_counter_after st' id p d') by done. cbn. by f_equal.
Qed.

(** X23.  The copy in unnamed/part_002: a run of [N] successful calls on a device
    that has never signed carries the counters 0, 1, ..., N-1, each payload
    chained to the signature of the call before it, and leaves the stored
    counter at [N] and the stored chain tail at the last signature. *)
Theorem part_002_run_from_zero c id datas st p d rs st' :
  devices st !! id = Some p →
  heap st !! p = Some d →
  SignatureCounter d = 0 →
  Z.of_nat (length datas) ≤ max_int →
  sequentially (λ data, part_002.SignData (InMemory c) (mkSign id data)) datas st
    = Some (rs, st') →
  all_Ok rs →
  (∀ k data r, datas !! k = Some data → rs !! k = Some (Ok r) →
     SignedData r = Sprintf_d_s_s (Z.of_nat k) data (prev_signature (LastSignature d) rs k))
  ∧ SignatureCounter <$> stored st' id = Some (Z.of_nat (length datas))
  ∧ LastSignature <$> stored st' id = Some (last_signature (LastSignature d) rs).
Proof. exact (part_002_run_shape c id datas st p d rs st'). Qed.

(** The shape of a run of successful calls, for domain/service.go. *)
Lemma service_go_run_shape c id datas st p d rs st' :
  devices st !! id = Some p →
  heap st !! p = Some d →
  SignatureCounter d = 0 →
  Z.of_nat (length datas) ≤ max_int →
  sequentially (service_go.SignData (InMemory c) id) datas st = Some (rs, st') →
  all_Ok rs →
  (∀ k data r, datas !! k = Some data → rs !! k = Some (Ok r) →
     SignedData r =
       Sprintf_d_s_s (Z.of_nat k + 1) data (prev_signature (LastSignature d) rs k)
     ∧ SignedData r ≠
       Sprintf_d_s_s (Z.of_nat k) data (prev_signature (LastSignature d) rs k))
  ∧ SignatureCounter <$> stored st' id = Some (Z.of_nat (length datas)).
Proof.
  intros Hdev Hheap Hzero Hlen Hrun Hok.
  destruct (sequentially_chain
              (service_go.SignData (InMemory c) id) id incr
              (λ data st p d r st', service_go_SignData_inv c id data st p d r st')
              datas st p d rs st' Hdev Hheap Hrun Hok)
    as (Hlen' & Hdev' & (d' & Hheap' & Hcnt & Hlast) & Hchain).
  split.
  - intros k data r Hd Hr. rewrite (Hchain k data r Hd Hr).
    apply lookup_lt_Some in Hd.
    rewrite iter_incr by (unfold min_int, max_int in *; lia).
    rewrite incr_in_range by (unfold min_int, max_int in *; lia).
    rewrite Hzero, Z.add_0_l. split; [done|].
    intros Heq. apply Sprintf_counter_inj in Heq. lia.
  - rewrite (stored_counter_after st' id p d') by done. cbn. f_equal.
    rewrite Hcnt, iter_incr; unfold min_int, max_int in *; lia.
Qed.

(** C1.  domain/service.go: a run of [N] successful calls of [SignData] on a
    device that has never signed puts the counters 1, 2, ..., N into the
    signed payloads (call [k], counted from 0, carries [k+1]), because the
    counter is incremented before the payload is built; the stored counter
    ends at [N].  The first payload therefore starts with 1, not with 0. *)
Theorem service_go_run_counts_from_one c id datas st p d rs st' :
  devices st !! id = Some p →
  heap st !! p = Some d →
  SignatureCounter d = 0 →
  Z.of_nat (length datas) ≤ max_int →
  sequentially (service_go.SignData (InMemory c) id) datas st = Some (rs, st') →
  all_Ok rs →
  (∀ k data r, datas !! k = Some data → rs !! k = Some (Ok r) →
     SignedData r =
       Sprintf_d_s_s (Z.of_nat k + 1) data (prev_signature (LastSignature d) rs k)
     ∧ SignedData r ≠
       Sprintf_d_s_s (Z.of_nat k) data (prev_signature (LastSignature d) rs k))
  ∧ SignatureCounter <$> stored st' id = Some (Z.of_nat (length datas)).
Proof. exact (service_go_run_shape c id datas st p d rs st'). Qed.
End counters.

(* ---------------------------------------------------------------------- *)
(** ** Chaining, call by call                                              *)
(* ---------------------------------------------------------------------- *)

Section chaining.
Context `{Primitives}.

(** X24.  The copy in unnamed/part_002: the call that finds the stored counter at
    [k] and the chain tail at [prev] signs ["{k}_{data}_{prev}"], and leaves
    its own signature as the chain tail and [k+1] as the counter. *)
Theorem part_002_call_chains c id data st p d r st' :
  devices st !! id = Some p →
  heap st !! p = Some d →
  min_int ≤ SignatureCounter d < max_int →
  part_002.SignData (InMemory c) (mkSign id data) st = Some (Ok r, st') →
  SignedData r = Sprintf_d_s_s (SignatureCounter d) data (LastSignature d)
  ∧ LastSignature <$> stored st' id = Some (Signature r)
  ∧ SignatureCounter <$> stored st' id = Some (SignatureCounter d + 1).
Proof.
  intros Hdev Hheap Hrange Hrun.
  destruct (part_002_SignData_inv c (mkSign id data) st p d r st' Hdev Hheap Hrun)
    as (Hpayload & Hdev' & Hheap').
  assert (stored st' id = Some (signed_device (Signature r) d)) as ->.
  { unfold stored. rewrite Hdev', Hheap'. cbn.
    destruct (decide (ID d = id)) as [->|Hne].
    - by rewrite !lookup_insert_eq.
    - rewrite lookup_insert_ne, Hdev by done. by rewrite lookup_insert_eq. }
  cbn. by rewrite incr_in_range.
Qed.

(** C2.  domain/service.go: the call that finds the stored counter at [k] and
    the chain tail at [prev] signs ["{k+1}_{data}_{prev}"], not
    ["{k}_{data}_{prev}"]; it does leave its own signature as the stored chain
    tail. *)
Theorem service_go_call_chains_off_by_one c id data st p d r st' :
  devices st !! id = Some p →
  heap st !! p = Some d →
  min_int ≤ SignatureCounter d < max_int →
  service_go.SignData (InMemory c) id data st = Some (Ok r, st') →
  SignedData r = Sprintf_d_s_s (SignatureCounter d + 1) data (LastSignature d)
  ∧ SignedData r ≠ Sprintf_d_s_s (SignatureCounter d) data (LastSignature d)
  ∧ LastSignature <$> stored st' id = Some (Signature r).
Proof.
  intros Hdev Hheap Hrange Hrun.
  destruct (service_go_SignData_inv c id data st p d r st' Hdev Hheap Hrun)
    as (Hpayload & Hdev' & Hheap').
  assert (stored st' id = Some (signed_device (Signature r) d)) as ->.
  { unfold stored. rewrite Hdev', Hheap'. cbn.
    destruct (decide (ID d = id)) as [->|Hne].
    - by rewrite !lookup_insert_eq.
    - rewrite lookup_insert_ne, Hdev by done. by rewrite lookup_insert_eq. }
  rewrite Hpayload, incr_in_range by done. split_and!; [done| |done].
  intros Heq. apply Sprintf_counter_inj in Heq. lia.
Qed.
End chaining.

(* ---------------------------------------------------------------------- *)
(** ** A signature that fails                                              *)
(* ---------------------------------------------------------------------- *)

Section failing_signature.
Context `{Primitives}.

(** X25.  The copy in unnamed/part_002: when the signer of the stored device
    fails, [SignData] returns the wrapped error and leaves the store, every
    device object and the returned slices as they were. *)
Theorem part_002_failed_sign_leaves_state c id data st p d sg e r' :
  devices st !! id = Some p →
  heap st !! p = Some d →
  Signer d = Some sg →
  crypto.Sign sg
    (bytes_of_string (Sprintf_d_s_s (SignatureCounter d) data (LastSignature d)))
    (rand st) = (Err e, r') →
  ∃ st', part_002.SignData (InMemory c) (mkSign id data) st
           = Some (Err ("failed to sign data: " +:+ e), st')
         ∧ devices st' = devices st
         ∧ heap st' = heap st
         ∧ stored st' id = Some d.
Proof.
  intros Hdev Hheap Hsg Hsign.
  eexists. split.
  - by apply (part_002_SignData_Err c (mkSign id data) st p d sg e r').
  - cbn. split_and!; [done|done|]. unfold stored. cbn. by rewrite Hdev.
Qed.

(** C3.  domain/service.go: when the signer of the stored device fails,
    [SignData] returns the wrapped error, but the counter of the stored
    device has already been advanced: the increment is made through the
    pointer the store holds, before the signer is called. *)
Theorem service_go_failed_sign_advances_counter c id data st p d sg e r' :
  devices st !! id = Some p →
  heap st !! p = Some d →
  Signer d = Some sg →
  crypto.Sign sg
    (bytes_of_string (Sprintf_d_s_s (incr (SignatureCounter d)) data (LastSignature d)))
    (rand st) = (Err e, r') →
  ∃ st', service_go.SignData (InMemory c) id data st
           = Some (Err ("failed to sign data: " +:+ e), st')
         ∧ SignatureCounter <$> stored st' id = Some (incr (SignatureCounter d))
         ∧ SignatureCounter <$> stored st' id ≠ SignatureCounter <$> stored st id
         ∧ LastSignature <$> stored st' id = Some (LastSignature d).
Proof.
  intros Hdev Hheap Hsg Hsign.
  eexists. split.
  - by apply (service_go_SignData_Err c id data st p d sg e r').
  - unfold stored. cbn. rewrite Hdev, Hheap, lookup_insert_eq. cbn.
    split_and!; [done| |done].
    intros Heq. simplify_eq. by eapply incr_changes.
Qed.
End failing_signature.

(* ---------------------------------------------------------------------- *)
(** ** Creating a device                                                   *)
(* ---------------------------------------------------------------------- *)

Section creating.
Context `{Primitives}.

Lemma guard_valid alg :
  valid_algorithm alg →
  negb (String.eqb alg "RSA") && negb (String.eqb alg "ECC") = false.
Proof. by intros [-> | ->]. Qed.

Lemma guard_invalid alg :
  alg ≠ "RSA" → alg ≠ "ECC" →
  negb (String.eqb alg "RSA") && negb (String.eqb alg "ECC") = true.
Proof.
  intros H1 H2.
  apply String.eqb_neq in H1, H2. by rewrite H1, H2.
Qed.

Lemma guard_true_invalid alg :
  negb (String.eqb alg "RSA") && negb (String.eqb alg "ECC") = true →
  alg ≠ "RSA" ∧ alg ≠ "ECC".
Proof.
  intros Hg. apply andb_prop in Hg as [H1 H2].
  apply negb_true_iff in H1, H2. by apply String.eqb_neq in H1, H2.
Qed.

(** The key generation only draws entropy and is noted in the ghost log. *)
Lemma switch_Algorithm_frame alg st r st0 :
  switch_Algorithm alg st = Some (r, st0) →
  devices st0 = devices st ∧ heap st0 = heap st ∧ slices st0 = slices st.
Proof.
  unfold switch_Algorithm, bind, note_generate, with_rand, ret.
  destruct (String.eqb alg "RSA"); [|destruct (String.eqb alg "ECC")]; cbn.
  - destruct (RSAGenerator_Generate (rand st)) as [[[pub priv]|e] r'];
      intros; by simplify_eq.
  - destruct (ECCGenerator_Generate (rand st)) as [[[pub priv]|e] r'];
      intros; by simplify_eq.
  - intros; by simplify_eq.
Qed.

Lemma switch_Algorithm_total alg st : is_Some (switch_Algorithm alg st).
Proof.
  unfold switch_Algorithm, bind, note_generate, with_rand, ret.
  destruct (String.eqb alg "RSA"); [|destruct (String.eqb alg "ECC")]; cbn.
  - by destruct (RSAGenerator_Generate (rand st)) as [[[pub priv]|e] r'].
  - by destruct (ECCGenerator_Generate (rand st)) as [[[pub priv]|e] r'].
  - done.
Qed.

Lemma CreateDevice_invalid s opts st :
  opt_Algorithm opts ≠ "RSA" → opt_Algorithm opts ≠ "ECC" →
  CreateDevice s opts st = Some (Err ("invalid algorithm: " +:+ opt_Algorithm opts), st).
Proof.
  intros H1 H2. unfold CreateDevice. by rewrite guard_invalid.
Qed.

Lemma CreateDevice_keygen_fails s opts st e st0 :
  valid_algorithm (opt_Algorithm opts) →
  switch_Algorithm (opt_Algorithm opts) st = Some (Err e, st0) →
  CreateDevice s opts st = Some (Err e, st0).
Proof.
  intros Hv Hk. unfold CreateDevice. rewrite guard_valid by done.
  unfold bind at 1. by rewrite Hk.
Qed.

Lemma Save_a_fresh st0 d :
  devices st0 !! ID d = None →
  inmemory_go_a.Save (fresh (dom (heap st0))) (allocated st0 d)
    = Some (None, saved st0 (ID d) d).
Proof.
  intros Habs. unfold inmemory_go_a.Save, allocated, saved.
  go_run with rewrite Habs. reflexivity.
Qed.

Lemma Save_a_present st0 d q :
  devices st0 !! ID d = Some q →
  inmemory_go_a.Save (fresh (dom (heap st0))) (allocated st0 d)
    = Some (Some ("device " +:+ ID d +:+ " already exists"), allocated st0 d).
Proof.
  intros Hpres. unfold inmemory_go_a.Save, allocated.
  go_run with rewrite Hpres. reflexivity.
Qed.

Lemma Save_b st0 d :
  inmemory_go_b.Save (fresh (dom (heap st0))) (allocated st0 d)
    = Some (None, saved st0 (ID d) d).
Proof.
  unfold inmemory_go_b.Save, allocated, saved. go_run with fail. reflexivity.
Qed.

Lemma new_device_ID opts keys : ID (new_device opts keys) = opt_ID opts.
Proof. by destruct keys as [[? ?] ?]. Qed.

Lemma CreateDevice_after_keys s opts st keys st0 :
  valid_algorithm (opt_Algorithm opts) →
  switch_Algorithm (opt_Algorithm opts) st = Some (Ok keys, st0) →
  CreateDevice s opts st =
    match storage_go.Save (storage s) (fresh (dom (heap st0)))
                          (allocated st0 (new_device opts keys)) with
    | Some (Some err, st') => Some (Err ("failed to save device: " +:+ err), st')
    | Some (None, st') => Some (Ok (fresh (dom (heap st0))), st')
    | None => None
    end.
Proof.
  intros Hv Hk. unfold CreateDevice. rewrite guard_valid by done.
  unfold bind at 1. rewrite Hk. destruct keys as [[priv pub] sg].
  unfold bind at 1. unfold alloc at 1. cbv zeta.
  unfold bind, new_device, allocated.
  destruct (storage_go.Save _ _ _) as [[[err|] st']|]; reflexivity.
Qed.

Lemma CreateDevice_saved c opts st keys st0 :
  valid_algorithm (opt_Algorithm opts) →
  switch_Algorithm (opt_Algorithm opts) st = Some (Ok keys, st0) →
  (c = lines_1_69 → devices st !! opt_ID opts = None) →
  CreateDevice (InMemory c) opts st =
    Some (Ok (fresh (dom (heap st0))), saved st0 (opt_ID opts) (new_device opts keys)).
Proof.
  intros Hv Hk Habs.
  rewrite (CreateDevice_after_keys _ opts st keys st0) by done.
  destruct (switch_Algorithm_frame _ _ _ _ Hk) as (Hd & _).
  destruct c; cbn [InMemory NewSignatureDeviceService storage storage_go.Save
                   inmemory_go_a.NewInMemoryStorage inmemory_go_b.NewInMemoryStorage].
  - rewrite Save_a_fresh; rewrite new_device_ID; [done|]. rewrite Hd. by apply Habs.
  - rewrite Save_b. by rewrite new_device_ID.
Qed.

Lemma CreateDevice_conflict opts st keys st0 q :
  valid_algorithm (opt_Algorithm opts) →
  switch_Algorithm (opt_Algorithm opts) st = Some (Ok keys, st0) →
  devices st !! opt_ID opts = Some q →
  CreateDevice (InMemory lines_1_69) opts st =
    Some (Err ("failed to save device: device " +:+ opt_ID opts +:+ " already exists"),
          allocated st0 (new_device opts keys)).
Proof.
  intros Hv Hk Hpres.
  rewrite (CreateDevice_after_keys _ opts st keys st0) by done.
  destruct (switch_Algorithm_frame _ _ _ _ Hk) as (Hd & _).
  cbn [InMemory NewSignatureDeviceService storage storage_go.Save
       inmemory_go_a.NewInMemoryStorage].
  rewrite (Save_a_present _ _ q); rewrite new_device_ID; [done|]. by rewrite Hd.
Qed.

(** What a successful [CreateDevice] tells. *)
Lemma CreateDevice_Ok_inv c opts st p st' :
  CreateDevice (InMemory c) opts st = Some (Ok p, st') →
  ∃ keys st0,
    valid_algorithm (opt_Algorithm opts)
    ∧ switch_Algorithm (opt_Algorithm opts) st = Some (Ok keys, st0)
    ∧ (c = lines_1_69 → devices st !! opt_ID opts = None)
    ∧ p = fresh (dom (heap st0))
    ∧ st' = saved st0 (opt_ID opts) (new_device opts keys).
Proof.
  intros Hrun.
  destruct (negb (String.eqb (opt_Algorithm opts) "RSA")
            && negb (String.eqb (opt_Algorithm opts) "ECC")) eqn:Hg.
  { apply guard_true_invalid in Hg as [H1 H2].
    rewrite CreateDevice_invalid in Hrun by done. by simplify_eq. }
  assert (valid_algorithm (opt_Algorithm opts)) as Hv.
  { apply andb_false_iff in Hg as [Hg|Hg]; apply negb_false_iff, String.eqb_eq in Hg;
      [by left|by right]. }
  destruct (switch_Algorithm_total (opt_Algorithm opts) st) as [[[keys|e] st0] Hk].
  2: { rewrite (CreateDevice_keygen_fails _ _ _ e st0) in Hrun by done. by simplify_eq. }
  destruct (switch_Algorithm_frame _ _ _ _ Hk) as (Hd & _).
  exists keys, st0.
  destruct c.
  - destruct (devices st !! opt_ID opts) as [q|] eqn:Hlook.
    + rewrite (CreateDevice_conflict opts st keys st0 q) in Hrun by done. by simplify_eq.
    + rewrite (CreateDevice_saved lines_1_69 opts st keys st0) in Hrun by done.
      by simplify_eq.
  - rewrite (CreateDevice_saved lines_71_124 opts st keys st0) in Hrun by done.
    by simplify_eq.
Qed.

Lemma fresh_heap_None (st0 : State) : heap st0 !! fresh (dom (heap st0)) = None.
Proof. apply not_elem_of_dom. apply is_fresh. Qed.

Lemma stored_saved st0 id d : stored (saved st0 id d) id = Some d.
Proof. unfold stored, saved. cbn. by rewrite !lookup_insert_eq. Qed.
End creating.

Section create_properties.
Context `{Primitives}.

(** Allocation leaves the objects that exist where they are. *)
Lemma heap_allocated_old st0 d q dq :
  heap st0 !! q = Some dq → heap (allocated st0 d) !! q = Some dq.
Proof.
  intros Hq. unfold allocated. cbn.
  rewrite lookup_insert_ne; [done|].
  intros Heq. pose proof (fresh_heap_None st0) as Hnone. rewrite Heq in Hnone. congruence.
Qed.

Lemma stored_allocated_old st0 d id q dq :
  devices st0 !! id = Some q →
  heap st0 !! q = Some dq →
  stored (allocated st0 d) id = Some dq.
Proof.
  intros Hdev Hq. unfold stored. cbn. rewrite Hdev. by apply heap_allocated_old.
Qed.

(** C5.  A [CreateDevice] call with algorithm RSA or ECC that succeeds
    returns (and stores under its id) a device whose signature counter is 0
    and whose last signature is the base64 encoding of its own id.  This
    holds for both copies of the store. *)
Theorem CreateDevice_genesis c opts st p st' :
  valid_algorithm (opt_Algorithm opts) →
  CreateDevice (InMemory c) opts st = Some (Ok p, st') →
  ∃ d, heap st' !! p = Some d
       ∧ stored st' (opt_ID opts) = Some d
       ∧ ID d = opt_ID opts
       ∧ SignatureCounter d = 0
       ∧ LastSignature d = base64 (opt_ID opts).
Proof.
  intros _ Hrun.
  apply CreateDevice_Ok_inv in Hrun as (keys & st0 & Hv & Hk & _ & -> & ->).
  exists (new_device opts keys). split_and!.
  - unfold saved. cbn. by rewrite lookup_insert_eq.
  - apply stored_saved.
  - apply new_device_ID.
  - by destruct keys as [[? ?] ?].
  - by destruct keys as [[? ?] ?].
Qed.

(** C7.  A [CreateDevice] call whose algorithm is neither RSA nor ECC
    returns the error "invalid algorithm: ..." and hands back the state it
    was given, every component of it: no key generator is called (the
    entropy source and the ghost log of generator calls are untouched), no
    device object is allocated and nothing is stored.  This holds whatever
    the storage behind the service is. *)
Theorem CreateDevice_invalid_algorithm s opts st :
  opt_Algorithm opts ≠ "RSA" →
  opt_Algorithm opts ≠ "ECC" →
  CreateDevice s opts st
    = Some (Err ("invalid algorithm: " +:+ opt_Algorithm opts), st).
Proof.
  intros H1 H2. by rewrite CreateDevice_invalid.
Qed.

(** X26.  The copy of the store at inmemory.go 1-69: a second [CreateDevice] with
    the id of a device created before fails with "... already exists" (when
    its algorithm is valid and its keys are generated), and in every case it
    fails and leaves the store and the first device as they were. *)
Theorem duplicate_create_rejected o1 o2 st p st1 :
  CreateDevice (InMemory lines_1_69) o1 st = Some (Ok p, st1) →
  opt_ID o2 = opt_ID o1 →
  ∃ e st2,
    CreateDevice (InMemory lines_1_69) o2 st1 = Some (Err e, st2)
    ∧ (valid_algorithm (opt_Algorithm o2) →
       (∃ keys st', switch_Algorithm (opt_Algorithm o2) st1 = Some (Ok keys, st')) →
       e = "failed to save device: device " +:+ opt_ID o1 +:+ " already exists")
    ∧ devices st2 = devices st1
    ∧ heap st2 !! p = heap st1 !! p
    ∧ stored st2 (opt_ID o1) = stored st1 (opt_ID o1).
Proof.
  intros Hfirst Hid.
  apply CreateDevice_Ok_inv in Hfirst as (keys1 & st0 & Hv1 & Hk1 & _ & -> & ->).
  pose proof (stored_saved st0 (opt_ID o1) (new_device o1 keys1)) as Hst.
  remember (saved st0 (opt_ID o1) (new_device o1 keys1)) as st1 eqn:Est1.
  remember (fresh (dom (heap st0))) as p eqn:Ep.
  assert (devices st1 !! opt_ID o1 = Some p) as Hpres.
  { rewrite Est1, Ep. unfold saved. cbn. by rewrite lookup_insert_eq. }
  assert (heap st1 !! p = Some (new_device o1 keys1)) as Hobj.
  { rewrite Est1, Ep. unfold saved. cbn. by rewrite lookup_insert_eq. }
  clear Est1 Ep.
  destruct (negb (String.eqb (opt_Algorithm o2) "RSA")
            && negb (String.eqb (opt_Algorithm o2) "ECC")) eqn:Hg.
  { apply guard_true_invalid in Hg as [H1 H2].
    eexists _, st1. rewrite CreateDevice_invalid by done.
    split_and!; try done. intros [Hr | He] _; [by destruct H1|by destruct H2]. }
  assert (valid_algorithm (opt_Algorithm o2)) as Hv.
  { apply andb_false_iff in Hg as [Hg|Hg]; apply negb_false_iff, String.eqb_eq in Hg;
      [by left|by right]. }
  destruct (switch_Algorithm_total (opt_Algorithm o2) st1) as [[[keys|e] st'] Hk].
  - destruct (switch_Algorithm_frame _ _ _ _ Hk) as (Hd & Hh & _).
    eexists _, _.
    rewrite (CreateDevice_conflict o2 st1 keys st' p) by (by rewrite ?Hid).
    split_and!.
    + done.
    + intros _ _. by rewrite Hid.
    + done.
    + rewrite Hobj. apply heap_allocated_old. by rewrite Hh.
    + rewrite Hst. apply (stored_allocated_old _ _ _ p); by rewrite ?Hd, ?Hh.
  - destruct (switch_Algorithm_frame _ _ _ _ Hk) as (Hd & Hh & _).
    eexists _, _. rewrite (CreateDevice_keygen_fails _ o2 st1 e st') by done.
    split_and!.
    + done.
    + intros _ (keys & st'' & Hk'). rewrite Hk in Hk'. by simplify_eq.
    + done.
    + by rewrite Hh.
    + unfold stored. by rewrite Hd, Hh.
Qed.

(** C4.  The copy of the store at inmemory.go 71-124: a second
    [CreateDevice] with the id of a device created before succeeds (when its
    algorithm is valid and its keys are generated), and the store then holds
    the second device under that id instead of the first. *)
Theorem duplicate_create_overwrites o1 o2 st p st1 keys st' :
  CreateDevice (InMemory lines_71_124) o1 st = Some (Ok p, st1) →
  opt_ID o2 = opt_ID o1 →
  valid_algorithm (opt_Algorithm o2) →
  switch_Algorithm (opt_Algorithm o2) st1 = Some (Ok keys, st') →
  ∃ p2 st2,
    CreateDevice (InMemory lines_71_124) o2 st1 = Some (Ok p2, st2)
    ∧ p2 ≠ p
    ∧ devices st1 !! opt_ID o1 = Some p
    ∧ devices st2 !! opt_ID o1 = Some p2
    ∧ stored st2 (opt_ID o1) = Some (new_device o2 keys).
Proof.
  intros Hfirst Hid Hv Hk.
  apply CreateDevice_Ok_inv in Hfirst as (keys1 & st0 & Hv1 & Hk1 & _ & -> & ->).
  destruct (switch_Algorithm_frame _ _ _ _ Hk) as (Hd & Hh & _).
  eexists _, _. rewrite (CreateDevice_saved lines_71_124 o2 _ keys st') by done.
  split_and!.
  - done.
  - intros Heq. pose proof (fresh_heap_None st') as Hnone.
    rewrite Heq, Hh in Hnone. unfold saved in Hnone. cbn in Hnone.
    by rewrite lookup_insert_eq in Hnone.
  - unfold saved. cbn. by rewrite lookup_insert_eq.
  - rewrite <- Hid. unfold saved at 1. cbn. by rewrite lookup_insert_eq.
  - rewrite <- Hid. apply stored_saved.
Qed.
End create_properties.

Section absent_and_unvalidated.
Context `{Primitives}.

(** C8.  For an id the store does not hold, the store's [GetDevice] fails
    with "device not found", the service's [GetDevice] and [SignData] fail
    with that error wrapped, and each of the calls leaves the whole state,
    hence every stored device, as it was.  This holds for both copies of the
    store and both copies of [SignData]. *)
Theorem absent_id_not_found c id data st :
  devices st !! id = None →
  inmemory_go_a.GetDevice id st = Some (Err "device not found", st)
  ∧ inmemory_go_b.GetDevice id st = Some (Err "device not found", st)
  ∧ GetDevice (InMemory c) id st
      = Some (Err "failed to get device: device not found", st)
  ∧ part_002.SignData (InMemory c) (mkSign id data) st
      = Some (Err "failed to find device: device not found", st)
  ∧ service_go.SignData (InMemory c) id data st
      = Some (Err "failed to find device: device not found", st).
Proof.
  intros Habs. split_and!.
  - go_run with rewrite Habs. reflexivity.
  - go_run with rewrite Habs. reflexivity.
  - destruct c; (go_run with rewrite Habs); reflexivity.
  - by apply part_002_SignData_absent.
  - by apply service_go_SignData_absent.
Qed.

Lemma switch_Algorithm_errors alg st e st0 :
  switch_Algorithm alg st = Some (Err e, st0) →
  (∃ e', e = "failed to generate RSA key pair: " +:+ e')
  ∨ (∃ e', e = "failed to generate ECC key pair: " +:+ e').
Proof.
  unfold switch_Algorithm, bind, note_generate, with_rand, ret.
  destruct (String.eqb alg "RSA"); [|destruct (String.eqb alg "ECC")]; cbn.
  - destruct (RSAGenerator_Generate (rand st)) as [[[pub priv]|e0] r'];
      intros; simplify_eq. left. by eexists.
  - destruct (ECCGenerator_Generate (rand st)) as [[[pub priv]|e0] r'];
      intros; simplify_eq. right. by eexists.
  - intros; by simplify_eq.
Qed.

(** C10.  [CreateDevice] looks at neither the id nor the label: with
    algorithm RSA or ECC it succeeds for every id and label, the empty ones
    included, as soon as the key generation succeeds and the store accepts
    the device (the store of inmemory.go 1-69 accepts an id it does not hold
    yet, the one of inmemory.go 71-124 any id); it stores the device with
    the id and the label as given and with the base64 of the id as genesis
    value, which for the empty id is the empty string.  No error it returns
    is about the id or the label. *)
Theorem CreateDevice_no_input_validation c id label alg st keys st0 :
  valid_algorithm alg →
  switch_Algorithm alg st = Some (Ok keys, st0) →
  (c = lines_1_69 → devices st !! id = None) →
  (∃ p st' d,
     CreateDevice (InMemory c) (mkCreate id label alg) st = Some (Ok p, st')
     ∧ stored st' id = Some d
     ∧ heap st' !! p = Some d
     ∧ ID d = id ∧ Label d = label ∧ LastSignature d = base64 id)
  ∧ base64 "" = ""
  ∧ (∀ opts st1 e st2,
       CreateDevice (InMemory c) opts st1 = Some (Err e, st2) → create_error opts e).
Proof.
  intros Hv Hk Habs. split_and!.
  - eexists _, _, (new_device (mkCreate id label alg) keys).
    rewrite (CreateDevice_saved c (mkCreate id label alg) st keys st0) by done.
    split_and!; [done|apply stored_saved| |by destruct keys as [[? ?] ?]..].
    unfold saved. cbn. by rewrite lookup_insert_eq.
  - reflexivity.
  - intros opts st1 e st2 Hrun. unfold create_error.
    destruct (negb (String.eqb (opt_Algorithm opts) "RSA")
              && negb (String.eqb (opt_Algorithm opts) "ECC")) eqn:Hg.
    { apply guard_true_invalid in Hg as [H1 H2].
      rewrite CreateDevice_invalid in Hrun by done. simplify_eq. by left. }
    assert (valid_algorithm (opt_Algorithm opts)) as Hv'.
    { apply andb_false_iff in Hg as [Hg|Hg]; apply negb_false_iff, String.eqb_eq in Hg;
        [by left|by right]. }
    destruct (switch_Algorithm_total (opt_Algorithm opts) st1) as [[[keys'|e'] st'] Hk'].
    + rewrite (CreateDevice_after_keys _ opts st1 keys' st') in Hrun by done.
      destruct (storage_go.Save _ _ _) as [[[err|] st3]|]; simplify_eq.
      right. right. right. by eexists.
    + rewrite (CreateDevice_keygen_fails _ opts st1 e' st') in Hrun by done.
      simplify_eq. right.
      destruct (switch_Algorithm_errors _ _ _ _ Hk') as [?|?]; [by left|right; by left].
Qed.
End absent_and_unvalidated.

(* ---------------------------------------------------------------------- *)
(** ** Listing the devices                                                 *)
(* ---------------------------------------------------------------------- *)

Section listing.
Context `{Primitives}.

Lemma GetAllDevices_eval c st :
  GetAllDevices (InMemory c) st = Some (Ok (fresh (dom (slices st))), listed st).
Proof. destruct c; (go_run with fail); reflexivity. Qed.

Lemma elem_of_listed (m : gmap string ptr) (p : ptr) :
  p ∈ (map_to_list m).*2 ↔ ∃ id, m !! id = Some p.
Proof.
  rewrite list_elem_of_fmap. split.
  - intros ([id q] & -> & Hin). exists id. by apply elem_of_map_to_list in Hin.
  - intros (id & Hid). exists (id, p). split; [done|]. by apply elem_of_map_to_list.
Qed.

(** C9 (as amended).  [GetAllDevices] never fails.  It returns a slice with
    a backing array of its own, holding exactly the pointers the store
    holds, and changes nothing else; it is empty when the store is.
    Assigning to the returned slice changes neither the store, nor any
    device, nor a slice returned earlier.  The elements, however, are the
    stored pointers themselves: a field assignment through an element is an
    assignment to the stored record, and whatever the store's record becomes
    later is what the element shows. *)
Theorem GetAllDevices_shares_devices c st :
  ∃ a l st1,
    GetAllDevices (InMemory c) st = Some (Ok a, st1)
    ∧ slices st !! a = None
    ∧ slices st1 !! a = Some l
    ∧ (∀ p, p ∈ l ↔ ∃ id, devices st !! id = Some p)
    ∧ length l = size (devices st)
    ∧ (devices st = ∅ → l = [])
    ∧ devices st1 = devices st
    ∧ heap st1 = heap st
    ∧ (∀ b lb, slices st !! b = Some lb → slices st1 !! b = Some lb)
    ∧ (∀ l' st2, write_slice a l' st1 = Some (tt, st2) →
         devices st2 = devices st1 ∧ heap st2 = heap st1
         ∧ (∀ id, stored st2 id = stored st1 id)
         ∧ (∀ b lb, slices st !! b = Some lb → slices st2 !! b = Some lb))
    ∧ (∀ id p d f st2,
         devices st !! id = Some p → heap st !! p = Some d →
         modify p f st1 = Some (tt, st2) →
         p ∈ l ∧ stored st1 id = Some d ∧ stored st2 id = Some (f d))
    ∧ (∀ id p st2,
         devices st !! id = Some p → devices st2 !! id = Some p →
         p ∈ l ∧ stored st2 id = heap st2 !! p).
Proof.
  exists (fresh (dom (slices st))), (map_to_list (devices st)).*2, (listed st).
  assert (slices st !! fresh (dom (slices st)) = None) as Hfresh.
  { apply not_elem_of_dom, is_fresh. }
  split_and!.
  - apply GetAllDevices_eval.
  - done.
  - unfold listed. cbn. by rewrite lookup_insert_eq.
  - apply elem_of_listed.
  - by rewrite length_fmap, length_map_to_list.
  - intros ->. by rewrite map_to_list_empty.
  - done.
  - done.
  - intros b lb Hb. unfold listed. cbn. rewrite lookup_insert_ne; [done|congruence].
  - intros l' st2 Hw. unfold write_slice in Hw. simplify_eq. cbn. split_and!; try done.
    intros b lb Hb. rewrite lookup_insert_ne; [|congruence].
    rewrite lookup_insert_ne; [done|congruence].
  - intros id p d f st2 Hdev Hheap Hmod. split_and!.
    + apply elem_of_listed. by exists id.
    + unfold stored, listed. cbn. by rewrite Hdev.
    + unfold modify, listed in Hmod. cbn in Hmod. rewrite Hheap in Hmod. simplify_eq.
      unfold stored. cbn. by rewrite Hdev, lookup_insert_eq.
  - intros id p st2 Hdev Hdev2. split.
    + apply elem_of_listed. by exists id.
    + unfold stored. by rewrite Hdev2.
Qed.
End listing.

Section serial.
Context `{Primitives}.

(** The actions of each body, run without interruption, are the method. *)
Lemma exec_service_go_SignData_steps s deviceID data st :
  exec (service_go_SignData_steps s deviceID data) st = service_go.SignData s deviceID data st.
Proof.
  unfold service_go_SignData_steps, service_go.SignData. cbn [exec]. unfold bind.
  destruct (storage_go.GetDevice (storage s) deviceID st) as [[[device|err] st1]|]; [|done..].
  cbn [exec]. unfold bind.
  destruct (modify device _ st1) as [[[] st2]|]; [|done].
  destruct (load device st2) as [[d st3]|]; [|done].
  destruct (call_Sign _ _ st3) as [[[signature|err] st4]|]; [|done..].
  cbn [exec]. unfold bind.
  destruct (modify device _ st4) as [[[] st5]|]; [|done].
  destruct (storage_go.Update (storage s) device st5) as [[[err|] st6]|]; done.
Qed.

Lemma exec_part_002_SignData_steps s opts st :
  exec (part_002_SignData_steps s opts) st = part_002.SignData s opts st.
Proof.
  unfold part_002_SignData_steps, part_002.SignData. cbn [exec]. unfold bind.
  destruct (storage_go.GetDevice (storage s) (DeviceID opts) st)
    as [[[device|err] st1]|]; [|done..].
  cbn [exec]. unfold bind.
  destruct (load device st1) as [[d st2]|]; [|done].
  destruct (call_Sign _ _ st2) as [[[signature|err] st3]|]; [|done..].
  cbn [exec]. unfold bind.
  destruct (modify device _ st3) as [[[] st4]|]; [|done].
  destruct (modify device _ st4) as [[[] st5]|]; [|done].
  destruct (storage_go.Update (storage s) device st5) as [[[err|] st6]|]; done.
Qed.
End serial.

(* ---------------------------------------------------------------------- *)
(** ** The mutex serialises the calls                                      *)
(* ---------------------------------------------------------------------- *)

Section serialisation.
Context `{Primitives} {A : Type}.
Variable st0 : State.
Variable ps : list (prog A).

Local Abbreviation served := (served st0 ps).
Local Abbreviation others_wait := (others_wait ps).
Local Abbreviation serial_inv := (serial_inv st0 ps).

Lemma exec_all_snoc (qs : list (prog A)) q st rs st1 a st2 :
  exec_all qs st = Some (rs, st1) →
  exec q st1 = Some (a, st2) →
  exec_all (qs ++ [q]) st = Some (rs ++ [a], st2).
Proof.
  revert st rs. induction qs as [|q0 qs IH]; intros st rs Hqs Hq.
  - cbv [exec_all ret] in Hqs. simplify_eq. cbn. unfold bind. by rewrite Hq.
  - cbn [exec_all app] in *. unfold bind at 1 in Hqs. unfold bind at 1.
    destruct (exec q0 st) as [[a0 st']|]; [|done].
    unfold bind at 1 in Hqs. unfold bind at 1.
    destruct (exec_all qs st') as [[rs' st'']|] eqn:Hrest; [|done].
    unfold ret in Hqs. simplify_eq.
    by rewrite (IH _ _ Hrest Hq).
Qed.

Lemma serial_inv_start : serial_inv (start st0 ps).
Proof.
  exists [], [], st0. split; [|split].
  - unfold served. cbn. split_and!.
    + apply NoDup_nil_2.
    + constructor.
    + done.
    + constructor.
    + by rewrite length_fmap.
  - intros _. split; [done|]. intros i p _ Hp. unfold start. cbn.
    by rewrite list_lookup_fmap, Hp.
  - done.
Qed.

Lemma served_thread hist qs st_a c i t :
  served hist qs st_a c →
  pool c !! i = Some t →
  i ∈ hist.*1 →
  ∃ a, t = Finished a.
Proof.
  intros (_ & _ & _ & Hfin & _) Ht Hin.
  apply list_elem_of_fmap in Hin as ([j a] & -> & Hin).
  rewrite Forall_forall in Hfin. specialize (Hfin _ Hin). cbn in Hfin, Ht.
  rewrite Ht in Hfin. simplify_eq. by eexists.
Qed.

Lemma waiting_thread busy hist qs st_a c i t :
  served hist qs st_a c →
  others_wait busy c →
  pool c !! i = Some t →
  i ∉ busy →
  ∃ p, ps !! i = Some p ∧ t = Waiting p.
Proof.
  intros (_ & _ & _ & _ & Hlen) Hw Ht Hin.
  destruct (ps !! i) as [p|] eqn:Hp.
  - exists p. split; [done|]. specialize (Hw i p Hin Hp). congruence.
  - apply lookup_ge_None in Hp. apply lookup_lt_Some in Ht. lia.
Qed.

Lemma served_insert hist qs st_a c i t st' b :
  served hist qs st_a c →
  i ∉ hist.*1 →
  served hist qs st_a (mkConfig st' b (<[i := t]> (pool c))).
Proof.
  intros (Hnd & Hqs & Hrun & Hfin & Hlen) Hi.
  split_and!; try done.
  - rewrite Forall_forall in Hfin |- *. intros [j a] Hin. cbn.
    rewrite list_lookup_insert_ne; [by apply (Hfin (j, a))|].
    intros ->. apply Hi. apply list_elem_of_fmap. by exists (j, a).
  - cbn. by rewrite length_insert.
Qed.

Lemma serial_inv_step c c' : serial_inv c → step c c' → serial_inv c'.
Proof.
  intros (hist & qs & st_a & Hserved & Hfree & Hheld) Hstep.
  destruct Hstep as [i p Hi Hlock | i B m k b st' Hi Hm | i a Hi].
  - (* Lock *)
    destruct (Hfree Hlock) as [Hsh Hwait].
    assert (i ∉ hist.*1) as Hnew.
    { intros Hin. by destruct (served_thread _ _ _ _ _ _ Hserved Hi Hin). }
    destruct (waiting_thread _ _ _ _ _ _ _ Hserved Hwait Hi Hnew) as (p' & Hp & Heq).
    simplify_eq.
    exists hist, qs, (shared c). split; [|split].
    + by apply served_insert.
    + done.
    + intros _. exists i, p', p'. split_and!; try done.
      * cbn. apply list_lookup_insert_eq. by apply lookup_lt_Some in Hi.
      * intros j q Hj Hq. cbn. rewrite not_elem_of_app, not_elem_of_cons in Hj.
        destruct Hj as [Hj [Hne _]].
        rewrite list_lookup_insert_ne by done. by apply Hwait.
  - (* an action of the body *)
    destruct (locked c) eqn:Hlock.
    2: { destruct (Hfree eq_refl) as [_ Hwait].
         destruct (decide (i ∈ hist.*1)) as [Hin|Hin].
         - by destruct (served_thread _ _ _ _ _ _ Hserved Hi Hin).
         - by destruct (waiting_thread _ _ _ _ _ _ _ Hserved Hwait Hi Hin) as (? & _ & ?). }
    destruct (Hheld eq_refl) as (h & q & p_cur & Hh & Hq & Hcur & Hexec & Hwait).
    assert (i = h) as ->.
    { destruct (decide (i = h)) as [|Hne]; [done|].
      destruct (decide (i ∈ hist.*1)) as [Hin|Hin].
      - by destruct (served_thread _ _ _ _ _ _ Hserved Hi Hin).
      - assert (i ∉ hist.*1 ++ [h]) as Hout.
        { rewrite not_elem_of_app, not_elem_of_cons. split_and!; [done..|].
          apply not_elem_of_nil. }
        by destruct (waiting_thread _ _ _ _ _ _ _ Hserved Hwait Hi Hout) as (? & _ & ?). }
    rewrite Hcur in Hi. simplify_eq.
    exists hist, qs, st_a. split; [|split].
    + by apply served_insert.
    + done.
    + intros _. exists h, q, (k b). split_and!; try done.
      * cbn. apply list_lookup_insert_eq. by apply lookup_lt_Some in Hcur.
      * cbn. rewrite <- Hexec. cbn [exec]. unfold bind. by rewrite Hm.
      * intros j q' Hj Hq'. cbn. rewrite not_elem_of_app, not_elem_of_cons in Hj.
        destruct Hj as [Hj [Hne _]].
        rewrite list_lookup_insert_ne by done. apply Hwait; [|done].
        rewrite not_elem_of_app, not_elem_of_cons. split_and!; [done..|].
        apply not_elem_of_nil.
  - (* Unlock *)
    destruct (locked c) eqn:Hlock.
    2: { destruct (Hfree eq_refl) as [_ Hwait].
         destruct (decide (i ∈ hist.*1)) as [Hin|Hin].
         - by destruct (served_thread _ _ _ _ _ _ Hserved Hi Hin).
         - by destruct (waiting_thread _ _ _ _ _ _ _ Hserved Hwait Hi Hin) as (? & _ & ?). }
    destruct (Hheld eq_refl) as (h & q & p_cur & Hh & Hq & Hcur & Hexec & Hwait).
    assert (i = h) as ->.
    { destruct (decide (i = h)) as [|Hne]; [done|].
      destruct (decide (i ∈ hist.*1)) as [Hin|Hin].
      - by destruct (served_thread _ _ _ _ _ _ Hserved Hi Hin).
      - assert (i ∉ hist.*1 ++ [h]) as Hout.
        { rewrite not_elem_of_app, not_elem_of_cons. split_and!; [done..|].
          apply not_elem_of_nil. }
        by destruct (waiting_thread _ _ _ _ _ _ _ Hserved Hwait Hi Hout) as (? & _ & ?). }
    rewrite Hcur in Hi. simplify_eq.
    cbn [exec] in Hexec. unfold ret in Hexec.
    destruct Hserved as (Hnd & Hqs & Hrun & Hfin & Hlen).
    exists (hist ++ [(h, a)]), (qs ++ [q]), (shared c). split; [|split].
    + split_and!.
      * rewrite fmap_app. cbn. apply NoDup_app. split_and!; [done| |apply NoDup_singleton].
        intros j Hj Hj'. apply list_elem_of_singleton in Hj'. by subst.
      * apply Forall2_app; [done|]. by constructor.
      * rewrite fmap_app. cbn. by apply (exec_all_snoc _ _ _ _ st_a).
      * apply Forall_app. split.
        -- rewrite Forall_forall in Hfin |- *. intros [j a'] Hin. cbn.
           rewrite list_lookup_insert_ne; [by apply (Hfin (j, a'))|].
           intros ->. apply Hh. apply list_elem_of_fmap. by exists (j, a').
        -- constructor; [|constructor]. cbn.
           apply list_lookup_insert_eq. by apply lookup_lt_Some in Hcur.
      * cbn. by rewrite length_insert.
    + intros _. split; [done|]. rewrite fmap_app. cbn.
      intros j q' Hj Hq'. cbn. pose proof Hj as Hj'.
      rewrite not_elem_of_app, not_elem_of_cons in Hj'.
      destruct Hj' as [_ [Hne _]].
      rewrite list_lookup_insert_ne by done. by apply Hwait.
    + done.
Qed.

(** Every execution in which all goroutines return is a serial one: there
    is an order of the goroutines (the order in which they took the mutex)
    such that running their bodies in that order, each without interruption,
    gives every goroutine the result it returned and leaves the final
    state. *)
Lemma serialisable c rs :
  rtc step (start st0 ps) c →
  all_Finished c rs →
  ∃ hist qs,
    hist.*1 ≡ₚ seq 0 (length ps)
    ∧ Forall2 (λ ia q, ps !! ia.1 = Some q) hist qs
    ∧ Forall (λ ia, rs !! ia.1 = Some ia.2) hist
    ∧ exec_all qs st0 = Some (hist.*2, shared c).
Proof.
  intros Hsteps Hfin.
  assert (serial_inv c) as (hist & qs & st_a & Hserved & Hfree & Hheld).
  { revert Hsteps. apply rtc_ind_r; [apply serial_inv_start|].
    intros c1 c2 _ Hstep IH. by apply (serial_inv_step c1). }
  unfold all_Finished in Hfin.
  destruct (locked c) eqn:Hlock.
  { destruct (Hheld eq_refl) as (h & q & p_cur & _ & _ & Hcur & _).
    rewrite Hfin, list_lookup_fmap in Hcur. by destruct (rs !! h). }
  destruct (Hfree eq_refl) as [<- Hwait].
  destruct Hserved as (Hnd & Hqs & Hrun & Hdone & Hlen).
  exists hist, qs. split_and!; try done.
  - apply NoDup_Permutation; [done|apply NoDup_seq|].
    intros i. rewrite elem_of_seq. split.
    + intros Hin. apply list_elem_of_fmap in Hin as ([j a] & -> & Hin). cbn.
      apply list_elem_of_lookup in Hin as [n Hn].
      destruct (Forall2_lookup_l _ _ _ _ _ Hqs Hn) as (q & _ & Hq). cbn in Hq.
      apply lookup_lt_Some in Hq. lia.
    + intros [_ Hi]. destruct (decide (i ∈ hist.*1)) as [|Hout]; [done|].
      destruct (lookup_lt_is_Some_2 ps i) as [p Hp]; [lia|].
      specialize (Hwait i p Hout Hp). rewrite Hfin, list_lookup_fmap in Hwait.
      by destruct (rs !! i).
  - rewrite Forall_forall in Hdone |- *. intros [j a] Hin. cbn.
    specialize (Hdone _ Hin). cbn in Hdone.
    rewrite Hfin, list_lookup_fmap in Hdone.
    destruct (rs !! j) as [a'|]; cbn in Hdone; by simplify_eq.
Qed.
End serialisation.

Section parallel_calls.
Context `{Primitives}.

Lemma step_thread_sound {A} i (c c' : config A) :
  step_thread i c = Some c' → step c c'.
Proof.
  unfold step_thread. intros Hs.
  destruct (pool c !! i) as [[p|[a|B m k]|a]|] eqn:Hi; try done.
  - destruct (locked c) eqn:Hl; [done|]. simplify_eq. by apply step_Lock.
  - simplify_eq. by apply step_Unlock.
  - destruct (m (shared c)) as [[b st']|] eqn:Hm; [|done]. simplify_eq.
    by eapply step_Do.
Qed.

Lemma schedule_sound {A} sched (c c' : config A) :
  schedule sched c = Some c' → rtc step c c'.
Proof.
  revert c. induction sched as [|i sched IH]; intros c Hs; cbn in Hs.
  - simplify_eq. apply rtc_refl.
  - destruct (step_thread i c) as [c1|] eqn:Hstep; [|done].
    eapply rtc_l; [by eapply step_thread_sound|by apply IH].
Qed.

Lemma exec_all_sequentially (steps : string → prog (result SignDataResponse))
    (sign : string → M (result SignDataResponse)) datas st :
  (∀ data st, exec (steps data) st = sign data st) →
  exec_all (steps <$> datas) st = sequentially sign datas st.
Proof.
  intros Hsame. revert st. induction datas as [|data datas IH]; intros st; [done|].
  cbn [fmap list_fmap exec_all sequentially]. unfold bind at 1 3.
  rewrite Hsame. destruct (sign data st) as [[r st1]|]; [|done].
  unfold bind. by rewrite IH.
Qed.

(** The bodies and the arguments of the goroutines of a history. *)
Lemma history_arguments {B} (f : string → B) (datas : list string)
    (hist : list (nat * result SignDataResponse))
    (qs : list B) :
  Forall2 (λ ia q, (f <$> datas) !! ia.1 = Some q) hist qs →
  ∃ datas', Forall2 (λ i data, datas !! i = Some data) (hist.*1) datas'
            ∧ qs = f <$> datas'.
Proof.
  induction 1 as [|[i a] q hist qs Hq _ (datas' & Hd & ->)].
  - exists []. split; [constructor|done].
  - cbn in Hq. rewrite list_lookup_fmap in Hq.
    destruct (datas !! i) as [data|] eqn:Hdata; [|done]. cbn in Hq. simplify_eq.
    exists (data :: datas'). split; [by constructor|done].
Qed.

Lemma history_results (rs : list (result SignDataResponse))
    (hist : list (nat * result SignDataResponse)) :
  Forall (λ ia, rs !! ia.1 = Some ia.2) hist →
  all_Ok rs →
  Forall2 (λ i r, rs !! i = Some r) (hist.*1) (hist.*2) ∧ all_Ok (hist.*2).
Proof.
  unfold all_Ok. intros Hh Hok. induction Hh as [|[i a] hist Ha _ [IH1 IH2]].
  - split; constructor.
  - cbn in *. split; [by constructor|]. constructor; [|done].
    rewrite Forall_forall in Hok. apply Hok. by eapply list_elem_of_lookup_2.
Qed.

(** X27.  The copy in unnamed/part_002 under parallel callers: whatever the
    interleaving, if the [N] goroutines that call [SignData] on a device that
    has never signed all return successfully, then, taken in the order
    [order] in which they held the mutex, the goroutine at position [k]
    signed the payload with counter [k], chained to the signature of the one
    before it; so the counters are 0, ..., N-1, each used once, and the
    stored counter is [N]. *)
Theorem part_002_parallel_counters c id datas st p d cfg rs :
  devices st !! id = Some p →
  heap st !! p = Some d →
  SignatureCounter d = 0 →
  Z.of_nat (length datas) ≤ max_int →
  rtc step (start st ((λ data, part_002_SignData_steps (InMemory c) (mkSign id data))
                        <$> datas)) cfg →
  all_Finished cfg rs →
  all_Ok rs →
  ∃ order datas' rs',
    order ≡ₚ seq 0 (length datas)
    ∧ Forall2 (λ i data, datas !! i = Some data) order datas'
    ∧ Forall2 (λ i r, rs !! i = Some r) order rs'
    ∧ (∀ k data r, datas' !! k = Some data → rs' !! k = Some (Ok r) →
         SignedData r =
           Sprintf_d_s_s (Z.of_nat k) data (prev_signature (LastSignature d) rs' k))
    ∧ SignatureCounter <$> stored (shared cfg) id = Some (Z.of_nat (length datas)).
Proof.
  intros Hdev Hheap Hzero Hlen Hsteps Hfin Hok.
  destruct (serialisable st _ cfg rs Hsteps Hfin) as (hist & qs & Hperm & Hqs & Hrs & Hrun).
  rewrite length_fmap in Hperm.
  destruct (history_arguments _ _ _ _ Hqs) as (datas' & Hdatas' & ->).
  destruct (history_results _ _ Hrs Hok) as [Hrs' Hok'].
  assert (length datas' = length datas) as Hlen'.
  { rewrite <- (Forall2_length _ _ _ Hdatas'), Hperm. apply length_seq. }
  rewrite (exec_all_sequentially _
             (λ data, part_002.SignData (InMemory c) (mkSign id data))) in Hrun
    by (intros; apply exec_part_002_SignData_steps).
  destruct (part_002_run_shape c id datas' st p d (hist.*2) (shared cfg))
    as (Hchain & Hcnt & _); try done; [lia|].
  exists (hist.*1), datas', (hist.*2). split_and!; try done.
  by rewrite <- Hlen'.
Qed.

(** C6.  domain/service.go under parallel callers: whatever the
    interleaving, if the [N] goroutines that call [SignData] on a device that
    has never signed all return successfully, then, taken in the order
    [order] in which they held the mutex, the goroutine at position [k]
    signed the payload with counter [k+1]; so no counter is skipped or used
    twice and the stored counter is [N], but the counters in the returned
    payloads are 1, ..., N, not 0, ..., N-1. *)
Theorem service_go_parallel_counters_from_one c id datas st p d cfg rs :
  devices st !! id = Some p →
  heap st !! p = Some d →
  SignatureCounter d = 0 →
  Z.of_nat (length datas) ≤ max_int →
  rtc step (start st (service_go_SignData_steps (InMemory c) id <$> datas)) cfg →
  all_Finished cfg rs →
  all_Ok rs →
  ∃ order datas' rs',
    order ≡ₚ seq 0 (length datas)
    ∧ Forall2 (λ i data, datas !! i = Some data) order datas'
    ∧ Forall2 (λ i r, rs !! i = Some r) order rs'
    ∧ (∀ k data r, datas' !! k = Some data → rs' !! k = Some (Ok r) →
         SignedData r =
           Sprintf_d_s_s (Z.of_nat k + 1) data (prev_signature (LastSignature d) rs' k)
         ∧ SignedData r ≠
           Sprintf_d_s_s (Z.of_nat k) data (prev_signature (LastSignature d) rs' k))
    ∧ SignatureCounter <$> stored (shared cfg) id = Some (Z.of_nat (length datas)).
Proof.
  intros Hdev Hheap Hzero Hlen Hsteps Hfin Hok.
  destruct (serialisable st _ cfg rs Hsteps Hfin) as (hist & qs & Hperm & Hqs & Hrs & Hrun).
  rewrite length_fmap in Hperm.
  destruct (history_arguments _ _ _ _ Hqs) as (datas' & Hdatas' & ->).
  destruct (history_results _ _ Hrs Hok) as [Hrs' Hok'].
  assert (length datas' = length datas) as Hlen'.
  { rewrite <- (Forall2_length _ _ _ Hdatas'), Hperm. apply length_seq. }
  rewrite (exec_all_sequentially _ (service_go.SignData (InMemory c) id)) in Hrun
    by (intros; apply exec_service_go_SignData_steps).
  destruct (service_go_run_shape c id datas' st p d (hist.*2) (shared cfg))
    as (Hchain & Hcnt); try done; [lia|].
  exists (hist.*1), datas', (hist.*2). split_and!; try done.
  by rewrite <- Hlen'.
Qed.
End parallel_calls.

(* ---------------------------------------------------------------------- *)
(** ** The statements at concrete inputs                                   *)
(* ---------------------------------------------------------------------- *)

Import Toy Scenario.

Example created_by_CreateDevice :
  CreateDevice (InMemory lines_1_69) create_d1 (empty 3) = Some (Ok 1%positive, created 2)
  ∧ CreateDevice (InMemory lines_71_124) create_d1 (empty 1)
      = Some (Ok 1%positive, created 0).
Proof. split; vm_compute; reflexivity. Qed.

Lemma part_002_run_from_zero_witness :
  sequentially (λ data, part_002.SignData (InMemory lines_1_69) (mkSign "d1" data))
    ["tx1"; "tx2"] (created 2)
    = Some ([Ok tx1_from_zero; Ok tx2_from_zero], signed_twice (Signature tx2_from_zero))
  ∧ (∀ k data r, ["tx1"; "tx2"] !! k = Some data →
       [Ok tx1_from_zero; Ok tx2_from_zero] !! k = Some (Ok r) →
       SignedData r =
         Sprintf_d_s_s (Z.of_nat k) data
           (prev_signature "ZDE=" [Ok tx1_from_zero; Ok tx2_from_zero] k))
  ∧ SignatureCounter <$> stored (signed_twice (Signature tx2_from_zero)) "d1" = Some 2
  ∧ LastSignature <$> stored (signed_twice (Signature tx2_from_zero)) "d1"
      = Some (Signature tx2_from_zero).
Proof.
  assert (sequentially
            (λ data, part_002.SignData (InMemory lines_1_69) (mkSign "d1" data))
            ["tx1"; "tx2"] (created 2)
          = Some ([Ok tx1_from_zero; Ok tx2_from_zero],
                  signed_twice (Signature tx2_from_zero))) as Hrun.
  { vm_compute. reflexivity. }
  split; [exact Hrun|].
  apply (part_002_run_from_zero lines_1_69 "d1" ["tx1"; "tx2"] (created 2) 1%positive
           (d1 2) [Ok tx1_from_zero; Ok tx2_from_zero]
           (signed_twice (Signature tx2_from_zero))).
  - vm_compute. reflexivity.
  - vm_compute. reflexivity.
  - reflexivity.
  - vm_compute. discriminate.
  - exact Hrun.
  - repeat constructor.
Defined.

Lemma service_go_run_counts_from_one_witness :
  sequentially (service_go.SignData (InMemory lines_71_124) "d1") ["tx1"; "tx2"] (created 2)
    = Some ([Ok tx1_from_one; Ok tx2_from_one], signed_twice (Signature tx2_from_one))
  ∧ (∀ k data r, ["tx1"; "tx2"] !! k = Some data →
       [Ok tx1_from_one; Ok tx2_from_one] !! k = Some (Ok r) →
       SignedData r =
         Sprintf_d_s_s (Z.of_nat k + 1) data
           (prev_signature "ZDE=" [Ok tx1_from_one; Ok tx2_from_one] k)
       ∧ SignedData r ≠
         Sprintf_d_s_s (Z.of_nat k) data
           (prev_signature "ZDE=" [Ok tx1_from_one; Ok tx2_from_one] k))
  ∧ SignatureCounter <$> stored (signed_twice (Signature tx2_from_one)) "d1" = Some 2.
Proof.
  assert (sequentially (service_go.SignData (InMemory lines_71_124) "d1")
            ["tx1"; "tx2"] (created 2)
          = Some ([Ok tx1_from_one; Ok tx2_from_one],
                  signed_twice (Signature tx2_from_one))) as Hrun.
  { vm_compute. reflexivity. }
  split; [exact Hrun|].
  apply (service_go_run_counts_from_one lines_71_124 "d1" ["tx1"; "tx2"] (created 2)
           1%positive (d1 2) [Ok tx1_from_one; Ok tx2_from_one]
           (signed_twice (Signature tx2_from_one))).
  - vm_compute. reflexivity.
  - vm_compute. reflexivity.
  - reflexivity.
  - vm_compute. discriminate.
  - exact Hrun.
  - repeat constructor.
Defined.


Lemma part_002_call_chains_witness :
  part_002.SignData (InMemory lines_1_69) (mkSign "d1" "tx1") (created 2)
    = Some (Ok tx1_from_zero,
            after_update (created 2) 1%positive
              (signed_device (Signature tx1_from_zero) (d1 2)) 1%nat)
  ∧ SignedData tx1_from_zero = Sprintf_d_s_s 0 "tx1" "ZDE="
  ∧ LastSignature <$>
      stored (after_update (created 2) 1%positive
                (signed_device (Signature tx1_from_zero) (d1 2)) 1%nat) "d1"
      = Some (Signature tx1_from_zero)
  ∧ SignatureCounter <$>
      stored (after_update (created 2) 1%positive
                (signed_device (Signature tx1_from_zero) (d1 2)) 1%nat) "d1"
      = Some (0 + 1).
Proof.
  assert (part_002.SignData (InMemory lines_1_69) (mkSign "d1" "tx1") (created 2)
          = Some (Ok tx1_from_zero,
                  after_update (created 2) 1%positive
                    (signed_device (Signature tx1_from_zero) (d1 2)) 1%nat)) as Hrun.
  { vm_compute. reflexivity. }
  split; [exact Hrun|].
  apply (part_002_call_chains lines_1_69 "d1" "tx1" (created 2) 1%positive (d1 2)
           tx1_from_zero _).
  - vm_compute. reflexivity.
  - vm_compute. reflexivity.
  - unfold min_int, max_int. cbn. lia.
  - exact Hrun.
Defined.

Lemma service_go_call_chains_off_by_one_witness :
  service_go.SignData (InMemory lines_71_124) "d1" "tx1" (created 2)
    = Some (Ok tx1_from_one,
            after_update (created 2) 1%positive
              (signed_device (Signature tx1_from_one) (d1 2)) 1%nat)
  ∧ SignedData tx1_from_one = Sprintf_d_s_s (0 + 1) "tx1" "ZDE="
  ∧ SignedData tx1_from_one ≠ Sprintf_d_s_s 0 "tx1" "ZDE="
  ∧ LastSignature <$>
      stored (after_update (created 2) 1%positive
                (signed_device (Signature tx1_from_one) (d1 2)) 1%nat) "d1"
      = Some (Signature tx1_from_one).
Proof.
  assert (service_go.SignData (InMemory lines_71_124) "d1" "tx1" (created 2)
          = Some (Ok tx1_from_one,
                  after_update (created 2) 1%positive
                    (signed_device (Signature tx1_from_one) (d1 2)) 1%nat)) as Hrun.
  { vm_compute. reflexivity. }
  split; [exact Hrun|].
  apply (service_go_call_chains_off_by_one lines_71_124 "d1" "tx1" (created 2) 1%positive
           (d1 2) tx1_from_one _).
  - vm_compute. reflexivity.
  - vm_compute. reflexivity.
  - unfold min_int, max_int. cbn. lia.
  - exact Hrun.
Defined.

Lemma part_002_failed_sign_leaves_state_witness :
  crypto.Sign (@crypto.RSASigner primitives 1%nat)
    (bytes_of_string (Sprintf_d_s_s 0 "tx1" "ZDE=")) 0%nat
    = (Err "crypto/rand: no entropy", 0%nat)
  ∧ ∃ st', part_002.SignData (InMemory lines_1_69) (mkSign "d1" "tx1") (created 0)
             = Some (Err ("failed to sign data: " +:+ "crypto/rand: no entropy"), st')
           ∧ devices st' = devices (created 0)
           ∧ heap st' = heap (created 0)
           ∧ stored st' "d1" = Some (d1 0).
Proof.
  split; [vm_compute; reflexivity|].
  apply (part_002_failed_sign_leaves_state lines_1_69 "d1" "tx1" (created 0) 1%positive
           (d1 0) (@crypto.RSASigner primitives 1%nat) "crypto/rand: no entropy" 0%nat).
  - vm_compute. reflexivity.
  - vm_compute. reflexivity.
  - reflexivity.
  - vm_compute. reflexivity.
Defined.

Lemma service_go_failed_sign_advances_counter_witness :
  crypto.Sign (@crypto.RSASigner primitives 1%nat)
    (bytes_of_string (Sprintf_d_s_s (incr 0) "tx1" "ZDE=")) 0%nat
    = (Err "crypto/rand: no entropy", 0%nat)
  ∧ service_go.SignData (InMemory lines_71_124) "d1" "tx1" (created 0)
      = Some (Err "failed to sign data: crypto/rand: no entropy", advanced)
  ∧ ∃ st', service_go.SignData (InMemory lines_71_124) "d1" "tx1" (created 0)
             = Some (Err ("failed to sign data: " +:+ "crypto/rand: no entropy"), st')
           ∧ SignatureCounter <$> stored st' "d1" = Some (incr 0)
           ∧ SignatureCounter <$> stored st' "d1"
               ≠ SignatureCounter <$> stored (created 0) "d1"
           ∧ LastSignature <$> stored st' "d1" = Some "ZDE=".
Proof.
  split; [vm_compute; reflexivity|].
  split; [vm_compute; reflexivity|].
  apply (service_go_failed_sign_advances_counter lines_71_124 "d1" "tx1" (created 0)
           1%positive (d1 0) (@crypto.RSASigner primitives 1%nat) "crypto/rand: no entropy" 0%nat).
  - vm_compute. reflexivity.
  - vm_compute. reflexivity.
  - reflexivity.
  - vm_compute. reflexivity.
Defined.

Lemma CreateDevice_genesis_witness :
  valid_algorithm "RSA"
  ∧ CreateDevice (InMemory lines_1_69) create_d1 (empty 3) = Some (Ok 1%positive, created 2)
  ∧ ∃ d, heap (created 2) !! 1%positive = Some d
         ∧ stored (created 2) "d1" = Some d
         ∧ ID d = "d1"
         ∧ SignatureCounter d = 0
         ∧ LastSignature d = base64 "d1".
Proof.
  assert (CreateDevice (InMemory lines_1_69) create_d1 (empty 3)
          = Some (Ok 1%positive, created 2)) as Hrun.
  { vm_compute. reflexivity. }
  split; [by left|]. split; [exact Hrun|].
  apply (CreateDevice_genesis lines_1_69 create_d1 (empty 3) 1%positive (created 2)).
  - by left.
  - exact Hrun.
Defined.

Lemma CreateDevice_invalid_algorithm_witness :
  "DSA" ≠ "RSA" ∧ "DSA" ≠ "ECC"
  ∧ CreateDevice (InMemory lines_1_69) (mkCreate "d9" "Bad" "DSA") (created 2)
      = Some (Err ("invalid algorithm: " +:+ "DSA"), created 2)
  ∧ generate_calls (created 2) = ["RSA"]
  ∧ stored (created 2) "d9" = None.
Proof.
  split; [discriminate|]. split; [discriminate|].
  split; [|split; vm_compute; reflexivity].
  apply (CreateDevice_invalid_algorithm (InMemory lines_1_69) (mkCreate "d9" "Bad" "DSA")
           (created 2)); discriminate.
Defined.

Lemma duplicate_create_rejected_witness :
  CreateDevice (InMemory lines_1_69) create_d1 (empty 3) = Some (Ok 1%positive, created 2)
  ∧ CreateDevice (InMemory lines_1_69) create_d1_again (created 2)
      = Some (Err "failed to save device: device d1 already exists",
              allocated created_keys_drawn (new_device create_d1_again second_keys))
  ∧ ∃ e st2,
      CreateDevice (InMemory lines_1_69) create_d1_again (created 2) = Some (Err e, st2)
      ∧ (valid_algorithm (opt_Algorithm create_d1_again) →
         (∃ keys st', switch_Algorithm (opt_Algorithm create_d1_again) (created 2)
                        = Some (Ok keys, st')) →
         e = "failed to save device: device " +:+ opt_ID create_d1 +:+ " already exists")
      ∧ devices st2 = devices (created 2)
      ∧ heap st2 !! 1%positive = heap (created 2) !! 1%positive
      ∧ stored st2 (opt_ID create_d1) = stored (created 2) (opt_ID create_d1).
Proof.
  assert (CreateDevice (InMemory lines_1_69) create_d1 (empty 3)
          = Some (Ok 1%positive, created 2)) as Hrun.
  { vm_compute. reflexivity. }
  split; [exact Hrun|]. split; [vm_compute; reflexivity|].
  apply (duplicate_create_rejected create_d1 create_d1_again (empty 3) 1%positive
           (created 2)).
  - exact Hrun.
  - reflexivity.
Defined.

Lemma duplicate_create_overwrites_witness :
  CreateDevice (InMemory lines_71_124) create_d1 (empty 3) = Some (Ok 1%positive, created 2)
  ∧ CreateDevice (InMemory lines_71_124) create_d1_again (created 2)
      = Some (Ok 2%positive, overwritten)
  ∧ Label <$> stored (created 2) "d1" = Some "My Device"
  ∧ Label <$> stored overwritten "d1" = Some "Second"
  ∧ ∃ p2 st2,
      CreateDevice (InMemory lines_71_124) create_d1_again (created 2) = Some (Ok p2, st2)
      ∧ p2 ≠ 1%positive
      ∧ devices (created 2) !! opt_ID create_d1 = Some 1%positive
      ∧ devices st2 !! opt_ID create_d1 = Some p2
      ∧ stored st2 (opt_ID create_d1) = Some (new_device create_d1_again second_keys).
Proof.
  assert (CreateDevice (InMemory lines_71_124) create_d1 (empty 3)
          = Some (Ok 1%positive, created 2)) as Hrun.
  { vm_compute. reflexivity. }
  split; [exact Hrun|]. split; [vm_compute; reflexivity|].
  split; [vm_compute; reflexivity|]. split; [vm_compute; reflexivity|].
  apply (duplicate_create_overwrites create_d1 create_d1_again (empty 3) 1%positive
           (created 2) second_keys created_keys_drawn).
  - exact Hrun.
  - reflexivity.
  - by right.
  - vm_compute. reflexivity.
Defined.

Lemma absent_id_not_found_witness :
  devices (created 2) !! "ghost" = None
  ∧ inmemory_go_a.GetDevice "ghost" (created 2) = Some (Err "device not found", created 2)
  ∧ inmemory_go_b.GetDevice "ghost" (created 2) = Some (Err "device not found", created 2)
  ∧ GetDevice (InMemory lines_1_69) "ghost" (created 2)
      = Some (Err "failed to get device: device not found", created 2)
  ∧ part_002.SignData (InMemory lines_1_69) (mkSign "ghost" "tx1") (created 2)
      = Some (Err "failed to find device: device not found", created 2)
  ∧ service_go.SignData (InMemory lines_1_69) "ghost" "tx1" (created 2)
      = Some (Err "failed to find device: device not found", created 2).
Proof.
  split; [vm_compute; reflexivity|].
  apply (absent_id_not_found lines_1_69 "ghost" "tx1" (created 2)).
  vm_compute. reflexivity.
Defined.

Lemma CreateDevice_no_input_validation_witness :
  valid_algorithm "RSA"
  ∧ switch_Algorithm "RSA" (empty 1)
      = Some (Ok first_keys,
              drawn_once)
  ∧ devices (empty 1) !! "" = None
  ∧ (∃ p st' d,
       CreateDevice (InMemory lines_1_69) (mkCreate "" "" "RSA") (empty 1) = Some (Ok p, st')
       ∧ stored st' "" = Some d
       ∧ heap st' !! p = Some d
       ∧ ID d = "" ∧ Label d = "" ∧ LastSignature d = base64 "")
  ∧ base64 "" = ""
  ∧ (∀ opts st1 e st2,
       CreateDevice (InMemory lines_1_69) opts st1 = Some (Err e, st2) →
       create_error opts e).
Proof.
  split; [by left|]. split; [vm_compute; reflexivity|]. split; [vm_compute; reflexivity|].
  apply (CreateDevice_no_input_validation lines_1_69 "" "" "RSA" (empty 1)
           first_keys
           (drawn_once)).
  - by left.
  - vm_compute. reflexivity.
  - intros _. vm_compute. reflexivity.
Defined.

(** A listing followed by a field assignment through the listed element, and
    a listing followed by a signature: in both cases the listed element and
    the stored record are one object. *)
Example listing_then_assignment :
  GetAllDevices (InMemory lines_1_69) (created 2) = Some (Ok 1%positive, created_listed)
  ∧ slices created_listed !! 1%positive = Some [1%positive]
  ∧ Label <$> stored created_listed "d1" = Some "My Device"
  ∧ modify 1%positive (set_Label "changed") created_listed = Some (tt, relabelled)
  ∧ Label <$> stored relabelled "d1" = Some "changed"
  ∧ SignatureCounter <$> heap created_listed !! 1%positive = Some 0
  ∧ (∃ r st', part_002.SignData (InMemory lines_1_69) (mkSign "d1" "tx1") created_listed
                = Some (Ok r, st')
              ∧ slices st' !! 1%positive = Some [1%positive]
              ∧ SignatureCounter <$> heap st' !! 1%positive = Some 1).
Proof.
  split_and!; try (vm_compute; reflexivity).
  eexists _, _. split_and!; vm_compute; reflexivity.
Qed.

(** C9, as the specification words it, fails: after [GetAllDevices] returned
    the slice at address 1 holding the pointer 1, assigning the field [Label]
    through that element changes the record the store holds for "d1". *)
Lemma GetAllDevices_elements_not_independent : ¬ elements_independent.
Proof.
  intros Hind.
  specialize (Hind primitives lines_1_69 (created 2) created_listed relabelled
                   1%positive 1%positive [1%positive] (set_Label "changed") "d1").
  assert (stored relabelled "d1" = stored created_listed "d1") as Heq.
  { apply Hind.
    - vm_compute. reflexivity.
    - vm_compute. reflexivity.
    - apply list_elem_of_here.
    - vm_compute. reflexivity. }
  vm_compute in Heq. discriminate.
Qed.

Lemma part_002_parallel_counters_witness :
  schedule second_caller_first
    (start (created 2)
       ((λ data, part_002_SignData_steps (InMemory lines_1_69) (mkSign "d1" data))
          <$> ["tx1"; "tx2"]))
    = Some (both_returned parallel_tx1_from_zero parallel_tx2_from_zero)
  ∧ ∃ order datas' rs',
      order ≡ₚ seq 0 (length ["tx1"; "tx2"])
      ∧ Forall2 (λ i data, ["tx1"; "tx2"] !! i = Some data) order datas'
      ∧ Forall2 (λ i r, [Ok parallel_tx1_from_zero; Ok parallel_tx2_from_zero] !! i = Some r)
                order rs'
      ∧ (∀ k data r, datas' !! k = Some data → rs' !! k = Some (Ok r) →
           SignedData r = Sprintf_d_s_s (Z.of_nat k) data (prev_signature "ZDE=" rs' k))
      ∧ SignatureCounter <$>
          stored (shared (both_returned parallel_tx1_from_zero parallel_tx2_from_zero)) "d1"
          = Some (Z.of_nat (length ["tx1"; "tx2"])).
Proof.
  assert (schedule second_caller_first
            (start (created 2)
               ((λ data, part_002_SignData_steps (InMemory lines_1_69) (mkSign "d1" data))
                  <$> ["tx1"; "tx2"]))
          = Some (both_returned parallel_tx1_from_zero parallel_tx2_from_zero)) as Hrun.
  { vm_compute. reflexivity. }
  split; [exact Hrun|].
  apply (part_002_parallel_counters lines_1_69 "d1" ["tx1"; "tx2"] (created 2) 1%positive
           (d1 2) (both_returned parallel_tx1_from_zero parallel_tx2_from_zero)
           [Ok parallel_tx1_from_zero; Ok parallel_tx2_from_zero]).
  - vm_compute. reflexivity.
  - vm_compute. reflexivity.
  - reflexivity.
  - vm_compute. discriminate.
  - apply (schedule_sound second_caller_first). exact Hrun.
  - reflexivity.
  - repeat constructor.
Defined.

Lemma service_go_parallel_counters_from_one_witness :
  schedule second_caller_first
    (start (created 2)
       (service_go_SignData_steps (InMemory lines_71_124) "d1" <$> ["tx1"; "tx2"]))
    = Some (both_returned parallel_tx1_from_one parallel_tx2_from_one)
  ∧ ∃ order datas' rs',
      order ≡ₚ seq 0 (length ["tx1"; "tx2"])
      ∧ Forall2 (λ i data, ["tx1"; "tx2"] !! i = Some data) order datas'
      ∧ Forall2 (λ i r, [Ok parallel_tx1_from_one; Ok parallel_tx2_from_one] !! i = Some r)
                order rs'
      ∧ (∀ k data r, datas' !! k = Some data → rs' !! k = Some (Ok r) →
           SignedData r = Sprintf_d_s_s (Z.of_nat k + 1) data (prev_signature "ZDE=" rs' k)
           ∧ SignedData r ≠ Sprintf_d_s_s (Z.of_nat k) data (prev_signature "ZDE=" rs' k))
      ∧ SignatureCounter <$>
          stored (shared (both_returned parallel_tx1_from_one parallel_tx2_from_one)) "d1"
          = Some (Z.of_nat (length ["tx1"; "tx2"])).
Proof.
  assert (schedule second_caller_first
            (start (created 2)
               (service_go_SignData_steps (InMemory lines_71_124) "d1" <$> ["tx1"; "tx2"]))
          = Some (both_returned parallel_tx1_from_one parallel_tx2_from_one)) as Hrun.
  { vm_compute. reflexivity. }
  split; [exact Hrun|].
  apply (service_go_parallel_counters_from_one lines_71_124 "d1" ["tx1"; "tx2"] (created 2)
           1%positive (d1 2) (both_returned parallel_tx1_from_one parallel_tx2_from_one)
           [Ok parallel_tx1_from_one; Ok parallel_tx2_from_one]).
  - vm_compute. reflexivity.
  - vm_compute. reflexivity.
  - reflexivity.
  - vm_compute. discriminate.
  - apply (schedule_sound second_caller_first). exact Hrun.
  - reflexivity.
  - repeat constructor.
Defined.

(* ---------------------------------------------------------------------- *)
(** ** Every outcome of the service methods                                *)
(* ---------------------------------------------------------------------- *)

Section outcomes.
Context `{Primitives}.

(** The payload counter of each copy of [SignData]. *)
Lemma part_002_SignData_cases c opts st r st' :
  part_002.SignData (InMemory c) opts st = Some (r, st') →
  (devices st !! DeviceID opts = None
   ∧ r = Err "failed to find device: device not found" ∧ st' = st)
  ∨ ∃ p d sg,
      devices st !! DeviceID opts = Some p ∧ heap st !! p = Some d ∧ Signer d = Some sg
      ∧ ((∃ sig r',
            crypto.Sign sg
              (bytes_of_string
                 (Sprintf_d_s_s (SignatureCounter d) (Data opts) (LastSignature d)))
              (rand st) = (Ok sig, r')
            ∧ r = Ok (mkResp (EncodeToString sig)
                        (Sprintf_d_s_s (SignatureCounter d) (Data opts) (LastSignature d)))
            ∧ st' = after_update st p (signed_device (EncodeToString sig) d) r')
         ∨ (∃ e r',
              crypto.Sign sg
                (bytes_of_string
                   (Sprintf_d_s_s (SignatureCounter d) (Data opts) (LastSignature d)))
                (rand st) = (Err e, r')
              ∧ r = Err ("failed to sign data: " +:+ e)
              ∧ st' = drawn st r')).
Proof.
  intros Hrun.
  destruct (devices st !! DeviceID opts) as [p|] eqn:Hdev.
  2: { rewrite part_002_SignData_absent in Hrun by done. simplify_eq. by left. }
  right.
  destruct (heap st !! p) as [d|] eqn:Hheap.
  2: { exfalso. revert Hrun. destruct c; (go_run with first [rewrite Hdev|rewrite Hheap]);
         done. }
  destruct (Signer d) as [sg|] eqn:Hsg.
  2: { rewrite (part_002_SignData_nil_signer c opts st p d) in Hrun by done. done. }
  exists p, d, sg. split_and!; try done.
  destruct (crypto.Sign sg
              (bytes_of_string
                 (Sprintf_d_s_s (SignatureCounter d) (Data opts) (LastSignature d)))
              (rand st)) as [[sig|e] r'] eqn:Hsign.
  - rewrite (part_002_SignData_Ok c opts st p d sg sig r') in Hrun by done.
    simplify_eq. left. by eexists _, _.
  - rewrite (part_002_SignData_Err c opts st p d sg e r') in Hrun by done.
    simplify_eq. right. by eexists _, _.
Qed.

Lemma service_go_SignData_cases c id data st r st' :
  service_go.SignData (InMemory c) id data st = Some (r, st') →
  (devices st !! id = None
   ∧ r = Err "failed to find device: device not found" ∧ st' = st)
  ∨ ∃ p d sg,
      devices st !! id = Some p ∧ heap st !! p = Some d ∧ Signer d = Some sg
      ∧ ((∃ sig r',
            crypto.Sign sg
              (bytes_of_string
                 (Sprintf_d_s_s (incr (SignatureCounter d)) data (LastSignature d)))
              (rand st) = (Ok sig, r')
            ∧ r = Ok (mkResp (EncodeToString sig)
                        (Sprintf_d_s_s (incr (SignatureCounter d)) data (LastSignature d)))
            ∧ st' = after_update st p (signed_device (EncodeToString sig) d) r')
         ∨ (∃ e r',
              crypto.Sign sg
                (bytes_of_string
                   (Sprintf_d_s_s (incr (SignatureCounter d)) data (LastSignature d)))
                (rand st) = (Err e, r')
              ∧ r = Err ("failed to sign data: " +:+ e)
              ∧ st' = counter_advanced st p d r')).
Proof.
  intros Hrun.
  destruct (devices st !! id) as [p|] eqn:Hdev.
  2: { rewrite service_go_SignData_absent in Hrun by done. simplify_eq. by left. }
  right.
  destruct (heap st !! p) as [d|] eqn:Hheap.
  2: { exfalso. revert Hrun. destruct c; (go_run with first [rewrite Hdev|rewrite Hheap]);
         done. }
  destruct (Signer d) as [sg|] eqn:Hsg.
  2: { rewrite (service_go_SignData_nil_signer c id data st p d) in Hrun by done. done. }
  exists p, d, sg. split_and!; try done.
  destruct (crypto.Sign sg
              (bytes_of_string
                 (Sprintf_d_s_s (incr (SignatureCounter d)) data (LastSignature d)))
              (rand st)) as [[sig|e] r'] eqn:Hsign.
  - rewrite (service_go_SignData_Ok c id data st p d sg sig r') in Hrun by done.
    simplify_eq. left. by eexists _, _.
  - rewrite (service_go_SignData_Err c id data st p d sg e r') in Hrun by done.
    simplify_eq. right. by eexists _, _.
Qed.

(** What the [switch] of [CreateDevice] hands over when it succeeds. *)
Lemma switch_Algorithm_keys alg st keys st0 :
  switch_Algorithm alg st = Some (Ok keys, st0) →
  (alg = "RSA" ∧ ∃ pub priv,
     RSAGenerator_Generate (rand st) = (Ok (pub, priv), rand st0)
     ∧ keys = (RSAPrivate priv, RSAPublic pub, Some (crypto.NewRSASigner priv))
     ∧ generate_calls st0 = generate_calls st ++ ["RSA"])
  ∨ (alg = "ECC" ∧ ∃ pub priv,
       ECCGenerator_Generate (rand st) = (Ok (pub, priv), rand st0)
       ∧ keys = (ECPrivate priv, ECPublic pub, Some (crypto.NewECDSASigner priv))
       ∧ generate_calls st0 = generate_calls st ++ ["ECC"])
  ∨ (alg ≠ "RSA" ∧ alg ≠ "ECC" ∧ keys = (nil, nil, None) ∧ st0 = st).
Proof.
  unfold switch_Algorithm, bind, note_generate, with_rand, ret.
  destruct (String.eqb alg "RSA") eqn:Hr; [|destruct (String.eqb alg "ECC") eqn:He]; cbn.
  - apply String.eqb_eq in Hr.
    destruct (RSAGenerator_Generate (rand st)) as [[[pub priv]|e] r'] eqn:Hg;
      intros; simplify_eq. left. split; [done|]. by eexists _, _.
  - apply String.eqb_eq in He.
    destruct (ECCGenerator_Generate (rand st)) as [[[pub priv]|e] r'] eqn:Hg;
      intros; simplify_eq. right. left. split; [done|]. by eexists _, _.
  - apply String.eqb_neq in Hr, He. intros. simplify_eq. right. by right.
Qed.

(** The four ways a [CreateDevice] call on the in-memory store ends. *)
Lemma CreateDevice_cases c opts st r st' :
  CreateDevice (InMemory c) opts st = Some (r, st') →
  (opt_Algorithm opts ≠ "RSA" ∧ opt_Algorithm opts ≠ "ECC"
   ∧ r = Err ("invalid algorithm: " +:+ opt_Algorithm opts) ∧ st' = st)
  ∨ (valid_algorithm (opt_Algorithm opts)
     ∧ ∃ e, switch_Algorithm (opt_Algorithm opts) st = Some (Err e, st') ∧ r = Err e)
  ∨ (valid_algorithm (opt_Algorithm opts)
     ∧ ∃ keys st0 q,
         switch_Algorithm (opt_Algorithm opts) st = Some (Ok keys, st0)
         ∧ c = lines_1_69
         ∧ devices st !! opt_ID opts = Some q
         ∧ r = Err ("failed to save device: device " +:+ opt_ID opts +:+ " already exists")
         ∧ st' = allocated st0 (new_device opts keys))
  ∨ (valid_algorithm (opt_Algorithm opts)
     ∧ ∃ keys st0,
         switch_Algorithm (opt_Algorithm opts) st = Some (Ok keys, st0)
         ∧ (c = lines_1_69 → devices st !! opt_ID opts = None)
         ∧ r = Ok (fresh (dom (heap st0)))
         ∧ st' = saved st0 (opt_ID opts) (new_device opts keys)).
Proof.
  intros Hrun.
  destruct (negb (String.eqb (opt_Algorithm opts) "RSA")
            && negb (String.eqb (opt_Algorithm opts) "ECC")) eqn:Hg.
  { apply guard_true_invalid in Hg as [H1 H2].
    rewrite CreateDevice_invalid in Hrun by done. simplify_eq. by left. }
  assert (valid_algorithm (opt_Algorithm opts)) as Hv.
  { apply andb_false_iff in Hg as [Hg|Hg]; apply negb_false_iff, String.eqb_eq in Hg;
      [by left|by right]. }
  right.
  destruct (switch_Algorithm_total (opt_Algorithm opts) st) as [[[keys|e] st0] Hk].
  2: { rewrite (CreateDevice_keygen_fails _ _ _ e st0) in Hrun by done. simplify_eq.
       left. split; [done|]. by exists e. }
  right.
  destruct c.
  - destruct (devices st !! opt_ID opts) as [q|] eqn:Hlook.
    + rewrite (CreateDevice_conflict opts st keys st0 q) in Hrun by done. simplify_eq.
      left. split; [done|]. by exists keys, st0, q.
    + rewrite (CreateDevice_saved lines_1_69 opts st keys st0) in Hrun by done.
      simplify_eq. right. split; [done|]. by exists keys, st0.
  - rewrite (CreateDevice_saved lines_71_124 opts st keys st0) in Hrun by done.
    simplify_eq. right. split; [done|]. by exists keys, st0.
Qed.

Lemma CreateDevice_total c opts st : is_Some (CreateDevice (InMemory c) opts st).
Proof.
  destruct (negb (String.eqb (opt_Algorithm opts) "RSA")
            && negb (String.eqb (opt_Algorithm opts) "ECC")) eqn:Hg.
  { apply guard_true_invalid in Hg as [H1 H2]. by rewrite CreateDevice_invalid. }
  assert (valid_algorithm (opt_Algorithm opts)) as Hv.
  { apply andb_false_iff in Hg as [Hg|Hg]; apply negb_false_iff, String.eqb_eq in Hg;
      [by left|by right]. }
  destruct (switch_Algorithm_total (opt_Algorithm opts) st) as [[[keys|e] st0] Hk].
  2: { by rewrite (CreateDevice_keygen_fails _ _ _ e st0). }
  destruct c.
  - destruct (devices st !! opt_ID opts) as [q|] eqn:Hlook.
    + by rewrite (CreateDevice_conflict opts st keys st0 q).
    + by rewrite (CreateDevice_saved lines_1_69 opts st keys st0).
  - by rewrite (CreateDevice_saved lines_71_124 opts st keys st0).
Qed.
End outcomes.

(* ---------------------------------------------------------------------- *)
(** ** The store stays consistent, and the methods do not panic            *)
(* ---------------------------------------------------------------------- *)

Section invariant.
Context `{Primitives}.

Lemma consistent_fresh st id p :
  consistent st → devices st !! id = Some p → p ≠ fresh (dom (heap st)).
Proof.
  intros Hc Hid Heq. destruct (Hc id p Hid) as (d & Hd & _).
  pose proof (fresh_heap_None st) as Hnone. rewrite <- Heq in Hnone. congruence.
Qed.

Lemma consistent_frame st st0 :
  consistent st → devices st0 = devices st → heap st0 = heap st → consistent st0.
Proof. intros Hc Hd Hh id p. rewrite Hd, Hh. apply Hc. Qed.

Lemma consistent_allocated st d : consistent st → consistent (allocated st d).
Proof.
  intros Hc id p Hid. cbn in Hid. destruct (Hc id p Hid) as (d' & Hd' & Hrest).
  exists d'. split; [|done]. by apply heap_allocated_old.
Qed.

Lemma consistent_saved st id d :
  consistent st → ID d = id → is_Some (Signer d) → consistent (saved st id d).
Proof.
  intros Hc Hid Hsg id' p. unfold saved. cbn. intros Hlook.
  destruct (decide (id = id')) as [<-|Hne].
  - rewrite lookup_insert_eq in Hlook. simplify_eq. exists d.
    by rewrite lookup_insert_eq.
  - rewrite lookup_insert_ne in Hlook by done.
    destruct (Hc id' p Hlook) as (d' & Hd' & Hrest). exists d'. split; [|done].
    rewrite lookup_insert_ne; [done|]. intros Heq.
    by apply (consistent_fresh st id' p).
Qed.

Lemma consistent_object st p d d' st' :
  consistent st →
  heap st !! p = Some d →
  ID d' = ID d → is_Some (Signer d') →
  devices st' = devices st ∨ devices st' = <[ID d := p]> (devices st) →
  heap st' = <[p := d']> (heap st) →
  consistent st'.
Proof.
  intros Hc Hd Hid Hsg Hdev Hheap id' q Hlook. rewrite Hheap.
  assert (devices st !! id' = Some q ∨ (q = p ∧ id' = ID d)) as [Hold|[-> ->]].
  { destruct Hdev as [Hdev|Hdev]; rewrite Hdev in Hlook; [by left|].
    destruct (decide (ID d = id')) as [<-|Hne].
    - rewrite lookup_insert_eq in Hlook. simplify_eq. by right.
    - rewrite lookup_insert_ne in Hlook by done. by left. }
  - destruct (Hc id' q Hold) as (dq & Hdq & Hidq & Hsq).
    destruct (decide (q = p)) as [->|Hne].
    + rewrite lookup_insert_eq. exists d'. simplify_eq. by rewrite Hid.
    + rewrite lookup_insert_ne by done. by exists dq.
  - rewrite lookup_insert_eq. by exists d'.
Qed.

Lemma valid_keys_signer alg st keys st0 :
  valid_algorithm alg →
  switch_Algorithm alg st = Some (Ok keys, st0) →
  is_Some keys.2.
Proof.
  intros Hv Hk.
  destruct (switch_Algorithm_keys _ _ _ _ Hk)
    as [(_ & pub & priv & _ & -> & _)|[(_ & pub & priv & _ & -> & _)|(H1 & H2 & _)]];
    [by eexists|by eexists|].
  by destruct Hv.
Qed.

Lemma new_device_Signer opts keys : Signer (new_device opts keys) = keys.2.
Proof. by destruct keys as [[? ?] ?]. Qed.

Lemma consistent_CreateDevice c opts st r st' :
  consistent st → CreateDevice (InMemory c) opts st = Some (r, st') → consistent st'.
Proof.
  intros Hc Hrun.
  destruct (CreateDevice_cases _ _ _ _ _ Hrun)
    as [(_ & _ & _ & ->)
       |[(Hv & e & Hk & _)
        |[(Hv & keys & st0 & q & Hk & _ & _ & _ & ->)
         |(Hv & keys & st0 & Hk & _ & _ & ->)]]].
  - done.
  - destruct (switch_Algorithm_frame _ _ _ _ Hk) as (Hd & Hh & _).
    by apply (consistent_frame st).
  - destruct (switch_Algorithm_frame _ _ _ _ Hk) as (Hd & Hh & _).
    apply consistent_allocated. by apply (consistent_frame st).
  - destruct (switch_Algorithm_frame _ _ _ _ Hk) as (Hd & Hh & _).
    apply consistent_saved.
    + by apply (consistent_frame st).
    + apply new_device_ID.
    + rewrite new_device_Signer. by eapply valid_keys_signer.
Qed.

Lemma consistent_part_002_SignData c opts st r st' :
  consistent st → part_002.SignData (InMemory c) opts st = Some (r, st') → consistent st'.
Proof.
  intros Hc Hrun.
  destruct (part_002_SignData_cases _ _ _ _ _ Hrun)
    as [(_ & _ & ->)
       |(p & d & sg & Hdev & Hheap & Hsg
         & [(sig & r' & _ & _ & ->)|(e & r' & _ & _ & ->)])].
  - done.
  - apply (consistent_object st p d (signed_device (EncodeToString sig) d)); try done.
    by right.
  - by apply (consistent_frame st).
Qed.

Lemma consistent_service_go_SignData c id data st r st' :
  consistent st → service_go.SignData (InMemory c) id data st = Some (r, st') →
  consistent st'.
Proof.
  intros Hc Hrun.
  destruct (service_go_SignData_cases _ _ _ _ _ _ Hrun)
    as [(_ & _ & ->)
       |(p & d & sg & Hdev & Hheap & Hsg
         & [(sig & r' & _ & _ & ->)|(e & r' & _ & _ & ->)])].
  - done.
  - apply (consistent_object st p d (signed_device (EncodeToString sig) d)); try done.
    by right.
  - apply (consistent_object st p d (set_SignatureCounter (incr (SignatureCounter d)) d));
      try done.
    by left.
Qed.

(** X1.  The store starts consistent and every method of the service keeps it
    so, whatever the method returns: every stored pointer leads to a device
    object that carries the id it is stored under and has a signer bound.
    This holds for both copies of the store and both copies of [SignData]. *)
Theorem consistent_invariant c st :
  consistent st →
  (∀ opts r st', CreateDevice (InMemory c) opts st = Some (r, st') → consistent st')
  ∧ (∀ opts r st', part_002.SignData (InMemory c) opts st = Some (r, st') → consistent st')
  ∧ (∀ id data r st',
       service_go.SignData (InMemory c) id data st = Some (r, st') → consistent st')
  ∧ (∀ id r st', GetDevice (InMemory c) id st = Some (r, st') → st' = st)
  ∧ (∀ r st', GetAllDevices (InMemory c) st = Some (r, st') → consistent st')
  ∧ (∀ r l, consistent (mkState ∅ ∅ ∅ r l)).
Proof.
  intros Hc. split_and!.
  - intros opts r st'. by apply consistent_CreateDevice.
  - intros opts r st'. by apply consistent_part_002_SignData.
  - intros id data r st'. by apply consistent_service_go_SignData.
  - intros id r st'. destruct c; (go_run with fail);
      destruct (devices st !! id); cbn; intros; by simplify_eq.
  - intros r st'. rewrite GetAllDevices_eval. intros. simplify_eq.
    by apply (consistent_frame st).
  - intros r l id p Hlook. cbn in Hlook. by rewrite lookup_empty in Hlook.
Qed.

(** X2.  On a consistent store no method of the service panics: every call
    returns, with a result or with an error.  (A panic would be the
    dereference of a pointer to no object, or a call through a nil
    [Signer].) *)
Theorem consistent_no_panic c st :
  consistent st →
  (∀ opts, is_Some (CreateDevice (InMemory c) opts st))
  ∧ (∀ opts, is_Some (part_002.SignData (InMemory c) opts st))
  ∧ (∀ id data, is_Some (service_go.SignData (InMemory c) id data st))
  ∧ (∀ id, is_Some (GetDevice (InMemory c) id st))
  ∧ is_Some (GetAllDevices (InMemory c) st).
Proof.
  intros Hc. split_and!.
  - intros opts. apply CreateDevice_total.
  - intros opts. destruct (devices st !! DeviceID opts) as [p|] eqn:Hdev.
    + destruct (Hc _ _ Hdev) as (d & Hd & _ & [sg Hsg]).
      destruct (crypto.Sign sg
                  (bytes_of_string
                     (Sprintf_d_s_s (SignatureCounter d) (Data opts) (LastSignature d)))
                  (rand st)) as [[sig|e] r'] eqn:Hsign.
      * by rewrite (part_002_SignData_Ok c opts st p d sg sig r').
      * by rewrite (part_002_SignData_Err c opts st p d sg e r').
    + by rewrite part_002_SignData_absent.
  - intros id data. destruct (devices st !! id) as [p|] eqn:Hdev.
    + destruct (Hc _ _ Hdev) as (d & Hd & _ & [sg Hsg]).
      destruct (crypto.Sign sg
                  (bytes_of_string
                     (Sprintf_d_s_s (incr (SignatureCounter d)) data (LastSignature d)))
                  (rand st)) as [[sig|e] r'] eqn:Hsign.
      * by rewrite (service_go_SignData_Ok c id data st p d sg sig r').
      * by rewrite (service_go_SignData_Err c id data st p d sg e r').
    + by rewrite service_go_SignData_absent.
  - intros id. destruct c; (go_run with fail); by destruct (devices st !! id).
  - by rewrite GetAllDevices_eval.
Qed.
End invariant.

(* ---------------------------------------------------------------------- *)
(** ** What a call leaves alone                                            *)
(* ---------------------------------------------------------------------- *)

Section frames.
Context `{Primitives}.

Lemma stored_other_object st st' id p d' id' :
  consistent st →
  devices st !! id = Some p →
  devices st' = devices st →
  heap st' = <[p := d']> (heap st) →
  id' ≠ id →
  stored st' id' = stored st id'.
Proof.
  intros Hc Hdev Hd Hh Hne. unfold stored. rewrite Hd, Hh.
  destruct (devices st !! id') as [q|] eqn:Hq; [|done].
  rewrite lookup_insert_ne; [done|]. intros ->.
  destruct (Hc _ _ Hdev) as (d & Hpd & Hid & _).
  destruct (Hc _ _ Hq) as (dq & Hpq & Hidq & _). congruence.
Qed.

Lemma update_same_key st id p d :
  consistent st → devices st !! id = Some p → heap st !! p = Some d →
  <[ID d := p]> (devices st) = devices st.
Proof.
  intros Hc Hdev Hheap. destruct (Hc _ _ Hdev) as (d0 & Hd0 & Hid & _).
  simplify_eq. by apply insert_id.
Qed.

Lemma after_update_frame st id p d d' r' :
  consistent st → devices st !! id = Some p → heap st !! p = Some d →
  ID d' = ID d →
  devices (after_update st p d' r') = devices st
  ∧ (∀ id', id' ≠ id → stored (after_update st p d' r') id' = stored st id')
  ∧ stored (after_update st p d' r') id = Some d'.
Proof.
  intros Hc Hdev Hheap Hid.
  assert (devices (after_update st p d' r') = devices st) as Hd.
  { unfold after_update. cbn. rewrite Hid. by apply (update_same_key st id). }
  split_and!; [done| |].
  - intros id' Hne. by apply (stored_other_object st _ id p d').
  - unfold stored. rewrite Hd, Hdev. unfold after_update. cbn.
    by rewrite lookup_insert_eq.
Qed.

Lemma counter_advanced_frame st id p d r' :
  consistent st → devices st !! id = Some p → heap st !! p = Some d →
  devices (counter_advanced st p d r') = devices st
  ∧ (∀ id', id' ≠ id → stored (counter_advanced st p d r') id' = stored st id')
  ∧ stored (counter_advanced st p d r') id
    = Some (set_SignatureCounter (incr (SignatureCounter d)) d).
Proof.
  intros Hc Hdev Hheap. split_and!; [done| |].
  - intros id' Hne.
    by apply (stored_other_object st _ id p
                (set_SignatureCounter (incr (SignatureCounter d)) d)).
  - unfold stored, counter_advanced. cbn. rewrite Hdev. by rewrite lookup_insert_eq.
Qed.

Lemma drawn_frame st r' :
  devices (drawn st r') = devices st ∧ ∀ id, stored (drawn st r') id = stored st id.
Proof. done. Qed.

(** X3.  On a consistent store a call of [SignData], in either copy and
    whatever it returns, does not change which ids are stored, leaves the
    record of every other device as it was, and on the device it signs for
    assigns nothing but the counter and the last signature: id, label,
    algorithm, keys and signer stay. *)
Theorem SignData_touches_one_device c id data st :
  consistent st →
  (∀ r st', part_002.SignData (InMemory c) (mkSign id data) st = Some (r, st') →
     devices st' = devices st
     ∧ (∀ id', id' ≠ id → stored st' id' = stored st id')
     ∧ (∀ d, stored st id = Some d → ∃ d', stored st' id = Some d' ∧ same_identity d d'))
  ∧ (∀ r st', service_go.SignData (InMemory c) id data st = Some (r, st') →
       devices st' = devices st
       ∧ (∀ id', id' ≠ id → stored st' id' = stored st id')
       ∧ (∀ d, stored st id = Some d → ∃ d', stored st' id = Some d' ∧ same_identity d d')).
Proof.
  intros Hc. split.
  - intros r st' Hrun.
    destruct (part_002_SignData_cases _ _ _ _ _ Hrun)
      as [(Habs & _ & ->)
         |(p & d & sg & Hdev & Hheap & Hsg
           & [(sig & r' & _ & _ & ->)|(e & r' & _ & _ & ->)])]; cbn [DeviceID] in *.
    + split_and!; [done|done|]. intros d Hd. by exists d.
    + destruct (after_update_frame st id p d (signed_device (EncodeToString sig) d) r')
        as (Hd & Hother & Hself); try done.
      split_and!; [done|done|]. intros d0 Hd0. unfold stored in Hd0.
      rewrite Hdev, Hheap in Hd0. simplify_eq. by eexists.
    + split_and!; [done|done|]. intros d0 Hd0. by exists d0.
  - intros r st' Hrun.
    destruct (service_go_SignData_cases _ _ _ _ _ _ Hrun)
      as [(Habs & _ & ->)
         |(p & d & sg & Hdev & Hheap & Hsg
           & [(sig & r' & _ & _ & ->)|(e & r' & _ & _ & ->)])].
    + split_and!; [done|done|]. intros d Hd. by exists d.
    + destruct (after_update_frame st id p d (signed_device (EncodeToString sig) d) r')
        as (Hd & Hother & Hself); try done.
      split_and!; [done|done|]. intros d0 Hd0. unfold stored in Hd0.
      rewrite Hdev, Hheap in Hd0. simplify_eq. by eexists.
    + destruct (counter_advanced_frame st id p d r') as (Hd & Hother & Hself); try done.
      split_and!; [done|done|]. intros d0 Hd0. unfold stored in Hd0.
      rewrite Hdev, Hheap in Hd0. simplify_eq. by eexists.
Qed.

(** X4.  Every error of the copy of [SignData] in unnamed/part_002 on the
    in-memory store is "device not found" or a failure of the signer, wrapped;
    the store's [Update] never fails, so "failed to update device" does not
    occur.  With every error the store and all device objects are as before
    the call. *)
Theorem part_002_SignData_errors c opts st e st' :
  part_002.SignData (InMemory c) opts st = Some (Err e, st') →
  (e = "failed to find device: device not found"
   ∨ ∃ e', e = "failed to sign data: " +:+ e')
  ∧ devices st' = devices st
  ∧ heap st' = heap st
  ∧ slices st' = slices st.
Proof.
  intros Hrun.
  destruct (part_002_SignData_cases _ _ _ _ _ Hrun)
    as [(Habs & ? & ->)
       |(p & d & sg & Hdev & Hheap & Hsg
         & [(sig & r' & _ & ? & ->)|(e0 & r' & _ & ? & ->)])]; simplify_eq.
  - split_and!; try done. by left.
  - split_and!; try done. right. by eexists.
Qed.

(** X5.  The response of a successful [SignData] belongs together: the returned
    signature is the base64 of what the device's signer produced for exactly
    the bytes of the returned signed data, with the entropy the call drew.
    This is what lets a caller check the signature against the signed data,
    and it holds for both copies of [SignData]. *)
Theorem SignData_signature_is_over_SignedData c id data st :
  (∀ r st', part_002.SignData (InMemory c) (mkSign id data) st = Some (Ok r, st') →
     ∃ d sg sig,
       stored st id = Some d ∧ Signer d = Some sg
       ∧ crypto.Sign sg (bytes_of_string (SignedData r)) (rand st) = (Ok sig, rand st')
       ∧ Signature r = EncodeToString sig)
  ∧ (∀ r st', service_go.SignData (InMemory c) id data st = Some (Ok r, st') →
       ∃ d sg sig,
         stored st id = Some d ∧ Signer d = Some sg
         ∧ crypto.Sign sg (bytes_of_string (SignedData r)) (rand st) = (Ok sig, rand st')
         ∧ Signature r = EncodeToString sig).
Proof.
  split.
  - intros r st' Hrun.
    destruct (part_002_SignData_cases _ _ _ _ _ Hrun)
      as [(Habs & ? & ->)
         |(p & d & sg & Hdev & Hheap & Hsg
           & [(sig & r' & Hsign & ? & ->)|(e0 & r' & _ & ? & ->)])]; simplify_eq.
    exists d, sg, sig. cbn in *. split_and!; try done.
    unfold stored. by rewrite Hdev.
  - intros r st' Hrun.
    destruct (service_go_SignData_cases _ _ _ _ _ _ Hrun)
      as [(Habs & ? & ->)
         |(p & d & sg & Hdev & Hheap & Hsg
           & [(sig & r' & Hsign & ? & ->)|(e0 & r' & _ & ? & ->)])]; simplify_eq.
    exists d, sg, sig. cbn in *. split_and!; try done.
    unfold stored. by rewrite Hdev.
Qed.

(** X6.  On a consistent store a call of [CreateDevice], whatever it returns,
    leaves the record of every device with another id as it was; when it
    fails it leaves the record of every device as it was and stores nothing;
    when it succeeds the stored ids are the old ones and the new one. *)
Theorem CreateDevice_frame c opts st r st' :
  consistent st →
  CreateDevice (InMemory c) opts st = Some (r, st') →
  (∀ id', id' ≠ opt_ID opts → stored st' id' = stored st id')
  ∧ (is_Ok r = false → devices st' = devices st ∧ ∀ id', stored st' id' = stored st id')
  ∧ (is_Ok r = true → dom (devices st') = {[opt_ID opts]} ∪ dom (devices st)).
Proof.
  intros Hc Hrun.
  assert (∀ st0 d, devices st0 = devices st → heap st0 = heap st →
            ∀ id', stored (allocated st0 d) id' = stored st id') as Halloc.
  { intros st0 d Hd Hh id'. unfold stored at 2. cbn.
    destruct (devices st !! id') as [q|] eqn:Hq.
    - destruct (Hc _ _ Hq) as (dq & Hdq & _).
      rewrite (stored_allocated_old st0 d id' q dq); by rewrite ?Hd, ?Hh.
    - unfold stored. cbn. by rewrite Hd, Hq. }
  destruct (CreateDevice_cases _ _ _ _ _ Hrun)
    as [(_ & _ & -> & ->)
       |[(Hv & e & Hk & ->)
        |[(Hv & keys & st0 & q & Hk & _ & _ & -> & ->)
         |(Hv & keys & st0 & Hk & _ & -> & ->)]]]; cbn.
  - by split_and!.
  - destruct (switch_Algorithm_frame _ _ _ _ Hk) as (Hd & Hh & _).
    assert (∀ id', stored st' id' = stored st id') as Hsame.
    { intros id'. unfold stored. by rewrite Hd, Hh. }
    by split_and!.
  - destruct (switch_Algorithm_frame _ _ _ _ Hk) as (Hd & Hh & _).
    split_and!; [by intros; apply Halloc| |done].
    intros _. split; [done|]. by apply Halloc.
  - destruct (switch_Algorithm_frame _ _ _ _ Hk) as (Hd & Hh & _).
    split_and!; [|done|].
    + intros id' Hne. rewrite <- (Halloc st0 (new_device opts keys) Hd Hh id').
      unfold stored, saved, allocated. cbn. by rewrite lookup_insert_ne.
    + intros _. unfold saved. cbn. by rewrite dom_insert_L, Hd.
Qed.

(** X7.  A device that [CreateDevice] returns is bound to the key pair that the
    generator for its algorithm has just produced: an RSA device holds the
    RSA keys and an [RSASigner] over the private key, an ECC device the
    elliptic-curve keys and an [ECDSASigner] over the private key; and the
    generator ran exactly once. *)
Theorem CreateDevice_binds_generated_key c opts st p st' :
  CreateDevice (InMemory c) opts st = Some (Ok p, st') →
  ∃ d, heap st' !! p = Some d
       ∧ Algorithm d = opt_Algorithm opts
       ∧ generate_calls st' = generate_calls st ++ [Algorithm d]
       ∧ ((Algorithm d = "RSA" ∧ ∃ pub priv,
             RSAGenerator_Generate (rand st) = (Ok (pub, priv), rand st')
             ∧ PublicKey d = RSAPublic pub ∧ PrivateKey d = RSAPrivate priv
             ∧ Signer d = Some (crypto.RSASigner priv))
          ∨ (Algorithm d = "ECC" ∧ ∃ pub priv,
               ECCGenerator_Generate (rand st) = (Ok (pub, priv), rand st')
               ∧ PublicKey d = ECPublic pub ∧ PrivateKey d = ECPrivate priv
               ∧ Signer d = Some (crypto.ECDSASigner priv))).
Proof.
  intros Hrun.
  apply CreateDevice_Ok_inv in Hrun as (keys & st0 & Hv & Hk & _ & -> & ->).
  exists (new_device opts keys). split.
  { unfold saved. cbn. by rewrite lookup_insert_eq. }
  destruct (switch_Algorithm_keys _ _ _ _ Hk)
    as [(Ha & pub & priv & Hg & -> & Hlog)
       |[(Ha & pub & priv & Hg & -> & Hlog)|(H1 & H2 & _)]]; cbn.
  - rewrite Ha in *. split_and!; [done|done|]. left. split; [done|]. by exists pub, priv.
  - rewrite Ha in *. split_and!; [done|done|]. right. split; [done|]. by exists pub, priv.
  - exfalso. destruct Hv; congruence.
Qed.

(** X8.  When the key generator fails, [CreateDevice] returns the generator's
    error wrapped, allocates and stores nothing, and the generator was called
    once.  This holds whatever the storage behind the service is. *)
Theorem CreateDevice_key_generation_fails s id label st :
  (∀ e r', RSAGenerator_Generate (rand st) = (Err e, r') →
     CreateDevice s (mkCreate id label "RSA") st
       = Some (Err ("failed to generate RSA key pair: " +:+ e),
               mkState (devices st) (heap st) (slices st) r' (generate_calls st ++ ["RSA"])))
  ∧ (∀ e r', ECCGenerator_Generate (rand st) = (Err e, r') →
       CreateDevice s (mkCreate id label "ECC") st
         = Some (Err ("failed to generate ECC key pair: " +:+ e),
                 mkState (devices st) (heap st) (slices st) r' (generate_calls st ++ ["ECC"]))).
Proof.
  split; intros e r' Hg.
  - apply CreateDevice_keygen_fails; [by left|].
    unfold switch_Algorithm, bind, note_generate, with_rand, ret. cbn. by rewrite Hg.
  - apply CreateDevice_keygen_fails; [by right|].
    unfold switch_Algorithm, bind, note_generate, with_rand, ret. cbn. by rewrite Hg.
Qed.

(** X9.  Create, then read: after a successful [CreateDevice] the service's
    [GetDevice] returns, for the id of the call, the very pointer that
    [CreateDevice] returned, and reads without changing anything. *)
Theorem CreateDevice_then_GetDevice c opts st p st' :
  CreateDevice (InMemory c) opts st = Some (Ok p, st') →
  GetDevice (InMemory c) (opt_ID opts) st' = Some (Ok p, st').
Proof.
  intros Hrun.
  apply CreateDevice_Ok_inv in Hrun as (keys & st0 & Hv & Hk & _ & -> & ->).
  destruct c; (go_run with rewrite lookup_insert_eq); reflexivity.
Qed.
End frames.

(* ---------------------------------------------------------------------- *)
(** ** The in-memory store on its own                                      *)
(* ---------------------------------------------------------------------- *)

Section store_methods.
Context `{Primitives}.

(** X10.  [Update] of the in-memory store is an upsert, in both copies: for a
    pointer to a device object it never returns an error, whether the id is
    stored or not; afterwards [GetDevice] finds that very pointer under the
    object's id, every other id maps to what it did, and no object, slice or
    entropy has been touched. *)
Theorem Update_upserts c p d st :
  heap st !! p = Some d →
  ∃ st', storage_go.Update (storage (InMemory c)) p st = Some (None, st')
    ∧ storage_go.GetDevice (storage (InMemory c)) (ID d) st' = Some (Ok p, st')
    ∧ (∀ id, id ≠ ID d → devices st' !! id = devices st !! id)
    ∧ heap st' = heap st ∧ slices st' = slices st ∧ rand st' = rand st.
Proof.
  intros Hheap.
  exists (mkState (<[ID d := p]> (devices st)) (heap st) (slices st) (rand st)
                  (generate_calls st)).
  destruct c; cbn; split_and!; try done.
  all: try (go_run with first [rewrite Hheap | rewrite lookup_insert_eq]; reflexivity).
  all: intros id Hne; by rewrite lookup_insert_ne.
Qed.

(** X11.  [Save] of the in-memory store, for a pointer to a device object.  It
    never touches an object.  When it returns no error the pointer is stored
    under the object's id and [GetDevice] finds it; in the copy of lines 1-69
    that happens only when the id was not stored.  The only error is
    "device <id> already exists", only in the copy of lines 1-69 and only for
    a stored id, and then the store is as before. *)
Theorem Save_outcome c p d st :
  heap st !! p = Some d →
  ∃ r st', storage_go.Save (storage (InMemory c)) p st = Some (r, st')
    ∧ heap st' = heap st
    ∧ match r with
      | None =>
          (c = lines_1_69 → devices st !! ID d = None)
          ∧ devices st' = <[ID d := p]> (devices st)
          ∧ storage_go.GetDevice (storage (InMemory c)) (ID d) st' = Some (Ok p, st')
      | Some e =>
          c = lines_1_69 ∧ is_Some (devices st !! ID d)
          ∧ e = "device " +:+ ID d +:+ " already exists" ∧ st' = st
      end.
Proof.
  intros Hheap. destruct c.
  - destruct (devices st !! ID d) as [q|] eqn:Hq.
    + exists (Some ("device " +:+ ID d +:+ " already exists")), st. split_and!; try done.
      go_run with first [rewrite Hheap | rewrite Hq]. reflexivity.
    + exists None, (mkState (<[ID d := p]> (devices st)) (heap st) (slices st) (rand st)
                            (generate_calls st)).
      split_and!; try done.
      * go_run with first [rewrite Hheap | rewrite Hq]. reflexivity.
      * go_run with rewrite lookup_insert_eq. reflexivity.
  - exists None, (mkState (<[ID d := p]> (devices st)) (heap st) (slices st) (rand st)
                          (generate_calls st)).
    split_and!; try done.
    + go_run with rewrite Hheap. reflexivity.
    + go_run with rewrite lookup_insert_eq. reflexivity.
Qed.

Lemma consistent_pointers_inj st id id' p :
  consistent st → devices st !! id = Some p → devices st !! id' = Some p → id = id'.
Proof.
  intros Hc H1 H2.
  destruct (Hc _ _ H1) as (d & Hd & Hid & _).
  destruct (Hc _ _ H2) as (d' & Hd' & Hid' & _). congruence.
Qed.

Lemma NoDup_listed_pointers (m : gmap string ptr) :
  (∀ id id' p, m !! id = Some p → m !! id' = Some p → id = id') →
  NoDup (map_to_list m).*2.
Proof.
  intros Hinj. apply NoDup_fmap_2_strong; [|apply NoDup_map_to_list].
  intros [id p] [id' p'] Hin Hin' Heq. cbn in Heq. subst p'.
  apply elem_of_map_to_list in Hin, Hin'. f_equal. by eapply Hinj.
Qed.

(** X12.  The listing of a consistent store holds every stored device exactly
    once: the slice [GetAllDevices] returns has as many elements as the store
    has ids, no pointer occurs twice in it, and each element points to a
    device object that is stored under its own id. *)
Theorem GetAllDevices_lists_each_device_once c st :
  consistent st →
  ∃ a l st', GetAllDevices (InMemory c) st = Some (Ok a, st')
    ∧ slices st' !! a = Some l
    ∧ length l = size (devices st)
    ∧ NoDup l
    ∧ (∀ p, p ∈ l → ∃ d, heap st' !! p = Some d ∧ devices st' !! ID d = Some p)
    ∧ (∀ id p, devices st !! id = Some p → p ∈ l).
Proof.
  intros Hc.
  exists (fresh (dom (slices st))), ((map_to_list (devices st)).*2), (listed st).
  split_and!.
  - apply GetAllDevices_eval.
  - unfold listed. cbn. by rewrite lookup_insert_eq.
  - by rewrite length_fmap, length_map_to_list.
  - apply NoDup_listed_pointers. intros id id' p. by apply consistent_pointers_inj.
  - intros p Hp. apply elem_of_listed in Hp as (id & Hid).
    destruct (Hc _ _ Hid) as (d & Hd & <- & _). by exists d.
  - intros id p Hid. apply elem_of_listed. by exists id.
Qed.
End store_methods.

(* ---------------------------------------------------------------------- *)
(** ** No payload is signed twice                                          *)
(* ---------------------------------------------------------------------- *)

Section payloads.
Context `{Primitives}.

Lemma pretty_N_char_digit (x : N) : Ascii.eqb (pretty_N_char x) "_" = false.
Proof. unfold pretty_N_char. repeat case_match; reflexivity. Qed.

Lemma free_of_pretty_N_go (x : N) (s : string) :
  free_of "_" (pretty_N_go x s) = free_of "_" s.
Proof.
  revert s. induction (N.lt_wf_0 x) as [x _ IH]; intros s.
  assert (x = 0 ∨ 0 < x)%N as [->|Hpos] by lia; [by rewrite pretty_N_go_0|].
  rewrite pretty_N_go_step by done.
  rewrite IH by (apply N.div_lt; lia). cbn.
  by rewrite pretty_N_char_digit.
Qed.

Lemma free_of_fmt_d (z : Z) : free_of "_" (fmt_d z) = true.
Proof.
  unfold fmt_d, pretty, pretty_Z. destruct z as [|x|x]; [done| |].
  - unfold pretty, pretty_positive, pretty, pretty_N. case_decide; [done|].
    by rewrite free_of_pretty_N_go.
  - rewrite append_String, append_empty. cbn.
    unfold pretty, pretty_positive, pretty, pretty_N. case_decide; [done|].
    by rewrite free_of_pretty_N_go.
Qed.

Lemma first_separator (c : ascii) (s1 s2 r1 r2 : string) :
  free_of c s1 = true → free_of c s2 = true →
  s1 +:+ String c r1 = s2 +:+ String c r2 → s1 = s2.
Proof.
  revert s2. induction s1 as [|a s1 IH]; intros [|b s2] H1 H2 Heq; cbn in *.
  - done.
  - rewrite append_String, append_empty in Heq. simplify_eq.
    by rewrite Ascii.eqb_refl in H2.
  - rewrite append_String, append_empty in Heq. simplify_eq.
    by rewrite Ascii.eqb_refl in H1.
  - rewrite !append_String in Heq. simplify_eq.
    apply andb_true_iff in H1 as [_ H1]. apply andb_true_iff in H2 as [_ H2].
    f_equal. by apply IH.
Qed.

(** The counter can be read back from a payload, whatever the data and the
    previous signature are: it is what stands before the first underscore. *)
Lemma Sprintf_counter_unambiguous (a b : Z) (data data' last last' : string) :
  Sprintf_d_s_s a data last = Sprintf_d_s_s b data' last' → a = b.
Proof.
  unfold Sprintf_d_s_s. intros Heq.
  apply (inj pretty). change (fmt_d a = fmt_d b).
  eapply (first_separator "_"); [apply free_of_fmt_d..|].
  rewrite !append_String, !append_empty in Heq. exact Heq.
Qed.

Lemma sequentially_length (sign : string → M (result SignDataResponse)) datas :
  ∀ st rs st', sequentially sign datas st = Some (rs, st') → length rs = length datas.
Proof.
  induction datas as [|data datas IH]; intros st rs st' Hrun.
  - cbv [sequentially ret] in Hrun. by simplify_eq.
  - cbn [sequentially] in Hrun. unfold bind at 1 in Hrun.
    destruct (sign data st) as [[r0 st1]|]; [|done].
    unfold bind at 1 in Hrun.
    destruct (sequentially sign datas st1) as [[rs1 st2]|] eqn:Hrest; [|done].
    unfold ret in Hrun. simplify_eq. cbn. f_equal. by eapply IH.
Qed.

(** X13.  In a run of successful [SignData] calls on a device that has never
    signed, no two calls sign the same string, even when they are given the
    same data, and even when data holds underscores: the counter in front of
    the first underscore differs.  This holds for both copies of [SignData]
    (one numbers the payloads from 0, the other from 1). *)
Theorem signed_data_never_repeats c id datas st p d sign rs st' :
  devices st !! id = Some p →
  heap st !! p = Some d →
  SignatureCounter d = 0 →
  Z.of_nat (length datas) ≤ max_int →
  sign = (λ data, part_002.SignData (InMemory c) (mkSign id data))
  ∨ sign = service_go.SignData (InMemory c) id →
  sequentially sign datas st = Some (rs, st') →
  all_Ok rs →
  ∀ j k rj rk, rs !! j = Some (Ok rj) → rs !! k = Some (Ok rk) → j ≠ k →
    SignedData rj ≠ SignedData rk.
Proof.
  intros Hdev Hheap Hzero Hlen Hsign Hrun Hok j k rj rk Hj Hk Hne Heq.
  pose proof (sequentially_length _ _ _ _ _ Hrun) as Hlen'.
  destruct (datas !! j) as [dj|] eqn:Hdj.
  2: { apply lookup_ge_None in Hdj. apply lookup_lt_Some in Hj. lia. }
  destruct (datas !! k) as [dk|] eqn:Hdk.
  2: { apply lookup_ge_None in Hdk. apply lookup_lt_Some in Hk. lia. }
  destruct Hsign as [-> | ->].
  - destruct (part_002_run_shape c id datas st p d rs st') as (Hchain & _); try done.
    rewrite (Hchain j dj rj), (Hchain k dk rk) in Heq by done.
    apply Sprintf_counter_unambiguous in Heq. lia.
  - destruct (service_go_run_shape c id datas st p d rs st') as (Hchain & _); try done.
    destruct (Hchain j dj rj) as [Hpj _]; try done.
    destruct (Hchain k dk rk) as [Hpk _]; try done.
    rewrite Hpj, Hpk in Heq.
    apply Sprintf_counter_unambiguous in Heq. lia.
Qed.
End payloads.

(* ---------------------------------------------------------------------- *)
(** ** What the mutex guarantees in every reachable configuration          *)
(* ---------------------------------------------------------------------- *)

Section exclusion.
Context `{Primitives}.

Lemma reachable_serial_inv {A} (st0 : State) (ps : list (prog A)) c :
  rtc step (start st0 ps) c → serial_inv st0 ps c.
Proof.
  apply rtc_ind_r; [apply serial_inv_start|].
  intros c1 c2 _ Hstep IH. by apply (serial_inv_step st0 ps c1).
Qed.


Lemma part_002_SignData_devices c opts st r st' :
  consistent st → part_002.SignData (InMemory c) opts st = Some (r, st') →
  devices st' = devices st.
Proof.
  intros Hc Hrun.
  destruct (part_002_SignData_cases _ _ _ _ _ Hrun)
    as [(_ & _ & ->)
       |(p & d & sg & Hdev & Hheap & _ & [(sig & r' & _ & _ & ->)|(e & r' & _ & _ & ->)])];
    [done| |done].
  by destruct (after_update_frame st (DeviceID opts) p d
                 (signed_device (EncodeToString sig) d) r') as (Hd & _).
Qed.

Lemma service_go_SignData_devices c id data st r st' :
  consistent st → service_go.SignData (InMemory c) id data st = Some (r, st') →
  devices st' = devices st.
Proof.
  intros Hc Hrun.
  destruct (service_go_SignData_cases _ _ _ _ _ _ Hrun)
    as [(_ & _ & ->)
       |(p & d & sg & Hdev & Hheap & _ & [(sig & r' & _ & _ & ->)|(e & r' & _ & _ & ->)])];
    [done| |done].
  by destruct (after_update_frame st id p d
                 (signed_device (EncodeToString sig) d) r') as (Hd & _).
Qed.

Lemma exec_all_keeps {A} (good : prog A → Prop) (qs : list (prog A)) :
  (∀ q st a st', good q → consistent st → exec q st = Some (a, st') →
     consistent st' ∧ devices st' = devices st) →
  Forall good qs →
  ∀ st rs st', consistent st → exec_all qs st = Some (rs, st') →
    consistent st' ∧ devices st' = devices st.
Proof.
  intros Hgood Hqs. induction Hqs as [|q qs Hq _ IH]; intros st rs st' Hc Hrun.
  - cbv [exec_all ret] in Hrun. by simplify_eq.
  - cbn [exec_all] in Hrun. unfold bind at 1 in Hrun.
    destruct (exec q st) as [[a st1]|] eqn:Hfirst; [|done].
    unfold bind at 1 in Hrun.
    destruct (exec_all qs st1) as [[rs1 st2]|] eqn:Hrest; [|done].
    unfold ret in Hrun. simplify_eq.
    destruct (Hgood q st a st1 Hq Hc Hfirst) as [Hc1 Hd1].
    destruct (IH st1 rs1 st' Hc1 Hrest) as [Hc2 Hd2]. split; [done|congruence].
Qed.

Lemma history_bodies {A} (good : prog A → Prop) (ps : list (prog A))
    (hist : list (nat * A)) (qs : list (prog A)) :
  Forall good ps →
  Forall2 (λ ia q, ps !! ia.1 = Some q) hist qs →
  Forall good qs.
Proof.
  intros Hps. induction 1 as [|ia q hist qs Hq _ IH]; constructor; [|done].
  rewrite Forall_forall in Hps. apply Hps. by eapply list_elem_of_lookup_2.
Qed.

(** X15.  Goroutines that call [SignData] in parallel, for any devices and any
    data, stored or not, succeeding or failing: whatever the interleaving,
    when all have returned the store is consistent again and holds the ids it
    held before, under the pointers it held them; and every goroutine has
    returned.  This holds for both copies of [SignData]. *)
Theorem parallel_SignData_keeps_store c st cfg :
  consistent st →
  (∀ optss rs,
     rtc step (start st (part_002_SignData_steps (InMemory c) <$> optss)) cfg →
     all_Finished cfg rs →
     consistent (shared cfg) ∧ devices (shared cfg) = devices st
     ∧ length rs = length optss)
  ∧ (∀ calls rs,
       rtc step (start st ((λ call : string * string,
                              service_go_SignData_steps (InMemory c) call.1 call.2)
                           <$> calls)) cfg →
       all_Finished cfg rs →
       consistent (shared cfg) ∧ devices (shared cfg) = devices st
       ∧ length rs = length calls).
Proof.
  intros Hc. split.
  - intros optss rs Hsteps Hfin.
    destruct (serialisable st _ cfg rs Hsteps Hfin) as (hist & qs & Hperm & Hqs & Hrs & Hrun).
    set (good := λ q : prog (result SignDataResponse),
                   ∃ opts, q = part_002_SignData_steps (InMemory c) opts).
    assert (Forall good qs) as Hgood.
    { eapply history_bodies; [|exact Hqs].
      apply Forall_fmap, Forall_forall. intros opts _. by exists opts. }
    destruct (exec_all_keeps good qs) with (st := st) (rs := hist.*2) (st' := shared cfg)
      as [Hc' Hd']; try done.
    { intros q st1 a st1' (opts & ->) Hc1 Hq.
      rewrite exec_part_002_SignData_steps in Hq. split.
      - by eapply consistent_part_002_SignData.
      - by eapply part_002_SignData_devices. }
    split_and!; [done|done|].
    destruct (reachable_serial_inv _ _ _ Hsteps)
      as (_ & _ & _ & (_ & _ & _ & _ & Hlen) & _).
    unfold all_Finished in Hfin. rewrite Hfin, !length_fmap in Hlen. done.
  - intros calls rs Hsteps Hfin.
    destruct (serialisable st _ cfg rs Hsteps Hfin) as (hist & qs & Hperm & Hqs & Hrs & Hrun).
    set (good := λ q : prog (result SignDataResponse),
                   ∃ id data, q = service_go_SignData_steps (InMemory c) id data).
    assert (Forall good qs) as Hgood.
    { eapply history_bodies; [|exact Hqs].
      apply Forall_fmap, Forall_forall. intros [id data] _. by exists id, data. }
    destruct (exec_all_keeps good qs) with (st := st) (rs := hist.*2) (st' := shared cfg)
      as [Hc' Hd']; try done.
    { intros q st1 a st1' (id & data & ->) Hc1 Hq.
      rewrite exec_service_go_SignData_steps in Hq. split.
      - by eapply consistent_service_go_SignData.
      - by eapply service_go_SignData_devices. }
    split_and!; [done|done|].
    destruct (reachable_serial_inv _ _ _ Hsteps)
      as (_ & _ & _ & (_ & _ & _ & _ & Hlen) & _).
    unfold all_Finished in Hfin. rewrite Hfin, !length_fmap in Hlen. done.
Qed.
End exclusion.

(* ---------------------------------------------------------------------- *)
(** ** The HTTP handlers                                                   *)
(* ---------------------------------------------------------------------- *)

Section handlers.
Context `{Primitives}.

Import strings_go.

Lemma HasPrefix_app (sub rest : string) : HasPrefix (sub +:+ rest) sub = true.
Proof.
  induction sub as [|a sub IH]; [by destruct rest|].
  rewrite append_String. cbn. by rewrite Ascii.eqb_refl.
Qed.

Lemma Contains_app_l (a s sub : string) :
  Contains s sub = true → Contains (a +:+ s) sub = true.
Proof.
  intros Hs. induction a as [|ch a IH]; [done|].
  rewrite append_String. cbn [Contains]. rewrite IH. apply orb_true_r.
Qed.

Lemma Contains_prefix (s sub : string) : HasPrefix s sub = true → Contains s sub = true.
Proof. intros Hp. destruct s; cbn [Contains]; by rewrite Hp. Qed.

Lemma Contains_infix (a sub rest : string) : Contains (a +:+ sub +:+ rest) sub = true.
Proof. apply Contains_app_l, Contains_prefix, HasPrefix_app. Qed.

Lemma Contains_invalid_algorithm (alg : string) :
  Contains ("invalid algorithm: " +:+ alg) "already exists"
  = Contains alg "already exists".
Proof. reflexivity. Qed.

Lemma post_guard (m : string) : m = "POST" → negb (String.eqb m api.MethodPost) = false.
Proof. by intros ->. Qed.

Lemma get_guard (m : string) : m = "GET" → negb (String.eqb m api.MethodGet) = false.
Proof. by intros ->. Qed.

Lemma other_than_post (m : string) :
  m ≠ "POST" → negb (String.eqb m api.MethodPost) = true.
Proof. intros Hne. apply negb_true_iff. by apply String.eqb_neq. Qed.

Lemma other_than_get (m : string) :
  m ≠ "GET" → negb (String.eqb m api.MethodGet) = true.
Proof. intros Hne. apply negb_true_iff. by apply String.eqb_neq. Qed.

(** The handler [CreateDevice] once the method and the body are accepted. *)
Lemma api_CreateDevice_accepted addr svc (r : api.Request api.CreateDeviceRequest) req st :
  api.Method r = "POST" → api.Body r = Some req →
  api.CreateDevice (api.NewServer addr svc) r st =
    match CreateDevice svc (api.CreateDeviceRequest_ToOptions req) st with
    | Some (Err e, st') =>
        Some (api.WriteErrorResponse (if Contains e "already exists" then 409 else 500) [e],
              st')
    | Some (Ok p, st') =>
        match heap st' !! p with
        | Some d => Some (api.WriteAPIResponse 201 (api.OneDevice (api.shown d)), st')
        | None => None
        end
    | None => None
    end.
Proof.
  intros Hm Hb. unfold api.CreateDevice. rewrite (post_guard _ Hm), Hb.
  cbn [api.NewServer api.signDeviceService method_set part_003.CreateDevice].
  unfold bind at 1.
  destruct (CreateDevice svc _ st) as [[[p|e] st']|]; [| |done].
  - unfold bind, load, ret. by destruct (heap st' !! p).
  - by destruct (Contains e "already exists").
Qed.

Lemma api_SignData_accepted addr svc (r : api.Request api.SignDataRequest) req st :
  api.Method r = "POST" → api.Body r = Some req →
  api.SignData (api.NewServer addr svc) r st =
    match part_002.SignData svc (mkSign (api.Vars_id r) (api.req_Data req)) st with
    | Some (Err e, st') => Some (api.WriteErrorResponse 500 ["Failed to sign data"], st')
    | Some (Ok resp, st') => Some (api.WriteAPIResponse 200 (api.Signed resp), st')
    | None => None
    end.
Proof.
  intros Hm Hb. unfold api.SignData. rewrite (post_guard _ Hm), Hb.
  cbn [api.NewServer api.signDeviceService method_set part_003.SignData
       api.SignDataRequest_ToOptions api.set_DeviceID Data].
  unfold bind at 1.
  by destruct (part_002.SignData svc _ st) as [[[resp|e] st']|].
Qed.

Lemma for_range_shown st (l : list ptr) (ds : list SignatureDevice) :
  Forall2 (λ p d, heap st !! p = Some d) l ds →
  api.for_range l (λ device,
    let* d := load device in
    ret (api.mkDeviceResponse (ID d) (Label d) (Algorithm d) (SignatureCounter d))) st
  = Some (api.shown <$> ds, st).
Proof.
  induction 1 as [|p d l ds Hp _ IH]; [done|].
  cbn [api.for_range]. unfold bind at 1. unfold bind at 1, load at 1. rewrite Hp.
  unfold ret at 1. unfold bind at 1. rewrite IH. done.
Qed.

Lemma part_002_SignData_total c opts st :
  consistent st → is_Some (part_002.SignData (InMemory c) opts st).
Proof.
  intros Hc. destruct (devices st !! DeviceID opts) as [p|] eqn:Hdev.
  - destruct (Hc _ _ Hdev) as (d & Hd & _ & [sg Hsg]).
    destruct (crypto.Sign sg
                (bytes_of_string
                   (Sprintf_d_s_s (SignatureCounter d) (Data opts) (LastSignature d)))
                (rand st)) as [[sig|e] r'] eqn:Hsign.
    + by rewrite (part_002_SignData_Ok c opts st p d sg sig r').
    + by rewrite (part_002_SignData_Err c opts st p d sg e r').
  - by rewrite part_002_SignData_absent.
Qed.

(** X16.  A request that a handler turns down before it calls the service
    (another method than the handler's, a body that cannot be decoded, no
    device id in the route) is answered with 405 or 400 and changes nothing,
    whatever the service behind the server is. *)
Theorem handlers_reject_before_service (s : api.Server) st :
  (∀ r, api.Method r ≠ "POST" →
     api.CreateDevice s r st
     = Some (api.mkWritten 405 (api.ErrorResponse ["Method Not Allowed"]), st))
  ∧ (∀ r, api.Method r ≠ "POST" →
       api.SignData s r st
       = Some (api.mkWritten 405 (api.ErrorResponse ["Method Not Allowed"]), st))
  ∧ (∀ B (r : api.Request B), api.Method r ≠ "GET" →
       api.GetDevice s r st
       = Some (api.mkWritten 405 (api.ErrorResponse ["Method Not Allowed"]), st))
  ∧ (∀ B (r : api.Request B), api.Method r ≠ "GET" →
       api.GetAllDevices s r st
       = Some (api.mkWritten 405 (api.ErrorResponse ["Method Not Allowed"]), st))
  ∧ (∀ r, api.Method r = "POST" → api.Body r = None →
       api.CreateDevice s r st
       = Some (api.mkWritten 400 (api.ErrorResponse ["Invalid request body"]), st))
  ∧ (∀ r, api.Method r = "POST" → api.Body r = None →
       api.SignData s r st
       = Some (api.mkWritten 400 (api.ErrorResponse ["Invalid request body"]), st))
  ∧ (∀ B (r : api.Request B), api.Method r = "GET" → api.Vars_id r = "" →
       api.GetDevice s r st
       = Some (api.mkWritten 400 (api.ErrorResponse ["Device ID is required"]), st)).
Proof.
  split_and!.
  - intros r Hm. unfold api.CreateDevice. by rewrite (other_than_post _ Hm).
  - intros r Hm. unfold api.SignData. by rewrite (other_than_post _ Hm).
  - intros B r Hm. unfold api.GetDevice. by rewrite (other_than_get _ Hm).
  - intros B r Hm. unfold api.GetAllDevices. by rewrite (other_than_get _ Hm).
  - intros r Hm Hb. unfold api.CreateDevice. by rewrite (post_guard _ Hm), Hb.
  - intros r Hm Hb. unfold api.SignData. by rewrite (post_guard _ Hm), Hb.
  - intros B r Hm Hid. unfold api.GetDevice. by rewrite (get_guard _ Hm), Hid.
Qed.

(** X17.  The answers of the handler [CreateDevice] to a POST with a decoded body,
    on the in-memory service.  It always answers.  Either the service created
    the device, and the answer is 201 with the id, label and algorithm of
    the request and the counter 0; or the service returned an error, and the
    answer carries that error's text, with 409 when the text contains
    "already exists" and with 500 otherwise. *)
Theorem api_CreateDevice_answers addr c (r : api.Request api.CreateDeviceRequest) req st :
  api.Method r = "POST" → api.Body r = Some req →
  ∃ w st', api.CreateDevice (api.NewServer addr (InMemory c)) r st = Some (w, st')
    ∧ ((∃ p, CreateDevice (InMemory c) (api.CreateDeviceRequest_ToOptions req) st
               = Some (Ok p, st')
             ∧ w = api.mkWritten 201
                     (api.Response (api.OneDevice
                        (api.mkDeviceResponse (api.req_ID req) (api.req_Label req)
                                              (api.req_Algorithm req) 0))))
       ∨ (∃ e, CreateDevice (InMemory c) (api.CreateDeviceRequest_ToOptions req) st
                 = Some (Err e, st')
               ∧ w = api.mkWritten (if Contains e "already exists" then 409 else 500)
                                   (api.ErrorResponse [e]))).
Proof.
  intros Hm Hb. rewrite (api_CreateDevice_accepted addr _ r req st Hm Hb).
  destruct (CreateDevice_total c (api.CreateDeviceRequest_ToOptions req) st)
    as [[[p|e] st'] Hrun]; rewrite Hrun.
  - destruct (CreateDevice_Ok_inv _ _ _ _ _ Hrun) as (keys & st0 & _ & _ & _ & -> & ->).
    unfold saved at 1. cbn [heap]. rewrite lookup_insert_eq.
    eexists _, _. split; [done|]. left. eexists. split; [done|].
    by destruct keys as [[? ?] ?].
  - eexists _, _. split; [done|]. right. by exists e.
Qed.

(** X18.  A second POST for an id that is stored, on the store of inmemory.go
    1-69 and with a valid algorithm whose key generation succeeds: the answer
    is 409 Conflict with the text of [Save]'s error, and the store holds what
    it held.  (The key pair was generated and the device object built before
    the store was asked.) *)
Theorem api_duplicate_id_conflict addr (r : api.Request api.CreateDeviceRequest) req st
    keys st0 q :
  api.Method r = "POST" → api.Body r = Some req →
  valid_algorithm (api.req_Algorithm req) →
  switch_Algorithm (api.req_Algorithm req) st = Some (Ok keys, st0) →
  devices st !! api.req_ID req = Some q →
  ∃ st', api.CreateDevice (api.NewServer addr (InMemory lines_1_69)) r st
         = Some (api.mkWritten 409
                   (api.ErrorResponse
                      ["failed to save device: device " +:+ api.req_ID req
                       +:+ " already exists"]), st')
    ∧ devices st' = devices st
    ∧ (∀ p d, heap st !! p = Some d → heap st' !! p = Some d)
    ∧ generate_calls st' = generate_calls st ++ [api.req_Algorithm req].
Proof.
  intros Hm Hb Hv Hk Hq. rewrite (api_CreateDevice_accepted addr _ r req st Hm Hb).
  rewrite (CreateDevice_conflict (api.CreateDeviceRequest_ToOptions req) st keys st0 q)
    by done.
  assert (Contains ("failed to save device: device "
                    +:+ opt_ID (api.CreateDeviceRequest_ToOptions req) +:+ " already exists")
                   "already exists" = true) as ->.
  { apply (Contains_app_l "failed to save device: device "), Contains_app_l.
    reflexivity. }
  destruct (switch_Algorithm_frame _ _ _ _ Hk) as (Hd & Hh & _).
  eexists. split; [reflexivity|]. split_and!.
  - done.
  - intros p d Hp. apply heap_allocated_old. by rewrite Hh.
  - cbn. destruct (switch_Algorithm_keys _ _ _ _ Hk)
      as [(Ha & _ & _ & _ & _ & Hlog)|[(Ha & _ & _ & _ & _ & Hlog)|(H1 & H2 & _)]].
    + cbn in Ha. by rewrite Hlog, Ha.
    + cbn in Ha. by rewrite Hlog, Ha.
    + cbn in H1, H2. destruct Hv; congruence.
Qed.

(** X19.  An algorithm that is neither RSA nor ECC is not a client error for the
    handler: the answer is 500 with "invalid algorithm: <alg>", and it is
    409 Conflict when the name of the algorithm happens to contain
    "already exists", although nothing exists; nothing changes either way. *)
Theorem api_invalid_algorithm_status addr svc (r : api.Request api.CreateDeviceRequest)
    req st :
  api.Method r = "POST" → api.Body r = Some req →
  api.req_Algorithm req ≠ "RSA" → api.req_Algorithm req ≠ "ECC" →
  api.CreateDevice (api.NewServer addr svc) r st
  = Some (api.mkWritten
            (if Contains (api.req_Algorithm req) "already exists" then 409 else 500)
            (api.ErrorResponse ["invalid algorithm: " +:+ api.req_Algorithm req]), st).
Proof.
  intros Hm Hb H1 H2. rewrite (api_CreateDevice_accepted addr _ r req st Hm Hb).
  rewrite CreateDevice_invalid by done.
  cbn [api.CreateDeviceRequest_ToOptions opt_Algorithm].
  by rewrite Contains_invalid_algorithm.
Qed.

(** X20.  The handler [SignData] on a consistent in-memory store, for a POST with
    a decoded body.  It always answers, and the store is consistent
    afterwards.  The device signed for is the one named in the route.  Either
    the service signed, and the answer is 200 with the service's response; or
    the answer is 500 with the fixed text "Failed to sign data", whatever the
    cause (also for an id that is not stored), and then no device and no
    entry of the store has changed. *)
Theorem api_SignData_answers addr c (r : api.Request api.SignDataRequest) req st :
  consistent st →
  api.Method r = "POST" → api.Body r = Some req →
  ∃ w st', api.SignData (api.NewServer addr (InMemory c)) r st = Some (w, st')
    ∧ consistent st'
    ∧ ((∃ resp, part_002.SignData (InMemory c)
                  (mkSign (api.Vars_id r) (api.req_Data req)) st = Some (Ok resp, st')
                ∧ w = api.mkWritten 200 (api.Response (api.Signed resp)))
       ∨ (w = api.mkWritten 500 (api.ErrorResponse ["Failed to sign data"])
          ∧ devices st' = devices st ∧ heap st' = heap st)).
Proof.
  intros Hc Hm Hb. rewrite (api_SignData_accepted addr _ r req st Hm Hb).
  destruct (part_002.SignData (InMemory c) (mkSign (api.Vars_id r) (api.req_Data req)) st)
    as [[[resp|e] st']|] eqn:Hrun.
  - eexists _, _. split; [done|]. split; [by eapply consistent_part_002_SignData|].
    left. by exists resp.
  - eexists _, _. split; [done|]. split; [by eapply consistent_part_002_SignData|].
    right. split; [done|].
    destruct (part_002_SignData_cases _ _ _ _ _ Hrun)
      as [(_ & _ & ->)
         |(p & d & sg & _ & _ & _ & [(sig & r' & _ & ? & _)|(e0 & r' & _ & _ & ->)])];
      by simplify_eq.
  - exfalso. revert Hrun.
    destruct (part_002_SignData_total c (mkSign (api.Vars_id r) (api.req_Data req)) st Hc)
      as [? ->]. done.
Qed.

(** X21.  The handler [GetDevice] on a consistent in-memory store, for a GET.  It
    reads only.  For a stored id that is not empty the answer is 200 with the
    id, label, algorithm and counter of the stored record; for an id that is
    not stored it is 500 "Failed to get device", not 404; and for the empty id
    it is 400 even when a device is stored under the empty id, which
    [CreateDevice] allows. *)
Theorem api_GetDevice_answers {B} addr c (r : api.Request B) st :
  consistent st →
  api.Method r = "GET" →
  api.GetDevice (api.NewServer addr (InMemory c)) r st
  = Some (if String.eqb (api.Vars_id r) ""
          then api.mkWritten 400 (api.ErrorResponse ["Device ID is required"])
          else match stored st (api.Vars_id r) with
               | Some d => api.mkWritten 200 (api.Response (api.OneDevice (api.shown d)))
               | None => api.mkWritten 500 (api.ErrorResponse ["Failed to get device"])
               end, st).
Proof.
  intros Hc Hm. unfold api.GetDevice. rewrite (get_guard _ Hm).
  destruct (String.eqb (api.Vars_id r) ""); [done|].
  cbn [api.NewServer api.signDeviceService method_set part_003.GetDevice].
  unfold stored.
  destruct (devices st !! api.Vars_id r) as [p|] eqn:Hdev.
  - destruct (Hc _ _ Hdev) as (d & Hd & _). rewrite Hd.
    destruct c; (go_run with first [rewrite Hdev | rewrite Hd]); reflexivity.
  - destruct c; (go_run with rewrite Hdev); reflexivity.
Qed.

(** X22.  The handler [GetAllDevices] on a consistent in-memory store, for a GET:
    the answer is always 200, with one entry for each stored device, showing
    the id, label, algorithm and counter of the stored record and nothing
    else; for a store without devices it is the empty list.  No device and no
    entry of the store changes. *)
Theorem api_GetAllDevices_lists_store {B} addr c (r : api.Request B) st :
  consistent st →
  api.Method r = "GET" →
  ∃ l st', api.GetAllDevices (api.NewServer addr (InMemory c)) r st
           = Some (api.mkWritten 200 (api.Response (api.Devices l)), st')
    ∧ length l = size (devices st)
    ∧ (∀ resp, resp ∈ l ↔ ∃ id d, stored st id = Some d ∧ resp = api.shown d)
    ∧ (devices st = ∅ → l = [])
    ∧ devices st' = devices st ∧ heap st' = heap st.
Proof.
  intros Hc Hm.
  assert (∃ ds, Forall2 (λ p d, heap st !! p = Some d) (map_to_list (devices st)).*2 ds
                ∧ ∀ d, d ∈ ds ↔ ∃ id, stored st id = Some d) as (ds & Hds & Hmem).
  { assert (∀ l : list (string * ptr),
              (∀ id p, (id, p) ∈ l → devices st !! id = Some p) →
              ∃ ds, Forall2 (λ p d, heap st !! p = Some d) l.*2 ds
                    ∧ ∀ d, d ∈ ds ↔ ∃ id p, (id, p) ∈ l ∧ heap st !! p = Some d) as Hgen.
    { induction l as [|[id p] l IH]; intros Hl.
      - exists []. split; [constructor|]. intros d. split; [by intros ?%elem_of_nil|].
        by intros (? & ? & ?%elem_of_nil & _).
      - destruct IH as (ds & Hds & Hmem).
        { intros id' p' Hin. apply Hl. by right. }
        destruct (Hc id p) as (d & Hd & _); [apply Hl; by left|].
        exists (d :: ds). split; [by constructor|].
        intros d'. rewrite elem_of_cons, Hmem. split.
        + intros [->|(id' & p' & Hin & Hp')].
          * exists id, p. split; [by left|done].
          * exists id', p'. split; [by right|done].
        + intros (id' & p' & Hin & Hp'). apply elem_of_cons in Hin as [Heq|Hin].
          * simplify_eq. by left.
          * right. by exists id', p'. }
    destruct (Hgen (map_to_list (devices st))) as (ds & Hds & Hmem).
    { intros id p Hin. by apply elem_of_map_to_list. }
    exists ds. split; [done|]. intros d. rewrite Hmem. unfold stored. split.
    - intros (id & p & Hin%elem_of_map_to_list & Hp). exists id. by rewrite Hin.
    - intros (id & Hst). destruct (devices st !! id) as [p|] eqn:Hdev; [|done].
      exists id, p. split; [by apply elem_of_map_to_list|done]. }
  exists (api.shown <$> ds), (listed st). split_and!.
  - unfold api.GetAllDevices. rewrite (get_guard _ Hm).
    cbn [api.NewServer api.signDeviceService method_set part_003.GetAllDevices].
    unfold bind at 1. rewrite GetAllDevices_eval.
    unfold bind at 1, api.read_slice at 1. unfold listed at 1. cbn [slices].
    rewrite lookup_insert_eq. unfold bind at 1.
    rewrite (for_range_shown (listed st) _ ds) by done. done.
  - rewrite length_fmap, <- (Forall2_length _ _ _ Hds), length_fmap.
    apply length_map_to_list.
  - intros resp. rewrite list_elem_of_fmap. split.
    + intros (d & -> & Hd). apply Hmem in Hd as (id & Hid). by exists id, d.
    + intros (id & d & Hid & ->). exists d. split; [done|]. apply Hmem. by exists id.
  - intros Hempty. rewrite Hempty, map_to_list_empty in Hds.
    apply Forall2_nil_inv_l in Hds. by subst.
  - done.
  - done.
Qed.
End handlers.

(* ---------------------------------------------------------------------- *)
(** ** The further statements at concrete inputs                           *)
(* ---------------------------------------------------------------------- *)

Lemma consistent_one_device id p d sl (r : Rand) log :
  ID d = id → is_Some (Signer d) →
  consistent (mkState {[id := p]} {[p := d]} sl r log).
Proof.
  intros Hid Hsg id' p' Hlook. cbn in *.
  apply lookup_singleton_Some in Hlook as [<- <-].
  exists d. by rewrite lookup_singleton_eq.
Qed.

Lemma consistent_created n : consistent (created n).
Proof. by apply consistent_one_device. Qed.

Lemma consistent_empty n : consistent (empty n).
Proof. intros id p Hlook. cbn in Hlook. by rewrite lookup_empty in Hlook. Qed.

Lemma consistent_invariant_witness :
  consistent (created 2)
  ∧ CreateDevice (InMemory lines_71_124) create_d1_again (created 2)
      = Some (Ok 2%positive, overwritten)
  ∧ consistent overwritten.
Proof.
  assert (CreateDevice (InMemory lines_71_124) create_d1_again (created 2)
          = Some (Ok 2%positive, overwritten)) as Hrun.
  { vm_compute. reflexivity. }
  split; [apply consistent_created|]. split; [exact Hrun|].
  exact (proj1 (consistent_invariant lines_71_124 (created 2) (consistent_created 2))
           create_d1_again (Ok 2%positive) overwritten Hrun).
Defined.

Lemma consistent_no_panic_witness :
  consistent (created 0)
  ∧ is_Some (part_002.SignData (InMemory lines_1_69) (mkSign "d1" "tx1") (created 0))
  ∧ is_Some (service_go.SignData (InMemory lines_1_69) "d1" "tx1" (created 0)).
Proof.
  split; [apply consistent_created|].
  pose proof (consistent_no_panic lines_1_69 (created 0) (consistent_created 0))
    as (_ & Hnew & Hold & _).
  split; [apply Hnew|apply Hold].
Defined.

Lemma SignData_touches_one_device_witness :
  consistent (created 2)
  ∧ part_002.SignData (InMemory lines_1_69) (mkSign "d1" "tx1") (created 2)
    = Some (Ok tx1_from_zero,
            after_update (created 2) 1%positive
              (signed_device (Signature tx1_from_zero) (d1 2)) 1%nat)
  ∧ devices (after_update (created 2) 1%positive
               (signed_device (Signature tx1_from_zero) (d1 2)) 1%nat)
    = devices (created 2)
  ∧ ∃ d', stored (after_update (created 2) 1%positive
                    (signed_device (Signature tx1_from_zero) (d1 2)) 1%nat) "d1" = Some d'
          ∧ same_identity (d1 2) d'.
Proof.
  assert (part_002.SignData (InMemory lines_1_69) (mkSign "d1" "tx1") (created 2)
          = Some (Ok tx1_from_zero,
                  after_update (created 2) 1%positive
                    (signed_device (Signature tx1_from_zero) (d1 2)) 1%nat)) as Hrun.
  { vm_compute. reflexivity. }
  split; [apply consistent_created|]. split; [exact Hrun|].
  destruct (proj1 (SignData_touches_one_device lines_1_69 "d1" "tx1" (created 2)
                     (consistent_created 2)) _ _ Hrun) as (Hdev & _ & Hsame).
  split; [exact Hdev|]. apply Hsame. vm_compute. reflexivity.
Defined.

Lemma part_002_SignData_errors_witness :
  part_002.SignData (InMemory lines_1_69) (mkSign "d1" "tx1") (created 0)
    = Some (Err "failed to sign data: crypto/rand: no entropy", created 0)
  ∧ ("failed to sign data: crypto/rand: no entropy"
       = "failed to find device: device not found"
     ∨ ∃ e', "failed to sign data: crypto/rand: no entropy" = "failed to sign data: " +:+ e')
  ∧ devices (created 0) = devices (created 0)
  ∧ heap (created 0) = heap (created 0)
  ∧ slices (created 0) = slices (created 0).
Proof.
  assert (part_002.SignData (InMemory lines_1_69) (mkSign "d1" "tx1") (created 0)
          = Some (Err "failed to sign data: crypto/rand: no entropy", created 0)) as Hrun.
  { vm_compute. reflexivity. }
  split; [exact Hrun|].
  exact (part_002_SignData_errors lines_1_69 (mkSign "d1" "tx1") (created 0) _ _ Hrun).
Defined.

Lemma SignData_signature_is_over_SignedData_witness :
  part_002.SignData (InMemory lines_1_69) (mkSign "d1" "tx1") (created 2)
    = Some (Ok tx1_from_zero,
            after_update (created 2) 1%positive
              (signed_device (Signature tx1_from_zero) (d1 2)) 1%nat)
  ∧ ∃ d sg sig,
      stored (created 2) "d1" = Some d ∧ Signer d = Some sg
      ∧ crypto.Sign sg (bytes_of_string (SignedData tx1_from_zero)) 2%nat = (Ok sig, 1%nat)
      ∧ Signature tx1_from_zero = EncodeToString sig.
Proof.
  assert (part_002.SignData (InMemory lines_1_69) (mkSign "d1" "tx1") (created 2)
          = Some (Ok tx1_from_zero,
                  after_update (created 2) 1%positive
                    (signed_device (Signature tx1_from_zero) (d1 2)) 1%nat)) as Hrun.
  { vm_compute. reflexivity. }
  split; [exact Hrun|].
  exact (proj1 (SignData_signature_is_over_SignedData lines_1_69 "d1" "tx1" (created 2))
           _ _ Hrun).
Defined.

Lemma CreateDevice_frame_witness :
  consistent (empty 3)
  ∧ CreateDevice (InMemory lines_1_69) create_d1 (empty 3) = Some (Ok 1%positive, created 2)
  ∧ (∀ id', id' ≠ "d1" → stored (created 2) id' = stored (empty 3) id')
  ∧ dom (devices (created 2)) = {["d1"]} ∪ dom (devices (empty 3)).
Proof.
  assert (CreateDevice (InMemory lines_1_69) create_d1 (empty 3)
          = Some (Ok 1%positive, created 2)) as Hrun.
  { vm_compute. reflexivity. }
  split; [apply consistent_empty|]. split; [exact Hrun|].
  destruct (CreateDevice_frame lines_1_69 create_d1 (empty 3) _ _
              (consistent_empty 3) Hrun) as (Hother & _ & Hdom).
  split; [exact Hother|]. apply Hdom. reflexivity.
Defined.

Lemma CreateDevice_binds_generated_key_witness :
  CreateDevice (InMemory lines_1_69) create_d1 (empty 3) = Some (Ok 1%positive, created 2)
  ∧ ∃ d, heap (created 2) !! 1%positive = Some d
         ∧ Algorithm d = "RSA"
         ∧ generate_calls (created 2) = generate_calls (empty 3) ++ [Algorithm d]
         ∧ ((Algorithm d = "RSA" ∧ ∃ pub priv,
               RSAGenerator_Generate 3%nat = (Ok (pub, priv), 2%nat)
               ∧ PublicKey d = RSAPublic pub ∧ PrivateKey d = RSAPrivate priv
               ∧ Signer d = Some (crypto.RSASigner priv))
            ∨ (Algorithm d = "ECC" ∧ ∃ pub priv,
                 ECCGenerator_Generate 3%nat = (Ok (pub, priv), 2%nat)
                 ∧ PublicKey d = ECPublic pub ∧ PrivateKey d = ECPrivate priv
                 ∧ Signer d = Some (crypto.ECDSASigner priv))).
Proof.
  assert (CreateDevice (InMemory lines_1_69) create_d1 (empty 3)
          = Some (Ok 1%positive, created 2)) as Hrun.
  { vm_compute. reflexivity. }
  split; [exact Hrun|].
  exact (CreateDevice_binds_generated_key lines_1_69 create_d1 (empty 3) _ _ Hrun).
Defined.

Lemma CreateDevice_key_generation_fails_witness :
  RSAGenerator_Generate (rand (empty 0)) = (Err "crypto/rand: no entropy", 0%nat)
  ∧ CreateDevice (InMemory lines_1_69) (mkCreate "d1" "My Device" "RSA") (empty 0)
    = Some (Err ("failed to generate RSA key pair: " +:+ "crypto/rand: no entropy"),
            mkState ∅ ∅ ∅ 0%nat ["RSA"]).
Proof.
  assert (RSAGenerator_Generate (rand (empty 0)) = (Err "crypto/rand: no entropy", 0%nat))
    as Hgen by reflexivity.
  split; [exact Hgen|].
  exact (proj1 (CreateDevice_key_generation_fails (InMemory lines_1_69) "d1" "My Device"
                  (empty 0)) _ _ Hgen).
Defined.

Lemma CreateDevice_then_GetDevice_witness :
  CreateDevice (InMemory lines_1_69) create_d1 (empty 3) = Some (Ok 1%positive, created 2)
  ∧ GetDevice (InMemory lines_1_69) "d1" (created 2) = Some (Ok 1%positive, created 2).
Proof.
  assert (CreateDevice (InMemory lines_1_69) create_d1 (empty 3)
          = Some (Ok 1%positive, created 2)) as Hrun.
  { vm_compute. reflexivity. }
  split; [exact Hrun|].
  exact (CreateDevice_then_GetDevice lines_1_69 create_d1 (empty 3) _ _ Hrun).
Defined.

Lemma Update_upserts_witness :
  heap (created 2) !! 1%positive = Some (d1 2)
  ∧ ∃ st', storage_go.Update (storage (InMemory lines_71_124)) 1%positive (created 2)
           = Some (None, st')
    ∧ storage_go.GetDevice (storage (InMemory lines_71_124)) "d1" st'
      = Some (Ok 1%positive, st')
    ∧ (∀ id, id ≠ "d1" → devices st' !! id = devices (created 2) !! id)
    ∧ heap st' = heap (created 2) ∧ slices st' = slices (created 2)
    ∧ rand st' = rand (created 2).
Proof.
  assert (heap (created 2) !! 1%positive = Some (d1 2)) as Hheap.
  { vm_compute. reflexivity. }
  split; [exact Hheap|].
  exact (Update_upserts lines_71_124 1%positive (d1 2) (created 2) Hheap).
Defined.

Lemma Save_outcome_witness :
  heap (created 2) !! 1%positive = Some (d1 2)
  ∧ ∃ r st', storage_go.Save (storage (InMemory lines_1_69)) 1%positive (created 2)
             = Some (r, st')
    ∧ heap st' = heap (created 2)
    ∧ match r with
      | None =>
          (lines_1_69 = lines_1_69 → devices (created 2) !! "d1" = None)
          ∧ devices st' = <["d1" := 1%positive]> (devices (created 2))
          ∧ storage_go.GetDevice (storage (InMemory lines_1_69)) "d1" st'
            = Some (Ok 1%positive, st')
      | Some e =>
          lines_1_69 = lines_1_69 ∧ is_Some (devices (created 2) !! "d1")
          ∧ e = "device " +:+ "d1" +:+ " already exists" ∧ st' = created 2
      end.
Proof.
  assert (heap (created 2) !! 1%positive = Some (d1 2)) as Hheap.
  { vm_compute. reflexivity. }
  split; [exact Hheap|].
  exact (Save_outcome lines_1_69 1%positive (d1 2) (created 2) Hheap).
Defined.

Lemma GetAllDevices_lists_each_device_once_witness :
  consistent (created 2)
  ∧ ∃ a l st', GetAllDevices (InMemory lines_1_69) (created 2) = Some (Ok a, st')
      ∧ slices st' !! a = Some l
      ∧ length l = size (devices (created 2))
      ∧ NoDup l
      ∧ (∀ p, p ∈ l → ∃ d, heap st' !! p = Some d ∧ devices st' !! ID d = Some p)
      ∧ (∀ id p, devices (created 2) !! id = Some p → p ∈ l).
Proof.
  split; [apply consistent_created|].
  exact (GetAllDevices_lists_each_device_once lines_1_69 (created 2) (consistent_created 2)).
Defined.

Lemma signed_data_never_repeats_witness :
  sequentially (λ data, part_002.SignData (InMemory lines_1_69) (mkSign "d1" data))
    ["tx1"; "tx2"] (created 2)
    = Some ([Ok tx1_from_zero; Ok tx2_from_zero], signed_twice (Signature tx2_from_zero))
  ∧ SignedData tx1_from_zero ≠ SignedData tx2_from_zero.
Proof.
  assert (sequentially (λ data, part_002.SignData (InMemory lines_1_69) (mkSign "d1" data))
            ["tx1"; "tx2"] (created 2)
          = Some ([Ok tx1_from_zero; Ok tx2_from_zero],
                  signed_twice (Signature tx2_from_zero))) as Hrun.
  { vm_compute. reflexivity. }
  split; [exact Hrun|].
  apply (signed_data_never_repeats lines_1_69 "d1" ["tx1"; "tx2"] (created 2) 1%positive
           (d1 2)
           (λ data, part_002.SignData (InMemory lines_1_69) (mkSign "d1" data))
           [Ok tx1_from_zero; Ok tx2_from_zero]
           (signed_twice (Signature tx2_from_zero))) with (j := 0%nat) (k := 1%nat).
  - vm_compute. reflexivity.
  - vm_compute. reflexivity.
  - reflexivity.
  - vm_compute. discriminate.
  - by left.
  - exact Hrun.
  - repeat constructor.
  - reflexivity.
  - reflexivity.
  - lia.
Defined.


Lemma parallel_SignData_keeps_store_witness :
  consistent (created 2)
  ∧ schedule second_caller_first
      (start (created 2)
         (part_002_SignData_steps (InMemory lines_1_69)
            <$> [mkSign "d1" "tx1"; mkSign "d1" "tx2"]))
    = Some (both_returned parallel_tx1_from_zero parallel_tx2_from_zero)
  ∧ consistent (shared (both_returned parallel_tx1_from_zero parallel_tx2_from_zero))
  ∧ devices (shared (both_returned parallel_tx1_from_zero parallel_tx2_from_zero))
    = devices (created 2)
  ∧ length [Ok parallel_tx1_from_zero; Ok parallel_tx2_from_zero]
    = length [mkSign "d1" "tx1"; mkSign "d1" "tx2"].
Proof.
  assert (schedule second_caller_first
            (start (created 2)
               (part_002_SignData_steps (InMemory lines_1_69)
                  <$> [mkSign "d1" "tx1"; mkSign "d1" "tx2"]))
          = Some (both_returned parallel_tx1_from_zero parallel_tx2_from_zero)) as Hrun.
  { vm_compute. reflexivity. }
  split; [apply consistent_created|]. split; [exact Hrun|].
  apply (proj1 (parallel_SignData_keeps_store lines_1_69 (created 2) _
                  (consistent_created 2))
           [mkSign "d1" "tx1"; mkSign "d1" "tx2"]
           [Ok parallel_tx1_from_zero; Ok parallel_tx2_from_zero]).
  - apply (schedule_sound second_caller_first). exact Hrun.
  - reflexivity.
Defined.

Lemma handlers_reject_before_service_witness :
  api.GetDevice (api.NewServer ":8080" (InMemory lines_1_69))
    (api.mkRequest (B := unit) "GET" None "") (created 2)
  = Some (api.mkWritten 400 (api.ErrorResponse ["Device ID is required"]), created 2)
  ∧ api.SignData (api.NewServer ":8080" (InMemory lines_1_69))
      (api.mkRequest "GET" (Some (api.mkSignRequest "tx1")) "d1") (created 2)
    = Some (api.mkWritten 405 (api.ErrorResponse ["Method Not Allowed"]), created 2).
Proof.
  pose proof (handlers_reject_before_service
                (api.NewServer ":8080" (InMemory lines_1_69)) (created 2))
    as (_ & Hsign & _ & _ & _ & _ & Hget).
  split.
  - apply Hget; reflexivity.
  - apply Hsign. discriminate.
Defined.

Lemma api_CreateDevice_answers_witness :
  ∃ w st',
    api.CreateDevice (api.NewServer ":8080" (InMemory lines_1_69))
      (api.mkRequest "POST" (Some (api.mkCreateRequest "d1" "My Device" "RSA")) "")
      (empty 3) = Some (w, st')
    ∧ ((∃ p, CreateDevice (InMemory lines_1_69)
               (api.CreateDeviceRequest_ToOptions (api.mkCreateRequest "d1" "My Device" "RSA"))
               (empty 3) = Some (Ok p, st')
             ∧ w = api.mkWritten 201
                     (api.Response (api.OneDevice
                        (api.mkDeviceResponse "d1" "My Device" "RSA" 0))))
       ∨ (∃ e, CreateDevice (InMemory lines_1_69)
                 (api.CreateDeviceRequest_ToOptions
                    (api.mkCreateRequest "d1" "My Device" "RSA"))
                 (empty 3) = Some (Err e, st')
               ∧ w = api.mkWritten
                       (if strings_go.Contains e "already exists" then 409 else 500)
                       (api.ErrorResponse [e]))).
Proof.
  apply (api_CreateDevice_answers ":8080" lines_1_69
           (api.mkRequest "POST" (Some (api.mkCreateRequest "d1" "My Device" "RSA")) "")
           (api.mkCreateRequest "d1" "My Device" "RSA") (empty 3)); reflexivity.
Defined.

Lemma api_duplicate_id_conflict_witness :
  switch_Algorithm "ECC" (created 2) = Some (Ok second_keys, created_keys_drawn)
  ∧ ∃ st',
      api.CreateDevice (api.NewServer ":8080" (InMemory lines_1_69))
        (api.mkRequest "POST" (Some (api.mkCreateRequest "d1" "Second" "ECC")) "")
        (created 2)
      = Some (api.mkWritten 409
                (api.ErrorResponse
                   ["failed to save device: device " +:+ "d1" +:+ " already exists"]), st')
      ∧ devices st' = devices (created 2)
      ∧ (∀ p d, heap (created 2) !! p = Some d → heap st' !! p = Some d)
      ∧ generate_calls st' = generate_calls (created 2) ++ ["ECC"].
Proof.
  assert (switch_Algorithm "ECC" (created 2) = Some (Ok second_keys, created_keys_drawn))
    as Hkeys.
  { vm_compute. reflexivity. }
  split; [exact Hkeys|].
  apply (api_duplicate_id_conflict ":8080"
           (api.mkRequest "POST" (Some (api.mkCreateRequest "d1" "Second" "ECC")) "")
           (api.mkCreateRequest "d1" "Second" "ECC") (created 2)
           second_keys created_keys_drawn 1%positive).
  - reflexivity.
  - reflexivity.
  - by right.
  - exact Hkeys.
  - vm_compute. reflexivity.
Defined.

Lemma api_invalid_algorithm_status_witness :
  api.CreateDevice (api.NewServer ":8080" (InMemory lines_1_69))
    (api.mkRequest "POST"
       (Some (api.mkCreateRequest "d9" "My Device" "DSA (already exists)")) "")
    (empty 3)
  = Some (api.mkWritten 409
            (api.ErrorResponse ["invalid algorithm: DSA (already exists)"]), empty 3)
  ∧ api.CreateDevice (api.NewServer ":8080" (InMemory lines_1_69))
      (api.mkRequest "POST" (Some (api.mkCreateRequest "d9" "My Device" "DSA")) "")
      (empty 3)
    = Some (api.mkWritten 500 (api.ErrorResponse ["invalid algorithm: DSA"]), empty 3).
Proof.
  split.
  - apply (api_invalid_algorithm_status ":8080" (InMemory lines_1_69)
             (api.mkRequest "POST"
                (Some (api.mkCreateRequest "d9" "My Device" "DSA (already exists)")) "")
             (api.mkCreateRequest "d9" "My Device" "DSA (already exists)") (empty 3));
      [reflexivity|reflexivity|discriminate|discriminate].
  - apply (api_invalid_algorithm_status ":8080" (InMemory lines_1_69)
             (api.mkRequest "POST" (Some (api.mkCreateRequest "d9" "My Device" "DSA")) "")
             (api.mkCreateRequest "d9" "My Device" "DSA") (empty 3));
      [reflexivity|reflexivity|discriminate|discriminate].
Defined.

Lemma api_SignData_answers_witness :
  consistent (created 2)
  ∧ ∃ w st',
      api.SignData (api.NewServer ":8080" (InMemory lines_1_69))
        (api.mkRequest "POST" (Some (api.mkSignRequest "tx1")) "d1") (created 2)
      = Some (w, st')
      ∧ consistent st'
      ∧ ((∃ resp, part_002.SignData (InMemory lines_1_69) (mkSign "d1" "tx1") (created 2)
                  = Some (Ok resp, st')
                  ∧ w = api.mkWritten 200 (api.Response (api.Signed resp)))
         ∨ (w = api.mkWritten 500 (api.ErrorResponse ["Failed to sign data"])
            ∧ devices st' = devices (created 2) ∧ heap st' = heap (created 2))).
Proof.
  split; [apply consistent_created|].
  apply (api_SignData_answers ":8080" lines_1_69
           (api.mkRequest "POST" (Some (api.mkSignRequest "tx1")) "d1")
           (api.mkSignRequest "tx1") (created 2) (consistent_created 2)); reflexivity.
Defined.

Lemma api_GetDevice_answers_witness :
  CreateDevice (InMemory lines_1_69) Unnamed.no_id (empty 1)
  = Some (Ok 1%positive, Unnamed.created_no_id)
  ∧ api.GetDevice (api.NewServer ":8080" (InMemory lines_1_69))
      (api.mkRequest (B := unit) "GET" None "") Unnamed.created_no_id
    = Some (api.mkWritten 400 (api.ErrorResponse ["Device ID is required"]),
            Unnamed.created_no_id)
  ∧ api.GetDevice (api.NewServer ":8080" (InMemory lines_1_69))
      (api.mkRequest (B := unit) "GET" None "d1") (created 2)
    = Some (api.mkWritten 200
              (api.Response (api.OneDevice (api.mkDeviceResponse "d1" "My Device" "RSA" 0))),
            created 2)
  ∧ api.GetDevice (api.NewServer ":8080" (InMemory lines_1_69))
      (api.mkRequest (B := unit) "GET" None "d2") (created 2)
    = Some (api.mkWritten 500 (api.ErrorResponse ["Failed to get device"]), created 2).
Proof.
  split; [vm_compute; reflexivity|]. split_and!.
  - apply (api_GetDevice_answers ":8080" lines_1_69
             (api.mkRequest (B := unit) "GET" None "") Unnamed.created_no_id).
    + by apply consistent_one_device.
    + reflexivity.
  - apply (api_GetDevice_answers ":8080" lines_1_69
             (api.mkRequest (B := unit) "GET" None "d1") (created 2)
             (consistent_created 2)). reflexivity.
  - apply (api_GetDevice_answers ":8080" lines_1_69
             (api.mkRequest (B := unit) "GET" None "d2") (created 2)
             (consistent_created 2)). reflexivity.
Defined.

Lemma api_GetAllDevices_lists_store_witness :
  consistent (created 2)
  ∧ ∃ l st',
      api.GetAllDevices (api.NewServer ":8080" (InMemory lines_1_69))
        (api.mkRequest (B := unit) "GET" None "") (created 2)
      = Some (api.mkWritten 200 (api.Response (api.Devices l)), st')
      ∧ length l = size (devices (created 2))
      ∧ (∀ resp, resp ∈ l ↔ ∃ id d, stored (created 2) id = Some d ∧ resp = api.shown d)
      ∧ (devices (created 2) = ∅ → l = [])
      ∧ devices st' = devices (created 2) ∧ heap st' = heap (created 2).
Proof.
  split; [apply consistent_created|].
  apply (api_GetAllDevices_lists_store ":8080" lines_1_69
           (api.mkRequest (B := unit) "GET" None "") (created 2) (consistent_created 2)).
  reflexivity.
Defined.
